(** * Flight Extracter: the extraction driver, the deduplicator and the batch
      orchestrator of the content script

    A shallow embedding of the core of the content script: the identity key of
    a flight record ([generateFlightKey]), the duplicate check on a seen-set
    ([isDuplicateFlight]), the structure validation
    ([validateDomesticTripStructure]), the sequential per-card driver
    ([extractFlightsSequentially], [extractRoundTripFlights],
    [extractFlightData], with the finders [findViewPricesButtonForCard] and
    [findViewFlightDetailsLinkForCard]) and the batch orchestrator
    ([processNextRoute], [performAutoExtraction],
    [processMultipleRoutesAndDates], [checkAndAutoExtract]).

    Conventions of the embedding.
    - A JavaScript string is a [string]; its characters stand for UTF-16 code
      units in the range U+0000..U+00FF.
    - A property that holds a string, [null] or [undefined] is an
      [option string]; [js_truthy] is JavaScript truthiness on such a value.
    - A [Set] of strings is a [gset string].
    - The DOM is not rebuilt: what the script reads from the page (query
      results, visibility, extracted text) is given by observation records
      ([Card], [RtCard], [Pane], [Page]), one field per read, in the order the
      script performs them.  A call that may raise yields a [Completion].
    - What the one-way driver does to the page is recorded in an event trace,
      oldest first: the calls of the three helpers that prepare the listing,
      and, for every iteration of the card loop, the scrolls and clicks the
      loop body makes itself and its calls of [closePopupIfOpen].  A click on
      a control that a finder returned is recorded with the place where the
      finder found it.  What a helper does inside (the clicks of the
      preparation helpers on the filter and on the links of group cards, the
      tabs opened by the extractors) is not unfolded.
    - Storage writes, messages and navigations of the orchestrator are
      recorded in a second trace. *)

From Stdlib Require Import ZArith Ascii String Sorted.
From stdpp Require Import base option list gmap mapset strings pretty.

Local Open Scope string_scope.
Local Open Scope list_scope.

#[local] Set Warnings "-clear-no-such-hyp".

(** ** JavaScript values *)

Module Js.

(** A completion: the value of an evaluation, or an exception. *)
Inductive Completion (A : Type) : Type :=
| Normal (a : A)
| Throw.
Arguments Normal {A} a.
Arguments Throw {A}.

(** Truthiness of a string-or-null property: [null], [undefined] and the
    empty string are falsy. *)
Definition js_truthy (o : option string) : bool :=
  match o with
  | Some s => negb (String.eqb s "")
  | None => false
  end.

(** [x || ''] *)
Definition or_empty (o : option string) : string :=
  match o with
  | Some s => s
  | None => ""
  end.

(** [x || y] on string-or-null properties. *)
Definition js_or (x y : option string) : option string :=
  if js_truthy x then x else y.

(** The class [\s] on the code units of the model. *)
Definition is_space (c : ascii) : bool :=
  let n := nat_of_ascii c in
  (n =? 9)%nat || (n =? 10)%nat || (n =? 11)%nat || (n =? 12)%nat
  || (n =? 13)%nat || (n =? 32)%nat || (n =? 160)%nat.

(** [s.replace(/\s+/g, '_')]: every maximal run of white space becomes one
    underscore.  [in_run] tells that the previous character was white space. *)
Fixpoint replace_spaces_from (in_run : bool) (s : string) : string :=
  match s with
  | EmptyString => EmptyString
  | String c rest =>
      if is_space c
      then (if in_run then replace_spaces_from true rest
            else String "_" (replace_spaces_from true rest))
      else String c (replace_spaces_from false rest)
  end.

Definition replace_spaces (s : string) : string := replace_spaces_from false s.

(** [set.add(k)] on a [Set] of strings: one insertion into the underlying
    map. *)
Definition set_add (k : string) (s : gset string) : gset string :=
  let (m) := s in Mapset (<[k:=()]> m).

(** [hay.includes(needle)] *)
Fixpoint includes (hay needle : string) : bool :=
  if String.prefix needle hay then true
  else match hay with
       | EmptyString => false
       | String _ rest => includes rest needle
       end.

(** [s.split(sep)] for a separator of one character. *)
Fixpoint split (sep : ascii) (s : string) : list string :=
  match s with
  | EmptyString => [EmptyString]
  | String c rest =>
      if Ascii.eqb c sep then EmptyString :: split sep rest
      else match split sep rest with
           | part :: parts => String c part :: parts
           | [] => [String c EmptyString]
           end
  end.

(** [parts.join(sep)] *)
Definition join (sep : string) (parts : list string) : string :=
  String.concat sep parts.

(** The one-character string holding a double quote. *)
Definition dquote : string := String (ascii_of_nat 34) EmptyString.

(** [`${n}`] for a non-negative integer. *)
Definition of_nat (n : nat) : string := pretty n.

End Js.

Export Js.

(** ** Flight records *)

(** The fare options read from a fare popup; the drivers only store them. *)
Record FareDetails := { fare_payload : string }.

(** One segment of the details panel, as far as the driver reads it. *)
Record Segment := {
  airline_name : option string;
  full_flight_code : option string;
  seg_airline_code : option string
}.

Record DetailedFlight := {
  segments : list Segment;
  layover_info : option string
}.

(** The object returned by [extractDetailedFlightInfoFromAllTabs]. *)
Record DetailedInfo := {
  detailed_flights : list DetailedFlight;
  fare_summary : option string;
  cancellation_policy : option string;
  date_change_policy : option string
}.

(** The route properties [performAutoExtraction] writes on every record:
    [route_source] and [route_source_city], [route_destination] and
    [route_destination_city], [departure_date_formatted]. *)
Record RouteInfo := {
  route_source : string;
  route_destination : string;
  departure_date_formatted : option string
}.

(** A flight record.  The first block is what [extractFlightFromCard] builds
    from the card; [summary_rest] carries the summary fields that no modelled
    function reads (dates of departure and arrival, layover cities, stop
    counts, duration, offers, coupons, raw text, HTML snippet).  The second
    block is added by the drivers. *)
Record Flight := {
  index : nat;
  airline : option string;
  airline_code : option string;
  flight_code : option string;
  departure_time : option string;
  departure_city : option string;
  arrival_time : option string;
  arrival_city : option string;
  date : option string;
  layovers : option string;
  price : option string;
  fare_options : option FareDetails;
  summary_rest : string;
  (* added by the drivers *)
  direction : option string;
  is_return_flight : option bool;
  pane_index : option nat;
  route : option string;
  flight_details : option DetailedInfo;   (* flight.flight_details = ... *)
  merged_details : option DetailedInfo;   (* Object.assign(flight, ...) *)
  route_info : option RouteInfo
}.

(** Assignments to one property of a record. *)
Definition set_index (v : nat) (f : Flight) : Flight :=
  {| index := v; airline := airline f; airline_code := airline_code f;
     flight_code := flight_code f; departure_time := departure_time f;
     departure_city := departure_city f;
     arrival_time := arrival_time f; arrival_city := arrival_city f;
     date := date f; layovers := layovers f; price := price f;
     fare_options := fare_options f; summary_rest := summary_rest f;
     direction := direction f; is_return_flight := is_return_flight f;
     pane_index := pane_index f; route := route f;
     flight_details := flight_details f;
     merged_details := merged_details f; route_info := route_info f |}.

Definition set_fare_options (v : option FareDetails) (f : Flight) : Flight :=
  {| index := index f; airline := airline f; airline_code := airline_code f;
     flight_code := flight_code f; departure_time := departure_time f;
     departure_city := departure_city f;
     arrival_time := arrival_time f; arrival_city := arrival_city f;
     date := date f; layovers := layovers f; price := price f;
     fare_options := v; summary_rest := summary_rest f;
     direction := direction f; is_return_flight := is_return_flight f;
     pane_index := pane_index f; route := route f;
     flight_details := flight_details f;
     merged_details := merged_details f; route_info := route_info f |}.

Definition set_flight_details (v : option DetailedInfo) (f : Flight) : Flight :=
  {| index := index f; airline := airline f; airline_code := airline_code f;
     flight_code := flight_code f; departure_time := departure_time f;
     departure_city := departure_city f;
     arrival_time := arrival_time f; arrival_city := arrival_city f;
     date := date f; layovers := layovers f; price := price f;
     fare_options := fare_options f; summary_rest := summary_rest f;
     direction := direction f; is_return_flight := is_return_flight f;
     pane_index := pane_index f; route := route f; flight_details := v;
     merged_details := merged_details f; route_info := route_info f |}.

Definition set_merged_details (v : option DetailedInfo) (f : Flight) : Flight :=
  {| index := index f; airline := airline f; airline_code := airline_code f;
     flight_code := flight_code f; departure_time := departure_time f;
     departure_city := departure_city f;
     arrival_time := arrival_time f; arrival_city := arrival_city f;
     date := date f; layovers := layovers f; price := price f;
     fare_options := fare_options f; summary_rest := summary_rest f;
     direction := direction f; is_return_flight := is_return_flight f;
     pane_index := pane_index f; route := route f;
     flight_details := flight_details f; merged_details := v;
     route_info := route_info f |}.

Definition set_airline (v : option string) (f : Flight) : Flight :=
  {| index := index f; airline := v; airline_code := airline_code f;
     flight_code := flight_code f; departure_time := departure_time f;
     departure_city := departure_city f;
     arrival_time := arrival_time f; arrival_city := arrival_city f;
     date := date f; layovers := layovers f; price := price f;
     fare_options := fare_options f; summary_rest := summary_rest f;
     direction := direction f; is_return_flight := is_return_flight f;
     pane_index := pane_index f; route := route f;
     flight_details := flight_details f;
     merged_details := merged_details f; route_info := route_info f |}.

Definition set_flight_code (v : option string) (f : Flight) : Flight :=
  {| index := index f; airline := airline f; airline_code := airline_code f;
     flight_code := v; departure_time := departure_time f;
     departure_city := departure_city f;
     arrival_time := arrival_time f; arrival_city := arrival_city f;
     date := date f; layovers := layovers f; price := price f;
     fare_options := fare_options f; summary_rest := summary_rest f;
     direction := direction f; is_return_flight := is_return_flight f;
     pane_index := pane_index f; route := route f;
     flight_details := flight_details f;
     merged_details := merged_details f; route_info := route_info f |}.

Definition set_airline_code (v : option string) (f : Flight) : Flight :=
  {| index := index f; airline := airline f; airline_code := v;
     flight_code := flight_code f; departure_time := departure_time f;
     departure_city := departure_city f;
     arrival_time := arrival_time f; arrival_city := arrival_city f;
     date := date f; layovers := layovers f; price := price f;
     fare_options := fare_options f; summary_rest := summary_rest f;
     direction := direction f; is_return_flight := is_return_flight f;
     pane_index := pane_index f; route := route f;
     flight_details := flight_details f;
     merged_details := merged_details f; route_info := route_info f |}.

Definition set_layovers (v : option string) (f : Flight) : Flight :=
  {| index := index f; airline := airline f; airline_code := airline_code f;
     flight_code := flight_code f; departure_time := departure_time f;
     departure_city := departure_city f;
     arrival_time := arrival_time f; arrival_city := arrival_city f;
     date := date f; layovers := v; price := price f;
     fare_options := fare_options f; summary_rest := summary_rest f;
     direction := direction f; is_return_flight := is_return_flight f;
     pane_index := pane_index f; route := route f;
     flight_details := flight_details f;
     merged_details := merged_details f; route_info := route_info f |}.

Definition set_route_info (v : option RouteInfo) (f : Flight) : Flight :=
  {| index := index f; airline := airline f; airline_code := airline_code f;
     flight_code := flight_code f; departure_time := departure_time f;
     departure_city := departure_city f;
     arrival_time := arrival_time f; arrival_city := arrival_city f;
     date := date f; layovers := layovers f; price := price f;
     fare_options := fare_options f; summary_rest := summary_rest f;
     direction := direction f; is_return_flight := is_return_flight f;
     pane_index := pane_index f; route := route f;
     flight_details := flight_details f;
     merged_details := merged_details f; route_info := v |}.

(** The properties [extractRoundTripFlights] sets on a record of a pane. *)
Definition set_pane_info (dir : string) (pane : nat) (routeText dateText : option string)
    (f : Flight) : Flight :=
  {| index := index f; airline := airline f; airline_code := airline_code f;
     flight_code := flight_code f; departure_time := departure_time f;
     departure_city := departure_city f; arrival_time := arrival_time f;
     arrival_city := arrival_city f; date := js_or dateText (date f);
     layovers := layovers f; price := price f; fare_options := fare_options f;
     summary_rest := summary_rest f; direction := Some dir;
     is_return_flight := Some (bool_decide (dir = "return"));
     pane_index := Some pane; route := routeText;
     flight_details := flight_details f; merged_details := merged_details f;
     route_info := route_info f |}.

(** ** The deduplicator *)

(** [generateFlightKey(flight)] *)
Definition generateFlightKey (flight : Flight) : string :=
  let with_direction (key : string) : string :=
    if js_truthy (direction flight)
    then or_empty (direction flight) +:+ "_" +:+ key
    else key in
  if js_truthy (flight_code flight) then
    with_direction
      (or_empty (flight_code flight) +:+ "_" +:+
       or_empty (departure_time flight) +:+ "_" +:+
       or_empty (arrival_time flight))
  else if js_truthy (airline_code flight) then
    with_direction
      (or_empty (airline_code flight) +:+ "_" +:+
       or_empty (departure_time flight) +:+ "_" +:+
       or_empty (arrival_time flight) +:+ "_" +:+
       or_empty (departure_city flight) +:+ "_" +:+
       or_empty (arrival_city flight))
  else
    let airline :=
      replace_spaces
        (substring 0 20 (or_empty (airline flight))) in
    with_direction
      (airline +:+ "_" +:+
       or_empty (departure_time flight) +:+ "_" +:+
       or_empty (arrival_time flight) +:+ "_" +:+
       or_empty (departure_city flight) +:+ "_" +:+
       or_empty (arrival_city flight) +:+ "_" +:+
       or_empty (date flight)).

(** [isDuplicateFlight(flight, seenFlights)]: the answer and the seen-set
    after the call.  [None] is a [null] or [undefined] record. *)
Definition isDuplicateFlight (flight : option Flight) (seenFlights : gset string)
  : bool * gset string :=
  match flight with
  | None => (true, seenFlights)
  | Some f =>
      let key := generateFlightKey f in
      if decide (key ∈ seenFlights) then (true, seenFlights)
      else (false, set_add key seenFlights)
  end.

(** [isValidFlight(flight)] *)
Definition isValidFlight (flight : Flight) : bool :=
  js_truthy (price flight) || js_truthy (departure_time flight)
  || js_truthy (arrival_time flight).

(** ** What the script reads from a card *)

(** The fields [extractFlightFromCard] reads off a card. *)
Record Summary := {
  sm_airline : option string;
  sm_airline_code : option string;
  sm_flight_code : option string;
  sm_departure_time : option string;
  sm_departure_city : option string;
  sm_arrival_time : option string;
  sm_arrival_city : option string;
  sm_date : option string;
  sm_layovers : option string;
  sm_price : option string;
  sm_fare_options : option FareDetails;
  sm_rest : string
}.

(** [extractFlightFromCard(card, index)]: the record built from the card's
    summary; it raises when one of the field extractors raises. *)
Definition extractFlightFromCard (card : Completion Summary) (index : nat)
  : Completion Flight :=
  match card with
  | Throw => Throw
  | Normal s =>
      Normal {| index := index; airline := sm_airline s;
                airline_code := sm_airline_code s;
                flight_code := sm_flight_code s;
                departure_time := sm_departure_time s;
                departure_city := sm_departure_city s;
                arrival_time := sm_arrival_time s;
                arrival_city := sm_arrival_city s;
                date := sm_date s; layovers := sm_layovers s;
                price := sm_price s; fare_options := sm_fare_options s;
                summary_rest := sm_rest s;
                direction := None; is_return_flight := None;
                pane_index := None; route := None;
                flight_details := None; merged_details := None;
                route_info := None |}
  end.

(** A control found on the page: a button or a link. *)
Record Control := {
  ctl_visible : bool;   (* isElementVisible(control) *)
  ctl_disabled : bool   (* control.disabled *)
}.

(** Where a finder found the control it returns: inside the card, or under
    the parent of the card, where the control may belong to another card. *)
Inductive Place := InCard | NearCard.

Global Instance Place_eq_dec : EqDecision Place.
Proof. solve_decision. Defined.

(** A [button.ViewFareBtn] element. *)
Record ViewFareBtn := {
  (* button.querySelector('span[data-test="component-buttonText"]') *)
  btn_has_text : bool;
  btn_control : Control
}.

(** A [span.linkText.ctaLink.viewFltDtlsCta] element. *)
Record DetailsLink := {
  lnk_says_view : bool;     (* its text includes 'View Flight Details' *)
  lnk_control : Control
}.

(** What happens once the popup branch of a card has been entered. *)
Record PopupRun := {
  (* viewPricesButton.click(), inside its own try *)
  popup_click : Completion unit;
  (* extractFareDetailsFromPopup(card) *)
  popup_fare : Completion (option FareDetails);
  (* closePopupIfOpen() *)
  popup_close : Completion bool;
  (* checkIfPopupVisible() is still true when the two seconds are over *)
  popup_still_visible : bool;
  (* the second closePopupIfOpen() *)
  popup_close_again : Completion bool
}.

(** What happens once the View Flight Details link has been found visible. *)
Record DetailsRun := {
  (* viewFlightDetailsLink.click() raises *)
  details_click_raises : bool;
  (* waitForFlightDetailsOuter(8000) found the panel *)
  details_panel : bool;
  (* extractDetailedFlightInfoFromAllTabs() *)
  details_info : option DetailedInfo;
  (* findHideFlightDetailsLink() after the extraction *)
  details_hide_link : option Control;
  (* flightDetailsOuter.querySelector(close button) found one *)
  details_close_button : bool;
  (* the click that closes the panel raises *)
  details_close_raises : bool;
  (* findHideFlightDetailsLink() in the handler *)
  details_recover_link : bool
}.

(** A card of the one-way listing. *)
Record Card := {
  card_visible : bool;            (* isElementVisible(card) *)
  card_has_time : bool;           (* the time pattern matches its text *)
  card_has_price : bool;          (* the currency pattern matches its text *)
  card_summary : Completion Summary;
  (* card.querySelector('button.ViewFareBtn') *)
  card_button : option ViewFareBtn;
  (* cardParent.querySelector('button.ViewFareBtn'); [None] also when the
     card has no parent *)
  card_nearby_button : option ViewFareBtn;
  card_popup : PopupRun;
  (* card.querySelector('span.linkText.ctaLink.viewFltDtlsCta') *)
  card_link : option DetailsLink;
  (* the first span of the card whose text includes 'View Flight Details'
     and that has the classes linkText and ctaLink *)
  card_span_link : option Control;
  (* cardParent.querySelector('span.linkText.ctaLink.viewFltDtlsCta') *)
  card_nearby_link : option DetailsLink;
  card_details : DetailsRun
}.

(** [findViewPricesButtonForCard(card)]: the button of the card when it
    carries the button text, otherwise the first button under the parent of
    the card when that one carries it. *)
Definition findViewPricesButtonForCard (card : Card) : option (Place * Control) :=
  let nearby :=
    match card_nearby_button card with
    | Some nearbyButton =>
        if btn_has_text nearbyButton
        then Some (NearCard, btn_control nearbyButton) else None
    | None => None
    end in
  match card_button card with
  | Some button =>
      if btn_has_text button then Some (InCard, btn_control button) else nearby
  | None => nearby
  end.

(** [findViewFlightDetailsLinkForCard(card)] *)
Definition findViewFlightDetailsLinkForCard (card : Card)
  : option (Place * Control) :=
  let fallback :=
    match card_span_link card with
    | Some span => Some (InCard, span)
    | None =>
        match card_nearby_link card with
        | Some nearbyLink =>
            if lnk_says_view nearbyLink
            then Some (NearCard, lnk_control nearbyLink) else None
        | None => None
        end
    end in
  match card_link card with
  | Some link =>
      if lnk_says_view link then Some (InCard, lnk_control link) else fallback
  | None => fallback
  end.

(** What the one-way driver does to the page.  The first three events are the
    calls of the helpers that prepare the listing; the others happen during
    iteration [i] of the card loop.  A click is recorded when it is made,
    whether it returns or raises. *)
Inductive Event :=
| EvUncheckNonStopFilter              (* uncheckNonStopFilter() *)
| EvClickAllOptionsAvailableLinks     (* clickAllOptionsAvailableLinks() *)
| EvClickMoreFlightsLink              (* clickMoreFlightsLink() *)
| EvScrollCard (i : nat)              (* card.scrollIntoView(...) *)
| EvClickViewPrices (i : nat) (place : Place)   (* viewPricesButton.click() *)
| EvClosePopup (i : nat)              (* closePopupIfOpen() *)
| EvClickViewDetails (i : nat) (place : Place)  (* viewFlightDetailsLink.click() *)
| EvClickHideDetails (i : nat)        (* hideFlightDetailsLink.click() *)
| EvClickCloseButton (i : nat)        (* closeButton.click() *)
| EvRecoverHideDetails (i : nat).     (* hideLink.click() of the handler *)

Global Instance Event_eq_dec : EqDecision Event.
Proof. solve_decision. Defined.

(** ** The one-way driver *)

(** The state of the card loop of [extractFlightsSequentially]. *)
Record LoopState := {
  st_flights : list Flight;
  st_seen : gset string;
  st_trace : list Event
}.

Definition maxFlights : nat := 200.

(** The popup branch of a card (steps 3 to 7).  The click on the button has
    a handler of its own, after which the branch goes on; any other exception
    leaves the branch, and [Throw] carries the events that happened before
    it. *)
Definition run_popup (i : nat) (place : Place) (p : PopupRun) (flight : Flight)
  : Completion Flight * list Event :=
  let clicked := [EvScrollCard i; EvClickViewPrices i place] in
  let after_click (_ : unit) :=
    match popup_fare p with
    | Throw => (Throw, clicked)
    | Normal fareDetails =>
        let flight :=
          match fareDetails with
          | Some fd => set_fare_options (Some fd) flight
          | None => flight
          end in
        match popup_close p with
        | Throw => (Throw, clicked ++ [EvClosePopup i])
        | Normal _ =>
            if popup_still_visible p then
              match popup_close_again p with
              | Throw => (Throw, clicked ++ [EvClosePopup i; EvClosePopup i])
              | Normal _ =>
                  (Normal flight, clicked ++ [EvClosePopup i; EvClosePopup i])
              end
            else (Normal flight, clicked ++ [EvClosePopup i])
        end
    end in
  match popup_click p with
  | Normal _ => after_click ()
  | Throw => after_click ()        (* catch (clickError): continue anyway *)
  end.

(** The handler of the details branch: it tries to hide the panel. *)
Definition recover_details (i : nat) (d : DetailsRun) : list Event :=
  if details_recover_link d then [EvRecoverHideDetails i] else [].

(** The details branch of a card (step 8), inside its own [try]. *)
Definition run_details (i : nat) (place : Place) (d : DetailsRun) (flight : Flight)
  : Flight * list Event :=
  if details_click_raises d then
    (flight, [EvScrollCard i; EvClickViewDetails i place] ++ recover_details i d)
  else
    let opened := [EvScrollCard i; EvClickViewDetails i place] in
    if details_panel d then
      let flight :=
        match details_info d with
        | Some info => set_flight_details (Some info) flight
        | None => flight
        end in
      match details_hide_link d with
      | Some hide =>
          if ctl_visible hide then
            if details_close_raises d
            then (flight, opened ++ [EvClickHideDetails i] ++ recover_details i d)
            else (flight, opened ++ [EvClickHideDetails i])
          else if details_close_button d then
            if details_close_raises d
            then (flight, opened ++ [EvClickCloseButton i] ++ recover_details i d)
            else (flight, opened ++ [EvClickCloseButton i])
          else (flight, opened)
      | None =>
          if details_close_button d then
            if details_close_raises d
            then (flight, opened ++ [EvClickCloseButton i] ++ recover_details i d)
            else (flight, opened ++ [EvClickCloseButton i])
          else (flight, opened)
      end
    else (flight, opened).

(** The guard of the popup branch:
    [viewPricesButton && isElementVisible(viewPricesButton) && !viewPricesButton.disabled] *)
Definition control_usable (c : option (Place * Control)) : bool :=
  match c with
  | Some (_, b) => ctl_visible b && negb (ctl_disabled b)
  | None => false
  end.

(** The guard of the details branch:
    [viewFlightDetailsLink && isElementVisible(viewFlightDetailsLink)] *)
Definition control_visible (c : option (Place * Control)) : bool :=
  match c with
  | Some (_, b) => ctl_visible b
  | None => false
  end.

(** The place of a control that was found. *)
Definition control_place (c : option (Place * Control)) : Place :=
  match c with
  | Some (place, _) => place
  | None => InCard
  end.

(** One iteration of the card loop; an exception that reaches the per-card
    handler leaves the results as they were. *)
Definition process_card (i : nat) (card : Card) (st : LoopState) : LoopState :=
  match extractFlightFromCard (card_summary card) i with
  | Throw => st
  | Normal flight =>
      let flight := set_index i flight in
      if negb (isValidFlight flight) then st
      else
        let '(dup, seen) := isDuplicateFlight (Some flight) (st_seen st) in
        if dup then
          {| st_flights := st_flights st; st_seen := seen; st_trace := st_trace st |}
        else
          let viewPricesButton := findViewPricesButtonForCard card in
          let '(after_popup, ev1) :=
            if control_usable viewPricesButton
            then run_popup i (control_place viewPricesButton) (card_popup card) flight
            else (Normal flight, []) in
          match after_popup with
          | Throw =>
              {| st_flights := st_flights st; st_seen := seen;
                 st_trace := st_trace st ++ ev1 |}
          | Normal flight =>
              let viewFlightDetailsLink := findViewFlightDetailsLinkForCard card in
              let '(flight, ev2) :=
                if control_visible viewFlightDetailsLink
                then run_details i (control_place viewFlightDetailsLink)
                       (card_details card) flight
                else (flight, []) in
              {| st_flights := st_flights st ++ [flight]; st_seen := seen;
                 st_trace := st_trace st ++ ev1 ++ ev2 |}
          end
  end.

(** [for (let index = 0; index < visibleCards.length; index++)], from
    [index] on. *)
Fixpoint card_loop (index : nat) (cards : list Card) (st : LoopState)
  : LoopState :=
  match cards with
  | [] => st
  | card :: rest => card_loop (S index) rest (process_card index card st)
  end.

(** The filter of the card enumeration: visible and content-bearing. *)
Definition card_valid (card : Card) : bool :=
  if negb (card_visible card) then false
  else card_has_time card || card_has_price card.

(** ** The round-trip driver *)

(** What happens to a card of a pane once it passed the duplicate check. *)
Record RtDetailsRun := {
  (* scrolling to the card and clicking it raises *)
  rt_select_raises : bool;
  (* findFlightDetailsLink() found the link of the sticky footer *)
  rt_details_link : bool;
  (* clicking that link raises *)
  rt_link_click_raises : bool;
  (* extractDetailedFlightInfoFromAllTabs() *)
  rt_details_info : option DetailedInfo
}.

(** A card of a pane of the split view. *)
Record RtCard := {
  rc_placeholder : bool;        (* classList.contains('group-placeholder') *)
  rc_collapsed_group : bool;    (* inside a collapsed div.groupBookingCard *)
  rc_has_time : bool;
  rc_has_price : bool;
  rc_visible : bool;            (* isElementVisible(card) *)
  rc_data_test : option string; (* getAttribute('data-test') *)
  rc_id : option string;        (* getAttribute('id') *)
  rc_text : string;             (* textContent *)
  rc_summary : Completion Summary;
  rc_details : RtDetailsRun
}.

(** A pane of the split view. *)
Record Pane := {
  pane_card_count : nat;             (* cards counted by the validation *)
  pane_route_text : option string;   (* routeText *)
  pane_date_text : option string;    (* dateText *)
  (* clickOptionsAvailableLinksInPane(pane) and the scrolling *)
  pane_expand : Completion unit;
  pane_cards : list RtCard;          (* paneCards of step 2 *)
  pane_cards_now : list RtCard       (* allCardsNow of step 4 *)
}.

(** The state of the loops of [extractRoundTripFlights]; [processedCards] is
    created anew for every pane. *)
Record RtState := {
  allFlights : list Flight;
  rt_seen : gset string;
  processedCards : gset string
}.

(** [`${x}`] of a property that is [null] when it is absent. *)
Definition js_template (o : option string) : string :=
  match o with
  | Some s => s
  | None => "null"
  end.

(** The identifier the pane loop gives to a card. *)
Definition card_id (cardIndex : nat) (card : RtCard) : string :=
  let text := substring 0 50 (rc_text card) in
  or_empty
    (js_or (rc_data_test card)
       (js_or (rc_id card)
          (Some (of_nat cardIndex +:+ "-" +:+
                 (if String.eqb text "" then "unknown" else text))))).

(** The first filter of step 2, then the visibility filter. *)
Definition rt_card_actual (card : RtCard) : bool :=
  if rc_placeholder card then false
  else if rc_collapsed_group card then false
  else if negb (rc_has_time card) && negb (rc_has_price card) then false
  else true.

Definition visiblePaneCards (pane : Pane) : list RtCard :=
  List.filter rc_visible (List.filter rt_card_actual (pane_cards pane)).

(** What the driver copies from the details panel into the record. *)
Definition merge_details (info : DetailedInfo) (flight : Flight) : Flight :=
  let flight := set_merged_details (Some info) flight in
  match detailed_flights info with
  | firstFlight :: _ =>
      match segments firstFlight with
      | firstSegment :: _ =>
          let flight :=
            if negb (js_truthy (airline flight))
               && js_truthy (airline_name firstSegment)
            then set_airline (airline_name firstSegment) flight else flight in
          let flight :=
            if negb (js_truthy (flight_code flight))
               && js_truthy (full_flight_code firstSegment)
            then set_flight_code (full_flight_code firstSegment) flight
            else flight in
          let flight :=
            if negb (js_truthy (airline_code flight))
               && js_truthy (seg_airline_code firstSegment)
            then set_airline_code (seg_airline_code firstSegment) flight
            else flight in
          if js_truthy (layover_info firstFlight)
             && negb (js_truthy (layovers flight))
          then set_layovers (layover_info firstFlight) flight else flight
      | [] => flight
      end
  | [] => flight
  end.

(** Selecting the card and reading the details panel; both handlers swallow
    their exception. *)
Definition rt_run_details (d : RtDetailsRun) (flight : Flight) : Flight :=
  if rt_select_raises d then flight
  else if rt_details_link d then
    if rt_link_click_raises d then flight
    else match rt_details_info d with
         | Some info => merge_details info flight
         | None => flight
         end
  else flight.

(** [allFlights.some(f => ...)] of the final check. *)
Definition alreadyAdded (all : list Flight) (flight : Flight) : bool :=
  existsb (fun f =>
    bool_decide (departure_time f = departure_time flight)
    && bool_decide (arrival_time f = arrival_time flight)
    && bool_decide (airline f = airline flight)
    && bool_decide (direction f = direction flight)) all.

(** One iteration of the card loop of a pane. *)
Definition rt_process_card (dir : string) (paneIndex : nat)
    (routeText dateText : option string) (cardIndex : nat) (card : RtCard)
    (st : RtState) : RtState :=
  let globalIndex := length (allFlights st) in
  let cardId := card_id cardIndex card in
  if decide (cardId ∈ processedCards st) then st
  else
    let processed := set_add cardId (processedCards st) in
    let skip seen :=
      {| allFlights := allFlights st; rt_seen := seen;
         processedCards := processed |} in
    match extractFlightFromCard (rc_summary card) globalIndex with
    | Throw => skip (rt_seen st)
    | Normal flight =>
        let flight := set_pane_info dir paneIndex routeText dateText flight in
        if negb (isValidFlight flight) then skip (rt_seen st)
        else
          let '(dup, seen) := isDuplicateFlight (Some flight) (rt_seen st) in
          if dup then skip seen
          else
            let flight := rt_run_details (rc_details card) flight in
            if isValidFlight flight then
              let '(dup, seen) := isDuplicateFlight (Some flight) seen in
              if dup then skip seen
              else if alreadyAdded (allFlights st) flight then skip seen
              else
                {| allFlights := allFlights st ++ [flight];
                   rt_seen :=
                     set_add
                       (js_template (direction flight) +:+ "-" +:+
                        js_template (airline flight) +:+ "-" +:+
                        js_template (departure_time flight) +:+ "-" +:+
                        js_template (arrival_time flight)) seen;
                   processedCards := processed |}
            else skip seen
    end.

Fixpoint rt_card_loop (dir : string) (paneIndex : nat)
    (routeText dateText : option string) (cardIndex : nat)
    (cards : list RtCard) (st : RtState) : RtState :=
  match cards with
  | [] => st
  | card :: rest =>
      rt_card_loop dir paneIndex routeText dateText (S cardIndex) rest
        (rt_process_card dir paneIndex routeText dateText cardIndex card st)
  end.

(** The cards of step 4 that are not in [processedCards]; [idx] counts the
    cards that passed the filter. *)
Fixpoint missedCards_from (idx : nat) (cards : list RtCard)
    (processed : gset string) : list RtCard :=
  match cards with
  | [] => []
  | card :: rest =>
      if decide (card_id idx card ∈ processed)
      then missedCards_from (S idx) rest processed
      else card :: missedCards_from (S idx) rest processed
  end.

Definition rt_card_now (card : RtCard) : bool :=
  if rc_placeholder card then false
  else if rc_collapsed_group card then false
  else (rc_has_time card || rc_has_price card) && rc_visible card.

(** The simplified processing of a missed card. *)
Definition rt_process_missed (dir : string) (paneIndex : nat)
    (routeText dateText : option string) (card : RtCard) (st : RtState)
  : RtState :=
  match extractFlightFromCard (rc_summary card) (length (allFlights st)) with
  | Throw => st
  | Normal flight =>
      let flight := set_pane_info dir paneIndex routeText dateText flight in
      if isValidFlight flight then
        let '(dup, seen) := isDuplicateFlight (Some flight) (rt_seen st) in
        if dup then
          {| allFlights := allFlights st; rt_seen := seen;
             processedCards := processedCards st |}
        else
          {| allFlights := allFlights st ++ [flight]; rt_seen := seen;
             processedCards := processedCards st |}
      else st
  end.

(** One iteration of the pane loop, after the pane has been expanded. *)
Definition rt_process_pane (paneIndex : nat) (pane : Pane) (st : RtState)
  : RtState :=
  let dir := if (paneIndex =? 0)%nat then "outbound" else "return" in
  let routeText := pane_route_text pane in
  let dateText := pane_date_text pane in
  let cards := visiblePaneCards pane in
  let paneTotalCount := length cards in
  let st :=
    rt_card_loop dir paneIndex routeText dateText 0 cards
      {| allFlights := allFlights st; rt_seen := rt_seen st;
         processedCards := ∅ |} in
  let processedCount := size (processedCards st) in
  if (processedCount =? paneTotalCount)%nat then st
  else if (processedCount <? paneTotalCount)%nat then
    let allCardsNow := List.filter rt_card_now (pane_cards_now pane) in
    let missed := missedCards_from 0 allCardsNow (processedCards st) in
    fold_left (fun st card =>
                 rt_process_missed dir paneIndex routeText dateText card st)
      missed st
  else st.

(** [for (let paneIndex = 0; paneIndex < panes.length; paneIndex++)]; an
    exception while a pane is expanded leaves the function. *)
Fixpoint rt_pane_loop (paneIndex : nat) (panes : list Pane) (st : RtState)
  : Completion RtState :=
  match panes with
  | [] => Normal st
  | pane :: rest =>
      match pane_expand pane with
      | Throw => Throw
      | Normal _ => rt_pane_loop (S paneIndex) rest (rt_process_pane paneIndex pane st)
      end
  end.

(** ** The page and the result payload *)

(** What the script reads from the page outside the cards. *)
Record Page := {
  page_url : string;                 (* window.location.href *)
  page_user_agent : string;          (* navigator.userAgent *)
  page_now : string;                 (* new Date().toISOString() *)
  page_elapsed_ms : Z;               (* Date.now() - startTime *)
  (* departureDate.toISOString().split('T')[0] for the date so many days from
     today; toISOString() raises a RangeError when that date is outside the
     range of Date *)
  page_iso_date : Z -> Completion string;
  page_intl : option string;         (* urlParams.get('intl') *)
  page_ui_round_trip : bool;         (* detectTripTypeFromUI() says round trip *)
  page_split_view : option (list Pane);  (* div.splitVw and its panes *)
  page_listing_cards : nat;          (* div.listingCard count of the validation *)
  page_cards_before : nat;           (* cardsBeforeExtraction.length *)
  page_cards_after_wait : nat;       (* cardsAfterWait.length *)
  page_uncheck_non_stop : Completion unit;     (* uncheckNonStopFilter() *)
  page_click_options : Completion unit;   (* clickAllOptionsAvailableLinks() *)
  page_click_more : Completion unit;      (* clickMoreFlightsLink() *)
  page_flight_cards : list Card;          (* findFlightCards() *)
  page_flight_cards_fallback : list Card  (* findFlightCardsFallback() *)
}.

(** The metadata of a result; the two derived renderings of the execution
    time (seconds as a float, formatted text) are left out. *)
Record Metadata := {
  scraped_at : string;
  source_url : string;
  flights_count : nat;
  user_agent : string;
  trip_type : option string;
  execution_time_ms : option Z
}.

Record Payload := {
  metadata : Metadata;
  flights : list Flight;
  error : option string
}.

Definition detectTripTypeFromUI (page : Page) : string :=
  if page_ui_round_trip page then "round_trip" else "one_way".

(** The object returned by the validation; [v_panes] is [elements.panes]. *)
Record Validation := {
  valid : bool;
  v_error : option string;
  v_panes : list Pane
}.

(** [validateDomesticTripStructure(tripType)] *)
Definition validateDomesticTripStructure (tripType : option string) (page : Page)
  : Validation :=
  let isRoundTrip := bool_decide (tripType = Some "round_trip") in
  if isRoundTrip then
    match page_split_view page with
    | None =>
        {| valid := false;
           v_error := Some "DOMESTIC round trip structure not found. Required element: div.splitVw";
           v_panes := [] |}
    | Some panes =>
        if (length panes =? 0)%nat then
          {| valid := false;
             v_error := Some "No panes found in splitVw. Required: div.paneView elements";
             v_panes := [] |}
        else
          let totalCards := fold_left (fun n pane => n + pane_card_count pane) panes 0 in
          if (totalCards =? 0)%nat then
            {| valid := false;
               v_error := Some "No flight cards found in panes. Please wait for page to load completely.";
               v_panes := panes |}
          else {| valid := true; v_error := None; v_panes := panes |}
    end
  else if bool_decide (page_intl page = Some "true") then
    {| valid := false;
       v_error :=
         Some ("URL indicates international trip (intl=true). Use " +:+ dquote
               +:+ "Extract International Flights" +:+ dquote +:+ " button.");
       v_panes := [] |}
  else if (page_listing_cards page =? 0)%nat then
    {| valid := false;
       v_error := Some "No flight cards found. Required: div.listingCard elements. Please wait for page to load completely.";
       v_panes := [] |}
  else {| valid := true; v_error := None; v_panes := [] |}.

(** The payload of an early return: no flights and an error text. *)
Definition error_result (page : Page) (tripType : option string) (errorMsg : string)
  : Payload :=
  {| metadata :=
       {| scraped_at := page_now page; source_url := page_url page;
          flights_count := 0; user_agent := page_user_agent page;
          trip_type := tripType;
          execution_time_ms := Some (page_elapsed_ms page) |};
     flights := [];
     error := Some errorMsg |}.

(** The payload of the final return. *)
Definition final_result (page : Page) (tripType : string) (flights : list Flight)
  : Payload :=
  {| metadata :=
       {| scraped_at := page_now page; source_url := page_url page;
          flights_count := length flights; user_agent := page_user_agent page;
          trip_type := Some tripType;
          execution_time_ms := Some (page_elapsed_ms page) |};
     flights := flights;
     error := None |}.

(** [extractRoundTripFlights(startTime, maxFlights)]; the second argument is
    not used by the body.  A valid validation hands over at least one pane, so
    the queries that look for panes again are never run and the early return
    on no panes is kept only for its payload. *)
Definition extractRoundTripFlights (page : Page) (maxFlights : nat)
  : Completion Payload :=
  let validation := validateDomesticTripStructure (Some "round_trip") page in
  if negb (valid validation) then
    Normal (error_result page (Some "round_trip")
              ("Validation failed: " +:+ or_empty (v_error validation)))
  else
    let panes := v_panes validation in
    if (length panes =? 0)%nat then
      Normal (error_result page (Some "round_trip")
                "No panes found in split view after validation")
    else
      match rt_pane_loop 0 panes
              {| allFlights := []; rt_seen := ∅; processedCards := ∅ |} with
      | Throw => Throw
      | Normal st => Normal (final_result page "round_trip" (allFlights st))
      end.

(** The cards the one-way loop walks: the valid ones, at most [maxFlights]. *)
Definition visibleCards (flightCards : list Card) : list Card :=
  take maxFlights (List.filter card_valid flightCards).

Definition initial_state : LoopState :=
  {| st_flights := []; st_seen := ∅; st_trace := [] |}.

(** Steps 1 to 3 of the one-way processing: the three helpers are called one
    after the other; an exception of one of them leaves the steps. *)
Definition prepare_listing (page : Page) : Completion unit * list Event :=
  match page_uncheck_non_stop page with
  | Throw => (Throw, [EvUncheckNonStopFilter])
  | Normal _ =>
      match page_click_options page with
      | Throw => (Throw, [EvUncheckNonStopFilter; EvClickAllOptionsAvailableLinks])
      | Normal _ =>
          let called := [EvUncheckNonStopFilter; EvClickAllOptionsAvailableLinks;
                         EvClickMoreFlightsLink] in
          match page_click_more page with
          | Throw => (Throw, called)
          | Normal _ => (Normal (), called)
          end
      end
  end.

(** [extractFlightsSequentially(tripType)]: the payload and the events of the
    one-way processing. *)
Definition extractFlightsSequentially (tripType : option string) (page : Page)
  : Payload * list Event :=
  let tripType :=
    if negb (js_truthy tripType) then Some (detectTripTypeFromUI page)
    else tripType in
  let validation := validateDomesticTripStructure tripType page in
  if negb (valid validation) then
    (error_result page (js_or tripType (Some "domestic"))
       ("Validation failed: " +:+ or_empty (v_error validation)), [])
  else if bool_decide (tripType = Some "round_trip") then
    match extractRoundTripFlights page maxFlights with
    | Normal result => (result, [])
    | Throw => (final_result page "one_way" [], [])
    end
  else
    match prepare_listing page with
    | (Throw, prepared) => (final_result page "one_way" [], prepared)
    | (Normal _, prepared) =>
        let flightCards :=
          if (length (page_flight_cards page) =? 0)%nat
          then page_flight_cards_fallback page
          else page_flight_cards page in
        if (length flightCards =? 0)%nat then
          (error_result page (Some "one_way")
             "No flight cards found. Please wait for page to load completely or check if you are on a flight listing page.",
           prepared)
        else
          let st := card_loop 0 (visibleCards flightCards) initial_state in
          (final_result page "one_way" (st_flights st), prepared ++ st_trace st)
    end.

(** [extractFlightData()]: the summary-only extraction. *)
Definition extractFlightData (page : Page) : Payload :=
  let flightCards :=
    if (length (page_flight_cards page) =? 0)%nat
    then page_flight_cards_fallback page
    else page_flight_cards page in
  let visibleCards := take maxFlights (List.filter card_visible flightCards) in
  let flights :=
    fold_left
      (fun acc '(index, card) =>
         match extractFlightFromCard (card_summary card) index with
         | Normal flight => if isValidFlight flight then acc ++ [flight] else acc
         | Throw => acc
         end)
      (zip (seq 0 (length visibleCards)) visibleCards) [] in
  {| metadata :=
       {| scraped_at := page_now page; source_url := page_url page;
          flights_count := length flights; user_agent := page_user_agent page;
          trip_type := None; execution_time_ms := None |};
     flights := flights;
     error := None |}.

(** ** The batch orchestrator *)

Record Route := { source : string; dest : string }.

(** The [remainingRoutes] record of the session storage. *)
Record BatchState := {
  routes : list Route;
  dateOffsets : list Z;
  currentRouteIndex : nat;
  currentDateIndex : nat
}.

(** The [pendingExtraction] record of the session storage, and the argument
    of [performAutoExtraction]. *)
Record ExtractionParams := {
  sourceCode : string;
  destCode : string;
  daysOffset : option Z;
  dateStr : option string
}.

(** The two items of the session storage the script uses; an item holds what
    the script serialised into it. *)
Record SessionStorage := {
  remainingRoutes : option BatchState;
  pendingExtraction : option ExtractionParams
}.

(** What the orchestrator sends and where it navigates. *)
Inductive BatchEvent :=
(* sendProgressUpdate(completed, total, route, dateOffset) *)
| Progress (completed total : nat) (route : string) (dateOffset : option Z)
(* window.location.href = constructFlightSearchUrl(source, dest, today + daysOffset, ...) *)
| Navigate (source dest : string) (daysOffset : Z)
(* the saveJSON message *)
| SaveJSON (filename : string) (data : Payload).

(** [processNextRoute()]: the storage after the call and what was sent. *)
Definition processNextRoute (page : Page) (storage : SessionStorage)
  : SessionStorage * list BatchEvent :=
  match remainingRoutes storage with
  | None => (storage, [])
  | Some data =>
      let routes := routes data in
      let dateOffsets := dateOffsets data in
      let currentRouteIndex := currentRouteIndex data in
      let currentDateIndex := currentDateIndex data in
      let totalCombinations := length routes * length dateOffsets in
      let completed := currentRouteIndex * length dateOffsets + currentDateIndex + 1 in
      match routes !! currentRouteIndex with
      | None => (storage, [])     (* currentRoute.source raises *)
      | Some currentRoute =>
          let sent :=
            [Progress completed totalCombinations
               (source currentRoute +:+ "-" +:+ dest currentRoute)
               (dateOffsets !! currentDateIndex)] in
          if (Z.of_nat currentDateIndex <? Z.of_nat (length dateOffsets) - 1)%Z then
            let nextDateIndex := currentDateIndex + 1 in
            let route := currentRoute in
            let stored :=
              Some {| routes := routes; dateOffsets := dateOffsets;
                      currentRouteIndex := currentRouteIndex;
                      currentDateIndex := nextDateIndex |} in
            (* [unwritten]: toISOString() raises after the first item has been
               written; the handler of the function logs the exception *)
            let unwritten :=
              ({| remainingRoutes := stored;
                  pendingExtraction := pendingExtraction storage |}, sent) in
            match dateOffsets !! nextDateIndex with
            | None => unwritten             (* the date is invalid *)
            | Some daysOffset =>
                match page_iso_date page daysOffset with
                | Throw => unwritten        (* the date is out of range *)
                | Normal dateStr =>
                    ({| remainingRoutes := stored;
                        pendingExtraction :=
                          Some {| sourceCode := source route;
                                  destCode := dest route;
                                  daysOffset := Some daysOffset;
                                  dateStr := Some dateStr |} |},
                     sent ++ [Navigate (source route) (dest route) daysOffset])
                end
            end
          else if (Z.of_nat currentRouteIndex <? Z.of_nat (length routes) - 1)%Z then
            let nextRouteIndex := currentRouteIndex + 1 in
            match routes !! nextRouteIndex with
            | None => (storage, sent)
            | Some route =>
                let stored :=
                  Some {| routes := routes; dateOffsets := dateOffsets;
                          currentRouteIndex := nextRouteIndex;
                          currentDateIndex := 0 |} in
                let unwritten :=
                  ({| remainingRoutes := stored;
                      pendingExtraction := pendingExtraction storage |}, sent) in
                match dateOffsets !! 0 with
                | None => unwritten         (* the date is invalid *)
                | Some daysOffset =>
                    match page_iso_date page daysOffset with
                    | Throw => unwritten    (* the date is out of range *)
                    | Normal dateStr =>
                        ({| remainingRoutes := stored;
                            pendingExtraction :=
                              Some {| sourceCode := source route;
                                      destCode := dest route;
                                      daysOffset := Some daysOffset;
                                      dateStr := Some dateStr |} |},
                         sent ++ [Navigate (source route) (dest route) daysOffset])
                    end
                end
            end
          else
            ({| remainingRoutes := None; pendingExtraction := None |},
             sent ++ [Progress totalCombinations totalCombinations "All" None])
      end
  end.

(** [performAutoExtraction(params)] *)
Definition performAutoExtraction (params : ExtractionParams) (page : Page)
    (storage : SessionStorage) : SessionStorage * list BatchEvent :=
  if bool_decide (page_intl page = Some "true") then processNextRoute page storage
  else if (page_cards_before page =? 0)%nat && (page_cards_after_wait page =? 0)%nat
  then processNextRoute page storage
  else
    let tripType := detectTripTypeFromUI page in
    let flightData := fst (extractFlightsSequentially (Some tripType) page) in
    let saved :=
      if (0 <? length (flights flightData))%nat then
        let annotated :=
          if negb (String.eqb (sourceCode params) "")
             && negb (String.eqb (destCode params) "")
          then
            map (set_route_info
                   (Some {| route_source := sourceCode params;
                            route_destination := destCode params;
                            departure_date_formatted :=
                              if js_truthy (dateStr params) then dateStr params
                              else None |}))
              (flights flightData)
          else flights flightData in
        (* params.dateStr || new Date().toISOString().split('T')[0] *)
        let dateStr :=
          if js_truthy (dateStr params) then or_empty (dateStr params)
          else nth 0 (split "T" (page_now page)) "" in
        let filename :=
          "flight-" +:+ sourceCode params +:+ "-" +:+ destCode params +:+ "-"
          +:+ dateStr +:+ ".json" in
        [SaveJSON filename
           {| metadata := metadata flightData; flights := annotated;
              error := error flightData |}]
      else [] in
    let '(storage, sent) := processNextRoute page storage in
    (storage, saved ++ sent).

(** * Sample inputs and auxiliary definitions *)

(** The clock of the sample pages: every date within a hundred million days
    of today is rendered by the same text; beyond, [toISOString()] raises. *)
Definition sample_iso_date (text : string) (offset : Z) : Completion string :=
  if (Z.abs offset <? 100000000)%Z then Normal text else Throw.

(** A sample record, and the same flight in the return pane. *)
Definition sample_flight : Flight :=
  {| index := 0; airline := Some "IndiGo"; airline_code := Some "6E";
     flight_code := Some "6E 2134"; departure_time := Some "08:30";
     departure_city := Some "Bengaluru"; arrival_time := Some "10:45";
     arrival_city := Some "Patna"; date := Some "15 Jan 2024";
     layovers := None; price := Some "4,500"; fare_options := None;
     summary_rest := ""; direction := Some "outbound";
     is_return_flight := Some false; pane_index := Some 0; route := None;
     flight_details := None; merged_details := None; route_info := None |}.

Definition sample_flight_return : Flight :=
  {| index := 1; airline := Some "IndiGo"; airline_code := Some "6E";
     flight_code := Some "6E 2134"; departure_time := Some "08:30";
     departure_city := Some "Bengaluru"; arrival_time := Some "10:45";
     arrival_city := Some "Patna"; date := Some "15 Jan 2024";
     layovers := None; price := Some "4,500"; fare_options := None;
     summary_rest := ""; direction := Some "return";
     is_return_flight := Some true; pane_index := Some 1; route := None;
     flight_details := None; merged_details := None; route_info := None |}.

(** What the direction of a record puts in front of its key. *)
Definition direction_prefix (f : Flight) : string :=
  if js_truthy (direction f) then or_empty (direction f) +:+ "_" else "".

(** The fields the key is said to be computed from. *)
Definition same_key_fields (f1 f2 : Flight) : Prop :=
  flight_code f1 = flight_code f2 /\ airline_code f1 = airline_code f2 /\
  airline f1 = airline f2 /\
  departure_time f1 = departure_time f2 /\ arrival_time f1 = arrival_time f2 /\
  departure_city f1 = departure_city f2 /\ arrival_city f1 = arrival_city f2 /\
  date f1 = date f2.

(** Checking a sequence of records, some of them possibly missing, against
    a seen-set. *)
Definition check_all (records : list (option Flight)) (s : gset string)
  : gset string :=
  fold_left (fun s r => snd (isDuplicateFlight r s)) records s.

(** The identity keys of the records of a sequence that are present. *)
Definition keys_of (records : list (option Flight)) : list string :=
  omap (fun r => generateFlightKey <$> r) records.

(** The record a card yields when its summary can be read and is valid. *)
Definition card_flight (i : nat) (card : Card) : option Flight :=
  match extractFlightFromCard (card_summary card) i with
  | Normal flight =>
      let flight := set_index i flight in
      if isValidFlight flight then Some flight else None
  | Throw => None
  end.

(** The record the card at position [i] yields when it is processed on its
    own, with nothing seen before: its summary, with the fare options of its
    own popup and the details of its own panel. *)
Definition card_record (i : nat) (card : Card) : option Flight :=
  last (st_flights (process_card i card initial_state)).

(** An exception leaves the popup branch: the fare extraction or a closing of
    the popup raises.  (An exception of the click does not leave it.) *)
Definition popup_raises (p : PopupRun) : bool :=
  match popup_fare p with
  | Throw => true
  | Normal _ =>
      match popup_close p with
      | Throw => true
      | Normal _ =>
          if popup_still_visible p then
            match popup_close_again p with Throw => true | Normal _ => false end
          else false
      end
  end.

(** The popup branch of the card is entered. *)
Definition popup_entered (card : Card) : bool :=
  control_usable (findViewPricesButtonForCard card).

(** The details branch of the card is entered. *)
Definition details_entered (card : Card) : bool :=
  control_visible (findViewFlightDetailsLinkForCard card).

(** The popup branch of the card is entered and an exception leaves it. *)
Definition card_popup_raises (card : Card) : bool :=
  popup_entered card && popup_raises (card_popup card).




(** Two records that differ at most in the fields the popup and the details
    panel fill in. *)
Definition same_summary (r f : Flight) : Prop :=
  set_fare_options None (set_flight_details None r)
  = set_fare_options None (set_flight_details None f).

Local Abbreviation key := generateFlightKey.

(** Sample cards: a plain card, and the same card with a View Prices button
    whose popup cannot be read. *)
Definition sample_summary : Summary :=
  {| sm_airline := Some "IndiGo"; sm_airline_code := Some "6E";
     sm_flight_code := Some "6E 2134"; sm_departure_time := Some "08:30";
     sm_departure_city := Some "Bengaluru"; sm_arrival_time := Some "10:45";
     sm_arrival_city := Some "Patna"; sm_date := Some "15 Jan 2024";
     sm_layovers := None; sm_price := Some "4,500"; sm_fare_options := None;
     sm_rest := "" |}.

Definition usable_control : Control :=
  {| ctl_visible := true; ctl_disabled := false |}.

Definition quiet_popup : PopupRun :=
  {| popup_click := Normal ();
     popup_fare := Normal (Some {| fare_payload := "SAVER" |});
     popup_close := Normal true; popup_still_visible := false;
     popup_close_again := Normal false |}.

Definition quiet_details : DetailsRun :=
  {| details_click_raises := false; details_panel := true;
     details_info := None;
     details_hide_link := Some usable_control;
     details_close_button := false; details_close_raises := false;
     details_recover_link := true |}.

Definition sample_card : Card :=
  {| card_visible := true; card_has_time := true; card_has_price := true;
     card_summary := Normal sample_summary;
     card_button := None; card_nearby_button := None;
     card_popup := quiet_popup;
     card_link := None; card_span_link := None; card_nearby_link := None;
     card_details := quiet_details |}.

(** The View Prices button of a card, usable. *)
Definition sample_button : ViewFareBtn :=
  {| btn_has_text := true; btn_control := usable_control |}.

Definition failing_popup_card : Card :=
  {| card_visible := true; card_has_time := true; card_has_price := true;
     card_summary := Normal sample_summary;
     card_button := Some sample_button; card_nearby_button := None;
     card_popup :=
       {| popup_click := Normal (); popup_fare := Throw;
          popup_close := Normal true;
          popup_still_visible := false; popup_close_again := Normal false |};
     card_link := None; card_span_link := None; card_nearby_link := None;
     card_details := quiet_details |}.

(** A card whose View Prices button raises when clicked. *)
Definition failing_click_card : Card :=
  {| card_visible := true; card_has_time := true; card_has_price := true;
     card_summary := Normal sample_summary;
     card_button := Some sample_button; card_nearby_button := None;
     card_popup :=
       {| popup_click := Throw;
          popup_fare := Normal (Some {| fare_payload := "SAVER" |});
          popup_close := Normal true;
          popup_still_visible := false; popup_close_again := Normal false |};
     card_link := None; card_span_link := None; card_nearby_link := None;
     card_details := quiet_details |}.

(** A card with no button of its own, next to a card that has one. *)
Definition borrowing_card : Card :=
  {| card_visible := true; card_has_time := true; card_has_price := true;
     card_summary := Normal sample_summary;
     card_button := None; card_nearby_button := Some sample_button;
     card_popup := quiet_popup;
     card_link := None; card_span_link := None; card_nearby_link := None;
     card_details := quiet_details |}.

(** The record [sample_card] yields at position [i]. *)
Definition sample_record (i : nat) : Flight :=
  {| index := i; airline := Some "IndiGo"; airline_code := Some "6E";
     flight_code := Some "6E 2134"; departure_time := Some "08:30";
     departure_city := Some "Bengaluru"; arrival_time := Some "10:45";
     arrival_city := Some "Patna"; date := Some "15 Jan 2024";
     layovers := None; price := Some "4,500"; fare_options := None;
     summary_rest := ""; direction := None; is_return_flight := None;
     pane_index := None; route := None; flight_details := None;
     merged_details := None; route_info := None |}.




(** The iteration of the card loop during which an event happens; [None]
    for the calls that prepare the listing. *)
Definition event_iteration (e : Event) : option nat :=
  match e with
  | EvUncheckNonStopFilter | EvClickAllOptionsAvailableLinks
  | EvClickMoreFlightsLink => None
  | EvScrollCard i | EvClickViewPrices i _ | EvClosePopup i
  | EvClickViewDetails i _ | EvClickHideDetails i | EvClickCloseButton i
  | EvRecoverHideDetails i => Some i
  end.

(** The events of the popup branch. *)
Definition is_popup_event (e : Event) : bool :=
  match e with
  | EvClickViewPrices _ _ | EvClosePopup _ => true
  | _ => false
  end.

(** A card with the trigger hidden and no details link. *)
Definition hidden_trigger_card : Card :=
  {| card_visible := true; card_has_time := true; card_has_price := true;
     card_summary := Normal sample_summary;
     card_button :=
       Some {| btn_has_text := true;
               btn_control := {| ctl_visible := false; ctl_disabled := false |} |};
     card_nearby_button := None;
     card_popup := quiet_popup;
     card_link := None; card_span_link := None; card_nearby_link := None;
     card_details := quiet_details |}.

(** A two-digit rendering of a number below 100. *)
Definition two_digits (n : nat) : string :=
  if (n <? 10)%nat then "0" +:+ of_nat n else of_nat n.

(** The [n]-th card of a long pane: a flight at its own minute of the day,
    whose flight code is only found in the details panel. *)
Definition long_pane_card (n : nat) : RtCard :=
  {| rc_placeholder := false; rc_collapsed_group := false;
     rc_has_time := true; rc_has_price := true; rc_visible := true;
     rc_data_test := None; rc_id := None; rc_text := "IndiGo";
     rc_summary :=
       Normal {| sm_airline := Some "IndiGo"; sm_airline_code := None;
                 sm_flight_code := None;
                 sm_departure_time :=
                   Some (two_digits (n / 60)%nat +:+ ":" +:+ two_digits (n mod 60)%nat);
                 sm_departure_city := Some "Bengaluru";
                 sm_arrival_time := None; sm_arrival_city := Some "Patna";
                 sm_date := None; sm_layovers := None;
                 sm_price := Some "4,500"; sm_fare_options := None;
                 sm_rest := "" |};
     rc_details :=
       {| rt_select_raises := false; rt_details_link := true;
          rt_link_click_raises := false;
          rt_details_info :=
            Some {| detailed_flights :=
                      [ {| segments :=
                             [ {| airline_name := Some "IndiGo";
                                  full_flight_code := Some ("6E " +:+ of_nat n);
                                  seg_airline_code := Some "6E" |} ];
                           layover_info := None |} ];
                    fare_summary := None; cancellation_policy := None;
                    date_change_policy := None |} |} |}.

Definition long_pane (count : nat) : Pane :=
  {| pane_card_count := count; pane_route_text := Some "Bengaluru - Patna";
     pane_date_text := Some "Mon, 15 Jan"; pane_expand := Normal ();
     pane_cards := map long_pane_card (seq 0 count); pane_cards_now := [] |}.

(** A round-trip page whose outbound pane lists [count] flights. *)
Definition long_round_trip_page (count : nat) : Page :=
  {| page_url := "https://www.makemytrip.com/flight/search";
     page_user_agent := "Chrome"; page_now := "2024-01-15T10:30:00.000Z";
     page_elapsed_ms := 1000; page_iso_date := sample_iso_date "2024-01-15";
     page_intl := Some "false"; page_ui_round_trip := true;
     page_split_view := Some [long_pane count];
     page_listing_cards := count; page_cards_before := count;
     page_cards_after_wait := count; page_uncheck_non_stop := Normal ();
     page_click_options := Normal (); page_click_more := Normal ();
     page_flight_cards := []; page_flight_cards_fallback := [] |}.

(** The [n]-th card of a long one-way listing: a flight of its own. *)
Definition listing_card (n : nat) : Card :=
  {| card_visible := true; card_has_time := true; card_has_price := true;
     card_summary :=
       Normal {| sm_airline := Some "IndiGo"; sm_airline_code := Some "6E";
                 sm_flight_code := Some ("6E " +:+ of_nat n);
                 sm_departure_time :=
                   Some (two_digits (n / 60)%nat +:+ ":" +:+ two_digits (n mod 60)%nat);
                 sm_departure_city := Some "Bengaluru";
                 sm_arrival_time := None; sm_arrival_city := Some "Patna";
                 sm_date := None; sm_layovers := None;
                 sm_price := Some "4,500"; sm_fare_options := None;
                 sm_rest := "" |};
     card_button := None; card_nearby_button := None;
     card_popup := quiet_popup;
     card_link := None; card_span_link := None; card_nearby_link := None;
     card_details := quiet_details |}.

(** A one-way listing of [count] flights. *)
Definition long_listing_page (count : nat) : Page :=
  {| page_url := "https://www.makemytrip.com/flight/search";
     page_user_agent := "Chrome"; page_now := "2024-01-15T10:30:00.000Z";
     page_elapsed_ms := 1000; page_iso_date := sample_iso_date "2024-01-16";
     page_intl := Some "false"; page_ui_round_trip := false;
     page_split_view := None;
     page_listing_cards := count; page_cards_before := count;
     page_cards_after_wait := count;
     page_uncheck_non_stop := Normal ();
     page_click_options := Normal (); page_click_more := Normal ();
     page_flight_cards := map listing_card (seq 0 count);
     page_flight_cards_fallback := [] |}.

(** A one-way listing with two cards. *)
Definition sample_page : Page :=
  {| page_url := "https://www.makemytrip.com/flight/search";
     page_user_agent := "Chrome"; page_now := "2024-01-15T10:30:00.000Z";
     page_elapsed_ms := 1000; page_iso_date := sample_iso_date "2024-01-16";
     page_intl := Some "false"; page_ui_round_trip := false;
     page_split_view := None;
     page_listing_cards := 2; page_cards_before := 2;
     page_cards_after_wait := 2; page_uncheck_non_stop := Normal ();
     page_click_options := Normal (); page_click_more := Normal ();
     page_flight_cards := [sample_card; hidden_trigger_card];
     page_flight_cards_fallback := [] |}.

(** A one-way page whose cards have gone when the listing has been
    prepared. *)
Definition vanished_cards_page : Page :=
  {| page_url := "https://www.makemytrip.com/flight/search";
     page_user_agent := "Chrome"; page_now := "2024-01-15T10:30:00.000Z";
     page_elapsed_ms := 1000; page_iso_date := sample_iso_date "2024-01-16";
     page_intl := Some "false"; page_ui_round_trip := false;
     page_split_view := None;
     page_listing_cards := 2; page_cards_before := 2;
     page_cards_after_wait := 2;
     page_uncheck_non_stop := Normal ();
     page_click_options := Normal (); page_click_more := Normal ();
     page_flight_cards := []; page_flight_cards_fallback := [] |}.

(** A page on which the listing never appeared. *)
Definition empty_page : Page :=
  {| page_url := "https://www.makemytrip.com/flight/search";
     page_user_agent := "Chrome"; page_now := "2024-01-15T10:30:00.000Z";
     page_elapsed_ms := 1000; page_iso_date := sample_iso_date "2024-01-16";
     page_intl := Some "false"; page_ui_round_trip := false;
     page_split_view := None;
     page_listing_cards := 0; page_cards_before := 1;
     page_cards_after_wait := 0; page_uncheck_non_stop := Normal ();
     page_click_options := Normal (); page_click_more := Normal ();
     page_flight_cards := []; page_flight_cards_fallback := [] |}.

(** The stored state of a batch at job ([r], [d]). *)
Definition batch_at (routes : list Route) (dateOffsets : list Z) (r d : nat)
  : BatchState :=
  {| routes := routes; dateOffsets := dateOffsets;
     currentRouteIndex := r; currentDateIndex := d |}.

(** The session storage once job ([r], [d]) has been stored: the batch state
    and the parameters of the extraction on the page to come. *)
Definition job_storage (routes : list Route) (dateOffsets : list Z) (r d : nat)
    (route : Route) (daysOffset : Z) (dateStr : string) : SessionStorage :=
  {| remainingRoutes := Some (batch_at routes dateOffsets r d);
     pendingExtraction :=
       Some {| sourceCode := source route; destCode := dest route;
               daysOffset := Some daysOffset; dateStr := Some dateStr |} |}.

(** The progress update sent when job ([r], [d]) is over. *)
Definition job_progress (routes : list Route) (dateOffsets : list Z) (r d : nat)
    (route : Route) : BatchEvent :=
  Progress (r * length dateOffsets + d + 1) (length routes * length dateOffsets)
    (source route +:+ "-" +:+ dest route) (dateOffsets !! d).

(** A batch of two routes and two dates, the first job just done. *)
Definition sample_batch : BatchState :=
  {| routes := [ {| source := "BLR"; dest := "PAT" |};
                 {| source := "IXL"; dest := "DEL" |} ];
     dateOffsets := [1%Z; 7%Z];
     currentRouteIndex := 0; currentDateIndex := 0 |}.

Definition sample_storage : SessionStorage :=
  {| remainingRoutes := Some sample_batch; pendingExtraction := None |}.


Definition sample_params : ExtractionParams :=
  {| sourceCode := "BLR"; destCode := "PAT"; daysOffset := Some 1%Z;
     dateStr := Some "2024-01-16" |}.

(** The batch of one route and one date, its only job just done. *)
Definition single_job_storage : SessionStorage :=
  {| remainingRoutes :=
       Some {| routes := [ {| source := "BLR"; dest := "PAT" |} ];
               dateOffsets := [1%Z];
               currentRouteIndex := 0; currentDateIndex := 0 |};
     pendingExtraction := None |}.

Definition count_matches (data : Payload) : Prop :=
  flights_count (metadata data) = length (flights data).

(** A pane card whose flight code is already known from the summary. *)
Definition known_code_card : RtCard :=
  {| rc_placeholder := false; rc_collapsed_group := false;
     rc_has_time := true; rc_has_price := true; rc_visible := true;
     rc_data_test := None; rc_id := None; rc_text := "IndiGo 6E 2134";
     rc_summary := Normal sample_summary;
     rc_details :=
       {| rt_select_raises := false; rt_details_link := false;
          rt_link_click_raises := false; rt_details_info := None |} |}.

(** * Further definitions *)


(** A round-trip page whose second pane cannot be expanded. *)
Definition broken_pane_page : Page :=
  {| page_url := "https://www.makemytrip.com/flight/search";
     page_user_agent := "Chrome"; page_now := "2024-01-15T10:30:00.000Z";
     page_elapsed_ms := 1000; page_iso_date := sample_iso_date "2024-01-15";
     page_intl := Some "false"; page_ui_round_trip := true;
     page_split_view :=
       Some [long_pane 2;
             {| pane_card_count := 1; pane_route_text := None;
                pane_date_text := None; pane_expand := Throw;
                pane_cards := [long_pane_card 7]; pane_cards_now := [] |}];
     page_listing_cards := 3; page_cards_before := 3;
     page_cards_after_wait := 3; page_uncheck_non_stop := Normal ();
     page_click_options := Normal (); page_click_more := Normal ();
     page_flight_cards := []; page_flight_cards_fallback := [] |}.

(** The record [extractFlightData] reads off the card at position [i]. *)
Definition summary_flight (i : nat) (card : Card) : option Flight :=
  match extractFlightFromCard (card_summary card) i with
  | Normal flight => if isValidFlight flight then Some flight else None
  | Throw => None
  end.

(** The labels [extractRoundTripFlights] gives to the records of pane [p]. *)
Definition pane_labelled (r : Flight) : Prop :=
  exists p, pane_index r = Some p
            /\ direction r = Some (if (p =? 0)%nat then "outbound" else "return")
            /\ is_return_flight r = Some (negb (p =? 0)%nat).

(** A round-trip page with one pane of two cards whose flight code is already
    on the card. *)
Definition known_code_page : Page :=
  {| page_url := "https://www.makemytrip.com/flight/search";
     page_user_agent := "Chrome"; page_now := "2024-01-15T10:30:00.000Z";
     page_elapsed_ms := 1000; page_iso_date := sample_iso_date "2024-01-15";
     page_intl := Some "false"; page_ui_round_trip := true;
     page_split_view :=
       Some [ {| pane_card_count := 2; pane_route_text := None;
                 pane_date_text := None; pane_expand := Normal ();
                 pane_cards := [known_code_card; known_code_card];
                 pane_cards_now := [known_code_card] |} ];
     page_listing_cards := 2; page_cards_before := 2;
     page_cards_after_wait := 2; page_uncheck_non_stop := Normal ();
     page_click_options := Normal (); page_click_more := Normal ();
     page_flight_cards := []; page_flight_cards_fallback := [] |}.

(** The flight code of the card is known from its summary, or the summary
    cannot be read. *)
Definition code_on_card (card : RtCard) : Prop :=
  match rc_summary card with
  | Normal s => js_truthy (sm_flight_code s) = true
  | Throw => True
  end.

(** The identifiers the pane loop gives to the cards of a list, from position
    [i] on. *)
Fixpoint card_ids (i : nat) (cards : list RtCard) : list string :=
  match cards with
  | [] => []
  | card :: rest => card_id i card :: card_ids (S i) rest
  end.

(** What a step of the round-trip loops may do to the results. *)
Definition rt_step (dir : string) (p : nat) (st st' : RtState) : Prop :=
  rt_seen st ⊆ rt_seen st'
  /\ (allFlights st' = allFlights st
      \/ exists r,
           allFlights st' = allFlights st ++ [r]
           /\ index r = length (allFlights st)
           /\ (generateFlightKey r ∉ rt_seen st)
           /\ generateFlightKey r ∈ rt_seen st'
           /\ direction r = Some dir
           /\ pane_index r = Some p
           /\ is_return_flight r = Some (bool_decide (dir = "return"))
           /\ isValidFlight r = true).

(** The invariant of the round-trip loops: a record sits at the position its
    index names, its key is in the seen-set, it carries the labels of its
    pane and it is valid; no two records share a key. *)
Definition rt_inv (st : RtState) : Prop :=
  (forall k r, allFlights st !! k = Some r ->
     index r = k /\ generateFlightKey r ∈ rt_seen st
     /\ pane_labelled r /\ isValidFlight r = true)
  /\ NoDup (map generateFlightKey (allFlights st)).

(** The payload of a round-trip job, an empty one when the job raised. *)
Definition round_trip_result (page : Page) : Payload :=
  match extractRoundTripFlights page maxFlights with
  | Normal result => result
  | Throw => final_result page "one_way" []
  end.

(** ** Strings, once more *)

(** [s.toUpperCase()] on a string of ASCII characters, which is what the
    airport codes are; other characters are outside what is modelled. *)
Definition upper_char (c : ascii) : ascii :=
  let n := nat_of_ascii c in
  if (97 <=? n)%nat && (n <=? 122)%nat then ascii_of_nat (n - 32) else c.

Fixpoint toUpperCase (s : string) : string :=
  match s with
  | EmptyString => EmptyString
  | String c rest => String (upper_char c) (toUpperCase rest)
  end.

Definition is_ascii_char (c : ascii) : bool := (nat_of_ascii c <? 128)%nat.

Fixpoint is_ascii_string (s : string) : bool :=
  match s with
  | EmptyString => true
  | String c rest => is_ascii_char c && is_ascii_string rest
  end.

(** [s.padStart(2, '0')] *)
Definition padStart2 (s : string) : string :=
  match String.length s with
  | 0 => "00"
  | 1 => "0" +:+ s
  | _ => s
  end.

(** ** The search URL *)

(** What [constructFlightSearchUrl] reads from a valid [Date]. *)
Record JsDate := {
  getDate : nat;
  getMonth : nat;        (* 0 for January *)
  getFullYear : Z
}.

(** The [DD/MM/YYYY] rendering of the departure date. *)
Definition search_date (departureDate : JsDate) : string :=
  padStart2 (of_nat (getDate departureDate)) +:+ "/"
  +:+ padStart2 (of_nat (getMonth departureDate + 1)) +:+ "/"
  +:+ pretty (getFullYear departureDate).

(** The entries of the [URLSearchParams] object built by
    [constructFlightSearchUrl], in insertion order. *)
Definition flightSearchParams (sourceCode destCode : string) (departureDate : JsDate)
    (tripType : string) (isInternational : bool) (adults children infants : nat)
    (cabinClass : string) : list (string * string) :=
  let dateStr := search_date departureDate in
  let itinerary :=
    toUpperCase sourceCode +:+ "-" +:+ toUpperCase destCode +:+ "-" +:+ dateStr in
  let paxType :=
    "A-" +:+ of_nat adults +:+ "_C-" +:+ of_nat children +:+ "_I-"
    +:+ of_nat infants in
  [("itinerary", itinerary); ("tripType", tripType); ("paxType", paxType);
   ("intl", if isInternational then "true" else "false");
   ("cabinClass", cabinClass); ("lang", "eng")].

(** [constructFlightSearchUrl(...)]; [toString] is the serialisation of a
    [URLSearchParams] object by the browser. *)
Definition constructFlightSearchUrl (toString : list (string * string) -> string)
    (sourceCode destCode : string) (departureDate : JsDate) (tripType : string)
    (isInternational : bool) (adults children infants : nat)
    (cabinClass : string) : string :=
  "https://www.makemytrip.com/flight/search" +:+ "?"
  +:+ toString (flightSearchParams sourceCode destCode departureDate tripType
                  isInternational adults children infants cabinClass).

(** [urlParams.get(name)] on the entries of a [URLSearchParams] object. *)
Fixpoint params_get (name : string) (params : list (string * string))
  : option string :=
  match params with
  | [] => None
  | (k, v) :: rest => if String.eqb k name then Some v else params_get name rest
  end.

(** ** Resuming after a navigation *)

(** [checkAndAutoExtract()]: the flag [autoExtractMode] and the storage after
    the call, and the parameters of the extraction it schedules, if any.
    [itinerary] is [urlParams.get('itinerary')]. *)
Definition checkAndAutoExtract (page : Page) (itinerary : option string)
    (autoExtractMode : bool) (storage : SessionStorage)
  : bool * SessionStorage * option ExtractionParams :=
  let url := page_url page in
  if includes url "/flight/search" || includes url "/listing" then
    if autoExtractMode then (autoExtractMode, storage, None)
    else if bool_decide (page_intl page = Some "true")
    then (autoExtractMode, storage, None)
    else
      match pendingExtraction storage with
      | Some extractionParams =>
          (true,
           {| remainingRoutes := remainingRoutes storage;
              pendingExtraction := None |},
           Some extractionParams)
      | None =>
          if js_truthy itinerary then
            let parts := split "-" (or_empty itinerary) in
            if (3 <=? length parts)%nat then
              (true, storage,
               Some {| sourceCode := nth 0 parts "";
                       destCode := nth 1 parts "";
                       daysOffset := None;
                       dateStr := Some (join "-" (drop 2 parts)) |})
            else (autoExtractMode, storage, None)
          else (autoExtractMode, storage, None)
      end
  else (autoExtractMode, storage, None).

(** What a freshly loaded page does: the check, then the scheduled
    extraction. *)
Definition on_page_load (page : Page) (itinerary : option string)
    (storage : SessionStorage) : SessionStorage * list BatchEvent :=
  match checkAndAutoExtract page itinerary false storage with
  | (_, storage, Some params) => performAutoExtraction params page storage
  | (_, storage, None) => (storage, [])
  end.

(** [processMultipleRoutesAndDates(routes, dateOffsets, useDirectUrl)]: the
    storage and the navigation, or the exception that rejects the promise. *)
Definition processMultipleRoutesAndDates (routes : list Route) (dateOffsets : list Z)
    (useDirectUrl : bool) (page : Page) (storage : SessionStorage)
  : Completion (SessionStorage * list BatchEvent) :=
  match routes !! 0 with
  | None => Throw                      (* firstRoute.source of undefined *)
  | Some firstRoute =>
      if String.eqb (source firstRoute) "" then Throw    (* sourceCode.toUpperCase() *)
      else if String.eqb (dest firstRoute) "" then Throw  (* destCode.toUpperCase() *)
      else if useDirectUrl then
        let stored :=
          Some {| routes := routes; dateOffsets := dateOffsets;
                  currentRouteIndex := 0; currentDateIndex := 0 |} in
        (* [unwritten]: toISOString() raises after the first item has been
           written, and the handler returns *)
        let unwritten :=
          Normal ({| remainingRoutes := stored;
                     pendingExtraction := pendingExtraction storage |}, []) in
        match dateOffsets !! 0 with
        | None => unwritten                 (* the date is invalid *)
        | Some firstDateOffset =>
            match page_iso_date page firstDateOffset with
            | Throw => unwritten            (* the date is out of range *)
            | Normal dateStr =>
                Normal ({| remainingRoutes := stored;
                           pendingExtraction :=
                             Some {| sourceCode := source firstRoute;
                                     destCode := dest firstRoute;
                                     daysOffset := Some firstDateOffset;
                                     dateStr := Some dateStr |} |},
                        [Navigate (source firstRoute) (dest firstRoute)
                           firstDateOffset])
            end
        end
      else
        (* the first statement of the form-filling branch reads a variable
           that does not exist; the handler returns *)
        Normal (storage, [])
  end.

(** The page loads of a batch, one after the other. *)
Fixpoint run_batch (loads : list (Page * option string)) (storage : SessionStorage)
  : SessionStorage * list BatchEvent :=
  match loads with
  | [] => (storage, [])
  | (page, itinerary) :: rest =>
      let '(storage, sent) := on_page_load page itinerary storage in
      let '(storage, later) := run_batch rest storage in
      (storage, sent ++ later)
  end.

(** The navigations among the events. *)
Definition navigations (events : list BatchEvent) : list (string * string * Z) :=
  omap (fun e => match e with
                 | Navigate s d o => Some (s, d, o)
                 | _ => None
                 end) events.

(** The jobs after job ([r], [d]) in the order of the batch: the later dates
    of route [r], then every date of every later route. *)
Definition jobs_after (routes : list Route) (dateOffsets : list Z) (r d : nat)
  : list (string * string * Z) :=
  match routes !! r with
  | Some route =>
      map (fun o => (source route, dest route, o)) (drop (S d) dateOffsets)
  | None => []
  end
  ++ flat_map (fun route => map (fun o => (source route, dest route, o)) dateOffsets)
       (drop (S r) routes).

(** A loaded page is a domestic result page. *)
Definition result_page (page : Page) : Prop :=
  (includes (page_url page) "/flight/search" || includes (page_url page) "/listing")
  = true
  /\ page_intl page <> Some "true".

(** Every combination of a route and a date, route by route. *)
Definition all_jobs (routes : list Route) (dateOffsets : list Z)
  : list (string * string * Z) :=
  flat_map (fun route => map (fun o => (source route, dest route, o)) dateOffsets)
    routes.

(** The ISO date of every offset of the list can be rendered on the page. *)
Definition dates_in_range (page : Page) (dateOffsets : list Z) : Prop :=
  Forall (fun o => exists dateStr, page_iso_date page o = Normal dateStr)
    dateOffsets.

(** A batch whose second date is a thousand million days away, the first job
    just done. *)
Definition far_date_storage : SessionStorage :=
  {| remainingRoutes :=
       Some (batch_at (routes sample_batch) [1%Z; 1000000000%Z] 0 0);
     pendingExtraction := None |}.

(** The popup's pages of the sample batch. *)
Definition sample_loads : list (Page * option string) :=
  [(empty_page, None); (sample_page, None); (sample_page, None); (empty_page, None)].

(** A batch of two routes sent with an empty list of date offsets. *)
Definition dateless_storage : SessionStorage :=
  {| remainingRoutes := Some (batch_at (routes sample_batch) [] 0 0);
     pendingExtraction := None |}.


(** A departure date. *)
Definition sample_date : JsDate :=
  {| getDate := 5; getMonth := 0; getFullYear := 2024 |}.

(** A result page reached from outside a batch. *)
Definition fresh_storage : SessionStorage :=
  {| remainingRoutes := None; pendingExtraction := None |}.

(** ** The progress display of the popup *)

(** What [updateProgress] and [updateStatus] write; the width of the progress
    bar, a rounded floating-point percentage, is left out. *)
Record PopupState := {
  completedCombinations : nat;
  totalCombinations : nat;
  progressCounter : string;    (* progressCounter.textContent *)
  progressText : string;       (* progressText.textContent *)
  progressDetails : string;    (* progressDetails.textContent *)
  statusText : string;         (* statusText.textContent *)
  statusType : string          (* the class added to the status element *)
}.

(** [updateProgress(completed, total, details)] *)
Definition updateProgress (completed total : nat) (details : string)
    (st : PopupState) : PopupState :=
  let progressDetails :=
    if negb (String.eqb details "") then details else progressDetails st in
  if (total <=? completed)%nat && (0 <? total)%nat then
    {| completedCombinations := completed; totalCombinations := total;
       progressCounter := of_nat completed +:+ "/" +:+ of_nat total;
       progressText := "Completed!";
       progressDetails :=
         "All " +:+ of_nat total +:+ " combinations processed successfully";
       statusText :=
         "All " +:+ of_nat total +:+ " route-date combinations completed!";
       statusType := "success" |}
  else
    {| completedCombinations := completed; totalCombinations := total;
       progressCounter := of_nat completed +:+ "/" +:+ of_nat total;
       progressText := "Processing...";
       progressDetails := progressDetails;
       statusText := statusText st;
       statusType := statusType st |}.

(** [`${request.dateOffset}`] in the popup.  The orchestrator passes [null]
    with the route [All] only; with a route it passes
    [dateOffsets[currentDateIndex]], which is [undefined] past the end of the
    list. *)
Definition shown_offset (route : string) (dateOffset : option Z) : string :=
  match dateOffset with
  | Some o => pretty o
  | None => if String.eqb route "All" then "null" else "undefined"
  end.

(** The message listener of the popup; the other messages go to the
    background worker. *)
Definition popup_onMessage (st : PopupState) (e : BatchEvent) : PopupState :=
  match e with
  | Progress completed total route dateOffset =>
      updateProgress completed total
        (if negb (String.eqb route "")
         then "Route: " +:+ route +:+ ", Date: +"
              +:+ shown_offset route dateOffset +:+ " days"
         else "")
        st
  | _ => st
  end.

(** A popup that shows nothing yet. *)
Definition blank_popup : PopupState :=
  {| completedCombinations := 0; totalCombinations := 0;
     progressCounter := ""; progressText := ""; progressDetails := "";
     statusText := ""; statusType := "" |}.

(** ** The log buffer *)

Record LogEntry := {
  log_timestamp : string;
  log_level : string;
  log_message : string;
  log_data : option string;     (* JSON.stringify(data), or null *)
  log_url : string
}.

Definition maxLogs : nat := 100 * 100.

(** [Logger.log(level, message, data)]: the buffer after the call, and
    whether [saveToStorage] was called. *)
Definition Logger_log (timestamp url level message : string) (data : option string)
    (logs : list LogEntry) : list LogEntry * bool :=
  let logEntry :=
    {| log_timestamp := timestamp; log_level := level; log_message := message;
       log_data := data; log_url := url |} in
  let logs := logs ++ [logEntry] in
  let logs := if (maxLogs <? length logs)%nat then drop 1 logs else logs in
  (logs, (length logs mod 10 =? 0)%nat).

(** ** Waiting for the listing *)

(** The lengths of the five queries of one poll of [waitForPageReady]. *)
Record ReadyPoll := {
  poll_listingCard : nat;
  poll_listingCard_class : nat;
  poll_cluster_listingCard : nat;
  poll_splitVw : nat;
  poll_flightCard : nat
}.

Definition totalCards (p : ReadyPoll) : nat :=
  poll_listingCard p + poll_listingCard_class p + poll_cluster_listingCard p
  + poll_splitVw p + poll_flightCard p.

(** The loop of [waitForPageReady] from attempt [attempts], with [remaining]
    attempts to go: the answer and the number of polls made. *)
Fixpoint poll_from (polls : nat -> ReadyPoll) (attempts remaining : nat)
  : bool * nat :=
  match remaining with
  | 0 => (false, attempts)
  | S remaining =>
      if (0 <? totalCards (polls attempts))%nat then (true, S attempts)
      else poll_from polls (S attempts) remaining
  end.

(** [waitForPageReady()]; [polls k] is what the poll number [k] sees. *)
Definition waitForPageReady (polls : nat -> ReadyPoll) : bool * nat :=
  poll_from polls 0 40.

(** A page on which the listing shows at the third poll. *)
Definition slow_listing (k : nat) : ReadyPoll :=
  {| poll_listingCard := if (k <? 2)%nat then 0 else 12;
     poll_listingCard_class := 0; poll_cluster_listingCard := 0;
     poll_splitVw := 0; poll_flightCard := 0 |}.

(** ** Keys that coincide *)

Definition set_departure_time (v : option string) (f : Flight) : Flight :=
  {| index := index f; airline := airline f; airline_code := airline_code f;
     flight_code := flight_code f; departure_time := v;
     departure_city := departure_city f;
     arrival_time := arrival_time f; arrival_city := arrival_city f;
     date := date f; layovers := layovers f; price := price f;
     fare_options := fare_options f; summary_rest := summary_rest f;
     direction := direction f; is_return_flight := is_return_flight f;
     pane_index := pane_index f; route := route f;
     flight_details := flight_details f;
     merged_details := merged_details f; route_info := route_info f |}.

(** * Properties *)

(** ** Sets *)

Lemma set_add_union (k : string) (s : gset string) : set_add k s = {[ k ]} ∪ s.
Proof.
  destruct s as [m]. unfold set_add.
  apply leibniz_equiv. intros x.
  rewrite elem_of_union, elem_of_singleton.
  change (x ∈ Mapset (<[k:=()]> m)) with (<[k:=()]> m !! x = Some ()).
  change (x ∈ Mapset m) with (m !! x = Some ()).
  destruct (decide (k = x)) as [->|Hne].
  - rewrite lookup_insert_eq. tauto.
  - rewrite lookup_insert_ne by done. split; [tauto|]. intros [?|?]; congruence.
Qed.

(** ** Strings *)

Lemma append_assoc_string (a b c : string) :
  (a +:+ b) +:+ c = a +:+ (b +:+ c).
Proof.
  induction a as [|x a IH]; [reflexivity|].
  change (String x ((a +:+ b) +:+ c) = String x (a +:+ (b +:+ c))).
  rewrite IH. reflexivity.
Qed.

(** ** The identity key *)

Example sample_flight_key :
  generateFlightKey sample_flight = "outbound_6E 2134_08:30_10:45".
Proof. reflexivity. Qed.

Example sample_airline_name_key :
  generateFlightKey
    (set_airline (Some "Air  India Express Limited")
       (set_airline_code None (set_flight_code None sample_flight)))
  = "outbound_Air_India_Express_L_08:30_10:45_Bengaluru_Patna_15 Jan 2024".
Proof. reflexivity. Qed.

(** Two records that agree on the flight code, the carrier code, the airline
    name, the times, the cities and the date need not receive equal keys: the
    key also carries the direction of the record. *)
Lemma generateFlightKey_direction_counterexample :
  ~ (forall f1 f2 : Flight,
        same_key_fields f1 f2 -> generateFlightKey f1 = generateFlightKey f2).
Proof.
  intros H.
  specialize (H sample_flight sample_flight_return).
  assert (Hs : same_key_fields sample_flight sample_flight_return)
    by (repeat split).
  specialize (H Hs). vm_compute in H. discriminate H.
Qed.

(** C1 (amended): the key is the direction of the record and an underscore,
    when the record has a direction, followed by the fields of the most
    specific tier, joined by underscores: with a flight code, the flight code
    and the two times; otherwise, with a carrier code, the carrier code, the
    two times and the two cities; otherwise the first 20 characters of the
    airline name with every run of white space turned into an underscore, the
    two times, the two cities and the date.  Hence records that agree on the
    direction and on the fields of their tier receive equal keys. *)
Theorem generateFlightKey_by_priority (f : Flight) :
  let dep := or_empty (departure_time f) in
  let arr := or_empty (arrival_time f) in
  let from := or_empty (departure_city f) in
  let to := or_empty (arrival_city f) in
  (js_truthy (flight_code f) = true ->
   generateFlightKey f
   = direction_prefix f
     +:+ or_empty (flight_code f) +:+ "_" +:+ dep +:+ "_" +:+ arr)
  /\ (js_truthy (flight_code f) = false -> js_truthy (airline_code f) = true ->
      generateFlightKey f
      = direction_prefix f
        +:+ or_empty (airline_code f) +:+ "_" +:+ dep +:+ "_" +:+ arr
        +:+ "_" +:+ from +:+ "_" +:+ to)
  /\ (js_truthy (flight_code f) = false -> js_truthy (airline_code f) = false ->
      generateFlightKey f
      = direction_prefix f
        +:+ replace_spaces (substring 0 20 (or_empty (airline f)))
        +:+ "_" +:+ dep +:+ "_" +:+ arr +:+ "_" +:+ from +:+ "_" +:+ to
        +:+ "_" +:+ or_empty (date f))
  /\ forall f2 : Flight,
       direction f = direction f2 ->
       flight_code f = flight_code f2 ->
       departure_time f = departure_time f2 ->
       arrival_time f = arrival_time f2 ->
       (js_truthy (flight_code f) = true
        \/ (airline_code f = airline_code f2
            /\ departure_city f = departure_city f2
            /\ arrival_city f = arrival_city f2
            /\ (js_truthy (airline_code f) = true
                \/ (airline f = airline f2 /\ date f = date f2)))) ->
       generateFlightKey f = generateFlightKey f2.
Proof.
  intros dep arr from to. subst dep arr from to.
  assert (Hprefix : forall k : string,
            (if js_truthy (direction f)
             then or_empty (direction f) +:+ "_" +:+ k else k)
            = direction_prefix f +:+ k).
  { intros k. unfold direction_prefix.
    destruct (js_truthy (direction f)); [|reflexivity].
    rewrite append_assoc_string. reflexivity. }
  split; [|split; [|split]].
  - intros Hcode. unfold generateFlightKey. rewrite Hcode. apply Hprefix.
  - intros Hcode Hcarrier. unfold generateFlightKey.
    rewrite Hcode, Hcarrier. apply Hprefix.
  - intros Hcode Hcarrier. unfold generateFlightKey.
    rewrite Hcode, Hcarrier. apply Hprefix.
  - intros f2 Hdir Hfc Hdep Harr Hrest.
    unfold generateFlightKey.
    rewrite <- Hdir, <- Hfc, <- Hdep, <- Harr.
    destruct (js_truthy (flight_code f)) eqn:Hcode; [reflexivity|].
    destruct Hrest as [Hfalse | (Hac & Hdc & Harc & Hlast)]; [discriminate|].
    rewrite <- Hac, <- Hdc, <- Harc.
    destruct (js_truthy (airline_code f)) eqn:Hacode; [reflexivity|].
    destruct Hlast as [Hfalse | [Hname Hdate]]; [discriminate|].
    rewrite <- Hname, <- Hdate. reflexivity.
Qed.

Lemma generateFlightKey_by_priority_witness :
  generateFlightKey sample_flight
  = direction_prefix sample_flight
    +:+ or_empty (flight_code sample_flight) +:+ "_"
    +:+ or_empty (departure_time sample_flight) +:+ "_"
    +:+ or_empty (arrival_time sample_flight)
  /\ generateFlightKey sample_flight
     = generateFlightKey
         (set_index 7 (set_airline (Some "Indigo Airlines") sample_flight)).
Proof.
  split.
  - apply (proj1 (generateFlightKey_by_priority sample_flight)). reflexivity.
  - apply (proj2 (proj2 (proj2 (generateFlightKey_by_priority sample_flight)))
             (set_index 7 (set_airline (Some "Indigo Airlines") sample_flight)));
      [reflexivity | reflexivity | reflexivity | reflexivity | left; reflexivity].
Defined.

(** ** The duplicate check *)

Lemma isDuplicateFlight_snd (r : option Flight) (s : gset string) :
  snd (isDuplicateFlight r s)
  = match r with Some f => {[ generateFlightKey f ]} ∪ s | None => s end.
Proof.
  destruct r as [f|]; simpl; [|reflexivity].
  destruct (decide (generateFlightKey f ∈ s)); simpl;
    [|apply set_add_union].
  apply leibniz_equiv. set_solver.
Qed.

Lemma check_all_keys (records : list (option Flight)) (s : gset string) :
  check_all records s = s ∪ list_to_set (keys_of records).
Proof.
  revert s. induction records as [|r records IH]; intros s.
  - simpl. apply leibniz_equiv. set_solver.
  - unfold check_all in *. simpl fold_left. rewrite IH, isDuplicateFlight_snd.
    destruct r as [f|]; simpl; apply leibniz_equiv; set_solver.
Qed.

(** C2: a record whose key is not in the seen-set is reported new and its key
    is inserted; checking it again reports a duplicate and changes nothing.
    Whatever sequence of records is checked, the seen-set ends as the union of
    what it held and the keys of the records, so it holds no more than its
    former elements and the distinct keys inserted. *)
Theorem isDuplicateFlight_idempotent (r : Flight) (s : gset string) :
  generateFlightKey r ∉ s ->
  let s1 := snd (isDuplicateFlight (Some r) s) in
  isDuplicateFlight (Some r) s = (false, {[ generateFlightKey r ]} ∪ s)
  /\ isDuplicateFlight (Some r) s1 = (true, s1)
  /\ forall records : list (option Flight),
       check_all records s = s ∪ list_to_set (keys_of records)
       /\ size (check_all records s)
          <= size s + size (list_to_set (keys_of records) : gset string).
Proof.
  intros Hfresh s1. subst s1. simpl.
  destruct (decide (generateFlightKey r ∈ s)) as [Hin|_]; [contradiction|].
  simpl. rewrite set_add_union. split; [reflexivity|]. split.
  - destruct (decide (generateFlightKey r ∈ {[generateFlightKey r]} ∪ s))
      as [_|Hnot]; [reflexivity|].
    exfalso. apply Hnot. set_solver.
  - intros records. split; [apply check_all_keys|].
    rewrite check_all_keys, size_union_alt.
    apply Nat.add_le_mono_l, subseteq_size. set_solver.
Qed.

Lemma isDuplicateFlight_idempotent_witness :
  isDuplicateFlight (Some sample_flight) ∅
  = (false, {[ generateFlightKey sample_flight ]} ∪ ∅).
Proof.
  apply (isDuplicateFlight_idempotent sample_flight ∅).
  apply not_elem_of_empty.
Defined.

(** C10: a missing record is reported as a duplicate whatever the seen-set
    holds, and the seen-set is left as it was. *)
Theorem isDuplicateFlight_missing (s : gset string) :
  isDuplicateFlight None s = (true, s).
Proof. reflexivity. Qed.

(** ** One iteration of the one-way card loop *)

Lemma same_summary_key (r f : Flight) :
  same_summary r f -> generateFlightKey r = generateFlightKey f /\ index r = index f.
Proof.
  unfold same_summary. destruct r, f. simpl. intros H.
  injection H as -> -> -> -> -> -> -> -> -> -> -> -> -> -> -> -> -> ->.
  split; reflexivity.
Qed.

Lemma same_summary_refl (f : Flight) : same_summary f f.
Proof. reflexivity. Qed.

Lemma run_popup_result (i : nat) (place : Place) (p : PopupRun) (f : Flight) :
  match fst (run_popup i place p f) with
  | Throw => popup_raises p = true
  | Normal r => popup_raises p = false /\ same_summary r f
                /\ flight_details r = flight_details f
  end.
Proof.
  unfold run_popup, popup_raises.
  destruct (popup_click p) as [[]|];
    (destruct (popup_fare p) as [fare|]; simpl; [|reflexivity];
     assert (Hs : same_summary
                    (match fare with
                     | Some fd => set_fare_options (Some fd) f
                     | None => f
                     end) f /\
                  flight_details (match fare with
                     | Some fd => set_fare_options (Some fd) f
                     | None => f
                     end) = flight_details f)
       by (destruct fare; split; reflexivity);
     destruct (popup_close p); simpl; [|reflexivity];
     destruct (popup_still_visible p); simpl; [|tauto];
     destruct (popup_close_again p); simpl; [tauto|reflexivity]).
Qed.

Lemma run_details_result (i : nat) (place : Place) (d : DetailsRun) (f : Flight) :
  same_summary (fst (run_details i place d f)) f
  /\ fare_options (fst (run_details i place d f)) = fare_options f.
Proof.
  assert (Hs : same_summary
                 (match details_info d with
                  | Some info => set_flight_details (Some info) f
                  | None => f
                  end) f
               /\ fare_options (match details_info d with
                  | Some info => set_flight_details (Some info) f
                  | None => f
                  end) = fare_options f)
    by (destruct (details_info d); split; reflexivity).
  unfold run_details.
  repeat (case_match; simpl; try exact Hs; try (split; reflexivity)).
Qed.

(** What one iteration does to the results and to the seen-set. *)
Lemma process_card_step (i : nat) (card : Card) (st : LoopState) :
  match card_flight i card with
  | None => process_card i card st = st
  | Some f =>
      if decide (generateFlightKey f ∈ st_seen st)
      then process_card i card st = st
      else st_seen (process_card i card st) = {[ generateFlightKey f ]} ∪ st_seen st
           /\ if card_popup_raises card
              then st_flights (process_card i card st) = st_flights st
              else exists r, st_flights (process_card i card st) = st_flights st ++ [r]
                             /\ same_summary r f
  end.
Proof.
  unfold card_flight, process_card, card_popup_raises, popup_entered.
  destruct (extractFlightFromCard (card_summary card) i) as [flight|];
    [|reflexivity].
  simpl. destruct (isValidFlight (set_index i flight)) eqn:Hvalid; simpl;
    [|reflexivity].
  destruct (decide (generateFlightKey (set_index i flight) ∈ st_seen st));
    [destruct st; reflexivity|].
  rewrite <- set_add_union.
  set (button := findViewPricesButtonForCard card).
  set (link := findViewFlightDetailsLinkForCard card).
  destruct (control_usable button) eqn:Husable; simpl.
  - pose proof (run_popup_result i (control_place button) (card_popup card)
                  (set_index i flight)) as Hp.
    destruct (run_popup i (control_place button) (card_popup card)
                (set_index i flight)) as [[r|] ev1]; simpl in Hp.
    + destruct Hp as (-> & Hsame & _).
      destruct (control_visible link).
      * pose proof (run_details_result i (control_place link) (card_details card) r)
          as [Hd _].
        destruct (run_details i (control_place link) (card_details card) r)
          as [r' ev2].
        simpl in *. split; [reflexivity|]. exists r'. split; [reflexivity|].
        unfold same_summary in *. congruence.
      * simpl. split; [reflexivity|]. exists r. split; [reflexivity|assumption].
    + rewrite Hp. simpl. split; reflexivity.
  - destruct (control_visible link).
    + pose proof (run_details_result i (control_place link) (card_details card)
                    (set_index i flight)) as [Hd _].
      destruct (run_details i (control_place link) (card_details card)
                  (set_index i flight)) as [r' ev2].
      simpl in *. split; [reflexivity|]. exists r'. split; [reflexivity|assumption].
    + simpl. split; [reflexivity|]. exists (set_index i flight).
      split; reflexivity.
Qed.

(** The records an iteration appends do not depend on the records and the
    keys collected before, as long as the key of the card is new. *)
Lemma process_card_alone (i : nat) (card : Card) (st : LoopState) (f : Flight) :
  card_flight i card = Some f ->
  generateFlightKey f ∉ st_seen st ->
  st_flights (process_card i card st)
  = st_flights st ++ st_flights (process_card i card initial_state).
Proof.
  unfold card_flight, process_card.
  destruct (extractFlightFromCard (card_summary card) i) as [flight|];
    [|discriminate].
  simpl. destruct (isValidFlight (set_index i flight)); [|discriminate].
  intros Hf Hnew. injection Hf as <-. simpl.
  destruct (decide (generateFlightKey (set_index i flight) ∈ st_seen st));
    [contradiction|].
  destruct (decide (generateFlightKey (set_index i flight) ∈ (∅ : gset string)))
    as [Hin|_]; [exfalso; exact (not_elem_of_empty _ Hin)|].
  destruct (control_usable (findViewPricesButtonForCard card)).
  - destruct (run_popup i _ (card_popup card) (set_index i flight)) as [[r|] ev1];
      simpl; [|rewrite app_nil_r; reflexivity].
    destruct (control_visible (findViewFlightDetailsLinkForCard card));
      [destruct (run_details i _ (card_details card) r)|]; reflexivity.
  - destruct (control_visible (findViewFlightDetailsLinkForCard card));
      [destruct (run_details i _ (card_details card) (set_index i flight))|];
      reflexivity.
Qed.


(** ** The one-way card loop *)

Lemma process_card_seen_mono (i : nat) (card : Card) (st : LoopState) :
  st_seen st ⊆ st_seen (process_card i card st).
Proof.
  pose proof (process_card_step i card st) as H.
  destruct (card_flight i card) as [f|]; [|rewrite H; reflexivity].
  destruct (decide (key f ∈ st_seen st)); [rewrite H; reflexivity|].
  destruct H as [-> _]. set_solver.
Qed.

Lemma process_card_seen_flight (i : nat) (card : Card) (st : LoopState) (f : Flight) :
  card_flight i card = Some f -> key f ∈ st_seen (process_card i card st).
Proof.
  intros Hf. pose proof (process_card_step i card st) as H. rewrite Hf in H.
  destruct (decide (key f ∈ st_seen st)); [rewrite H; assumption|].
  destruct H as [-> _]. set_solver.
Qed.

(** The keys an iteration adds to the seen-set: none, or the key of the
    card. *)
Lemma process_card_seen_new (i : nat) (card : Card) (st : LoopState) (k : string) :
  k ∈ st_seen (process_card i card st) ->
  k ∈ st_seen st \/ exists f, card_flight i card = Some f /\ k = key f.
Proof.
  intros Hk. pose proof (process_card_step i card st) as H.
  destruct (card_flight i card) as [f|]; [|rewrite H in Hk; left; exact Hk].
  destruct (decide (key f ∈ st_seen st)); [rewrite H in Hk; left; exact Hk|].
  destruct H as [Hseen _]. rewrite Hseen in Hk.
  apply elem_of_union in Hk as [Hk|Hk]; [|left; exact Hk].
  apply elem_of_singleton in Hk. right. exists f. auto.
Qed.

(** The records an iteration appends: none, or the record of the card, whose
    key is new. *)
Lemma process_card_added (i : nat) (card : Card) (st : LoopState) :
  st_flights (process_card i card st) = st_flights st
  \/ exists f r, card_flight i card = Some f
                 /\ (key f ∉ st_seen st)
                 /\ card_popup_raises card = false
                 /\ st_flights (process_card i card st) = st_flights st ++ [r]
                 /\ same_summary r f
                 /\ card_record i card = Some r.
Proof.
  pose proof (process_card_step i card st) as H.
  destruct (card_flight i card) as [f|] eqn:Hf; [|left; rewrite H; reflexivity].
  destruct (decide (key f ∈ st_seen st)) as [|Hnew];
    [left; rewrite H; reflexivity|].
  destruct H as [_ H].
  destruct (card_popup_raises card); [left; assumption|].
  destruct H as (r & Hr & Hs). right. exists f, r.
  repeat split; try assumption.
  pose proof (process_card_alone i card st f Hf Hnew) as Halone.
  rewrite Hr in Halone. apply app_inv_head in Halone.
  unfold card_record. rewrite <- Halone. reflexivity.
Qed.

(** A card whose key is new and whose popup branch is not left by an
    exception has its record appended. *)
Lemma process_card_appends (i : nat) (card : Card) (st : LoopState) (f : Flight) :
  card_flight i card = Some f ->
  key f ∉ st_seen st ->
  card_popup_raises card = false ->
  exists r, st_flights (process_card i card st) = st_flights st ++ [r]
            /\ same_summary r f /\ card_record i card = Some r.
Proof.
  intros Hf Hnew Hok.
  destruct (process_card_added i card st)
    as [Hsame | (f' & r & Hf' & _ & _ & Hpush & Hs & Hrec)].
  - pose proof (process_card_step i card st) as H. rewrite Hf in H.
    destruct (decide (key f ∈ st_seen st)); [contradiction|].
    destruct H as [_ H]. rewrite Hok in H. destruct H as (r & Hr & _).
    rewrite Hsame in Hr. apply (f_equal length) in Hr.
    rewrite length_app in Hr. simpl in Hr. lia.
  - rewrite Hf in Hf'. injection Hf' as <-. exists r. auto.
Qed.

(** The invariant of the loop, from card [n] on, for any state. *)
Lemma card_loop_spec (cards : list Card) :
  forall (n : nat) (st : LoopState),
    let res := card_loop n cards st in
    st_seen st ⊆ st_seen res
    /\ (forall j card f, cards !! j = Some card ->
          card_flight (n + j) card = Some f -> key f ∈ st_seen res)
    /\ exists added,
         st_flights res = st_flights st ++ added
         /\ NoDup (map generateFlightKey added)
         /\ (forall r, r ∈ added ->
               key r ∈ st_seen res
               /\ exists j card f,
                    cards !! j = Some card /\ index r = n + j
                    /\ card_flight (n + j) card = Some f
                    /\ same_summary r f
                    /\ card_record (n + j) card = Some r
                    /\ (key f ∉ st_seen st)
                    /\ forall j' card' f',
                         j' < j -> cards !! j' = Some card' ->
                         card_flight (n + j') card' = Some f' -> key f' <> key f)
         /\ (forall j card f,
               cards !! j = Some card ->
               card_flight (n + j) card = Some f ->
               key f ∉ st_seen st ->
               (forall j' card' f',
                  j' < j -> cards !! j' = Some card' ->
                  card_flight (n + j') card' = Some f' -> key f' <> key f) ->
               card_popup_raises card = false ->
               exists r, r ∈ added /\ card_record (n + j) card = Some r
                         /\ index r = n + j)
         /\ ((forall card, card ∈ cards -> card_popup_raises card = false) ->
             forall k, k ∈ st_seen res ->
                       k ∈ st_seen st \/ exists r, r ∈ added /\ key r = k).
Proof.
  induction cards as [|c cs IH]; intros n st res.
  - subst res. simpl. split; [reflexivity|]. split; [intros j ? ? Hj; inversion Hj|].
    exists []. rewrite app_nil_r. split; [reflexivity|]. split; [constructor|].
    split; [intros r Hr; inversion Hr|].
    split; [intros j ? ? Hj; inversion Hj|]. intros _ k Hk. left. exact Hk.
  - subst res. simpl card_loop.
    set (st1 := process_card n c st).
    destruct (IH (S n) st1)
      as (Hmono & Hseen & added & Hfl & Hnd & Hadd & Hlocal & Hcomplete).
    pose proof (process_card_seen_mono n c st) as Hmono1. fold st1 in Hmono1.
    split; [set_solver|]. split.
    { intros [|j] card f Hj Hf; simpl in Hj.
      - injection Hj as <-. rewrite Nat.add_0_r in Hf.
        apply Hmono. apply process_card_seen_flight. exact Hf.
      - apply (Hseen j card f Hj). rewrite <- Hf. f_equal. lia. }
    assert (Hrest : forall r, r ∈ added ->
              key r ∈ st_seen (card_loop (S n) cs st1)
              /\ exists j card f,
                   (c :: cs) !! j = Some card /\ index r = n + j
                   /\ card_flight (n + j) card = Some f
                   /\ same_summary r f
                   /\ card_record (n + j) card = Some r
                   /\ (key f ∉ st_seen st)
                   /\ forall j' card' f',
                        j' < j -> (c :: cs) !! j' = Some card' ->
                        card_flight (n + j') card' = Some f' -> key f' <> key f).
    { intros r Hr.
      destruct (Hadd r Hr)
        as (Hk & j & card & f & Hj & Hi & Hf & Hs & Hrec & Hnew & Hfirst).
      split; [exact Hk|]. exists (S j), card, f.
      replace (n + S j) with (S n + j) by lia.
      repeat split; try assumption.
      - intros Hin. apply Hnew. apply Hmono1. exact Hin.
      - intros [|j'] card' f' Hlt Hj' Hf'; simpl in Hj'.
        + injection Hj' as <-. rewrite Nat.add_0_r in Hf'.
          intros Heq. apply Hnew. rewrite <- Heq.
          apply process_card_seen_flight. exact Hf'.
        + apply (Hfirst j' card' f'); [lia|exact Hj'|].
          rewrite <- Hf'. f_equal. lia. }
    assert (Hlater : forall j card f,
              cs !! j = Some card ->
              card_flight (n + S j) card = Some f ->
              key f ∉ st_seen st ->
              (forall j' card' f',
                 j' < S j -> (c :: cs) !! j' = Some card' ->
                 card_flight (n + j') card' = Some f' -> key f' <> key f) ->
              card_popup_raises card = false ->
              exists r, r ∈ added /\ card_record (n + S j) card = Some r
                        /\ index r = n + S j).
    { intros j card f Hj Hf Hnew Hfirst Hok.
      replace (n + S j) with (S n + j) in * by lia.
      apply (Hlocal j card f Hj Hf); [| |exact Hok].
      - intros Hin. fold st1 in Hin.
        apply process_card_seen_new in Hin as [Hin | (f0 & Hf0 & Hk)];
          [contradiction|].
        apply (Hfirst 0 c f0); [lia|reflexivity| |symmetry; exact Hk].
        rewrite Nat.add_0_r. exact Hf0.
      - intros j' card' f' Hlt Hj' Hf'.
        apply (Hfirst (S j') card' f'); [lia|exact Hj'|].
        rewrite <- Hf'. f_equal. lia. }
    destruct (process_card_added n c st)
      as [Hsame | (f & r & Hf & Hnew & Hok & Hpush & Hs & Hrec)];
      fold st1 in Hsame || fold st1 in Hpush.
    + exists added. rewrite Hfl, Hsame. split; [reflexivity|]. split; [exact Hnd|].
      split; [exact Hrest|]. split.
      { intros [|j] card f Hj Hf Hnew Hfirst Hok; simpl in Hj.
        - injection Hj as <-. rewrite Nat.add_0_r in Hf.
          destruct (process_card_appends n c st f Hf Hnew Hok) as (r & Hr & _).
          fold st1 in Hr. rewrite Hsame in Hr. apply (f_equal length) in Hr.
          rewrite length_app in Hr. simpl in Hr. lia.
        - apply (Hlater j card f Hj Hf Hnew Hfirst Hok). }
      intros Hall k Hk.
      destruct (Hcomplete ltac:(intros; apply Hall; set_solver) k Hk) as [Hin|Hex];
        [|right; exact Hex].
      (* the key was put in the seen-set by this card, which completed *)
      fold st1 in Hin.
      apply process_card_seen_new in Hin as [Hin | (f & Hf & Hkf)];
        [left; exact Hin|].
      destruct (decide (key f ∈ st_seen st)) as [Hold|Hnew];
        [left; rewrite Hkf; exact Hold|].
      destruct (process_card_appends n c st f Hf Hnew
                  ltac:(apply Hall; set_solver)) as (r & Hr & _).
      fold st1 in Hr. rewrite Hsame in Hr.
      exfalso. apply (f_equal length) in Hr. rewrite length_app in Hr.
      simpl in Hr. lia.
    + destruct (same_summary_key r f Hs) as [Hkey Hidx].
      assert (Hkin : key r ∈ st_seen st1).
      { rewrite Hkey. apply process_card_seen_flight. exact Hf. }
      assert (Hindex : index r = n).
      { rewrite Hidx. unfold card_flight in Hf.
        destruct (extractFlightFromCard (card_summary c) n); [|discriminate].
        simpl in Hf. destruct (isValidFlight _); [|discriminate].
        injection Hf as <-. reflexivity. }
      exists (r :: added). rewrite Hfl, Hpush, <- app_assoc. split; [reflexivity|].
      split.
      { simpl. constructor; [|exact Hnd].
        intros Hin. apply list_elem_of_fmap in Hin as (r' & Heq & Hr').
        destruct (Hadd r' Hr') as (_ & j & card & f' & _ & _ & _ & Hs' & _ & Hnew' & _).
        destruct (same_summary_key r' f' Hs') as [Hkey' _].
        apply Hnew'. rewrite <- Hkey', <- Heq. exact Hkin. }
      split.
      { intros r0 Hr0. apply elem_of_cons in Hr0 as [-> | Hr0]; [|apply Hrest; exact Hr0].
        split; [apply Hmono; exact Hkin|].
        exists 0, c, f. rewrite Nat.add_0_r.
        repeat split; try assumption.
        intros j' ? ? Hlt. lia. }
      split.
      { intros [|j] card f0 Hj Hf0 Hnew0 Hfirst Hok0; simpl in Hj.
        - injection Hj as <-. rewrite Nat.add_0_r in *.
          rewrite Hf in Hf0. injection Hf0 as <-.
          exists r. split; [left|]. split; [exact Hrec|exact Hindex].
        - destruct (Hlater j card f0 Hj Hf0 Hnew0 Hfirst Hok0) as (r0 & Hr0 & H0).
          exists r0. split; [right; exact Hr0|exact H0]. }
      intros Hall k Hk.
      destruct (Hcomplete ltac:(intros; apply Hall; set_solver) k Hk) as [Hin|(r0 & Hr0 & Hk0)].
      * fold st1 in Hin.
        apply process_card_seen_new in Hin as [Hin | (f0 & Hf0 & Hkf)];
          [left; exact Hin|].
        rewrite Hf in Hf0. injection Hf0 as <-.
        right. exists r. split; [left|]. congruence.
      * right. exists r0. split; [right; exact Hr0|exact Hk0].
Qed.

Example two_equal_cards :
  map index (st_flights (card_loop 0 [sample_card; sample_card] initial_state)) = [0].
Proof. vm_compute. reflexivity. Qed.



(** A later card with the same key adds nothing to the record of the first:
    the fare options of the second card are not merged into it. *)
Example later_duplicate_not_merged :
  map fare_options
    (st_flights (card_loop 0 [sample_card; failing_click_card] initial_state))
  = [None].
Proof. vm_compute. reflexivity. Qed.



(** ** Exceptions while a card is processed *)

Example failing_popup_left_open :
  st_trace (process_card 0 failing_popup_card initial_state)
  = [EvScrollCard 0; EvClickViewPrices 0 InCard]
  /\ st_flights (process_card 0 failing_popup_card initial_state) = [].
Proof. split; reflexivity. Qed.

(** A click on View Prices that raises does not stop the card: the popup is
    read and closed and the record is appended. *)
Example failing_click_goes_on :
  st_trace (process_card 0 failing_click_card initial_state)
  = [EvScrollCard 0; EvClickViewPrices 0 InCard; EvClosePopup 0]
  /\ map fare_options (st_flights (process_card 0 failing_click_card initial_state))
     = [Some {| fare_payload := "SAVER" |}].
Proof. split; reflexivity. Qed.







(** ** Cards without a usable fare-popup trigger *)

Lemma run_details_events (i : nat) (place : Place) (d : DetailsRun) (f : Flight) :
  forallb (fun e => negb (is_popup_event e)) (snd (run_details i place d f)) = true.
Proof.
  unfold run_details, recover_details.
  repeat (case_match; simpl; try reflexivity).
Qed.

(** A card without a usable View Prices button is not always appended: the
    second of two equal cards is dropped as a duplicate, button or no
    button. *)
Lemma duplicate_without_trigger_counterexample :
  ~ (forall (i : nat) (card : Card) (st : LoopState),
        control_usable (findViewPricesButtonForCard card) = false ->
        exists r, st_flights (process_card i card st) = st_flights st ++ [r]).
Proof.
  intros H.
  destruct (H 1 sample_card (process_card 0 sample_card initial_state) eq_refl)
    as [r Hr].
  vm_compute in Hr. discriminate Hr.
Qed.

(** A card with no button of its own still enters the popup branch, through
    the button found under its parent. *)
Example borrowing_card_enters_popup :
  st_trace (process_card 0 borrowing_card initial_state)
  = [EvScrollCard 0; EvClickViewPrices 0 NearCard; EvClosePopup 0].
Proof. reflexivity. Qed.

(** C7 (amended): a card that yields a valid record with a new key and for
    which [findViewPricesButtonForCard] returns nothing, or a button that is
    invisible or disabled, gets its record appended: the popup branch is
    skipped (no click on a button, no popup closed), the record carries what
    the summary extraction produced, its fare options included, and differs
    from it at most in the details the details panel added; when the details
    branch is not entered either it is the summary record itself.  The
    finder returns nothing exactly when neither the button of the card nor
    the first button under the parent of the card carries the button text; a
    card with no such button of its own whose parent holds a usable one
    enters the popup branch and clicks that button.  A card whose summary
    cannot be read or is invalid, or whose key has been seen, changes
    nothing, button or no button. *)
Theorem card_without_trigger (i : nat) (card : Card) (st : LoopState) :
  (forall f,
     card_flight i card = Some f ->
     generateFlightKey f ∉ st_seen st ->
     control_usable (findViewPricesButtonForCard card) = false ->
     exists r ev,
       st_flights (process_card i card st) = st_flights st ++ [r]
       /\ st_trace (process_card i card st) = st_trace st ++ ev
       /\ forallb (fun e => negb (is_popup_event e)) ev = true
       /\ same_summary r f
       /\ fare_options r = fare_options f
       /\ (details_entered card = false -> r = f))
  /\ (findViewPricesButtonForCard card = None <->
      match card_button card with
      | Some button => btn_has_text button = false
      | None => True
      end
      /\ match card_nearby_button card with
         | Some nearbyButton => btn_has_text nearbyButton = false
         | None => True
         end)
  /\ (forall f nearbyButton,
        card_flight i card = Some f ->
        generateFlightKey f ∉ st_seen st ->
        match card_button card with
        | Some button => btn_has_text button = false
        | None => True
        end ->
        card_nearby_button card = Some nearbyButton ->
        btn_has_text nearbyButton = true ->
        ctl_visible (btn_control nearbyButton) = true ->
        ctl_disabled (btn_control nearbyButton) = false ->
        exists ev,
          st_trace (process_card i card st)
          = st_trace st ++ EvScrollCard i :: EvClickViewPrices i NearCard :: ev)
  /\ (card_flight i card = None -> process_card i card st = st)
  /\ (forall f,
        card_flight i card = Some f ->
        generateFlightKey f ∈ st_seen st ->
        process_card i card st = st).
Proof.
  split; [|split; [|split; [|split]]].
  - intros f Hf Hnew Hskip. unfold card_flight in Hf. unfold process_card.
    destruct (extractFlightFromCard (card_summary card) i) as [flight|];
      [|discriminate].
    simpl in Hf. destruct (isValidFlight (set_index i flight)); [|discriminate].
    injection Hf as <-. simpl.
    destruct (decide (generateFlightKey (set_index i flight) ∈ st_seen st));
      [contradiction|].
    rewrite Hskip. unfold details_entered.
    set (link := findViewFlightDetailsLinkForCard card).
    destruct (control_visible link).
    + pose proof (run_details_result i (control_place link) (card_details card)
                    (set_index i flight)) as [Hs Hfare].
      pose proof (run_details_events i (control_place link) (card_details card)
                    (set_index i flight)) as Hev.
      destruct (run_details i (control_place link) (card_details card)
                  (set_index i flight)) as [r ev].
      simpl in *. exists r, ev. repeat split; try assumption. discriminate.
    + simpl. exists (set_index i flight), []. rewrite app_nil_r.
      repeat split; reflexivity.
  - unfold findViewPricesButtonForCard.
    destruct (card_button card) as [[[] ?]|];
      destruct (card_nearby_button card) as [[[] ?]|]; simpl;
      (split; [intros Hnone | intros [Hown Hnear]]);
      try discriminate; auto.
  - intros f nearbyButton Hf Hnew Hown Hnear Htext Hvisible Henabled.
    unfold card_flight in Hf. unfold process_card.
    destruct (extractFlightFromCard (card_summary card) i) as [flight|];
      [|discriminate].
    simpl in Hf. destruct (isValidFlight (set_index i flight)); [|discriminate].
    injection Hf as <-. simpl.
    destruct (decide (generateFlightKey (set_index i flight) ∈ st_seen st));
      [contradiction|].
    assert (Hfound : findViewPricesButtonForCard card
                     = Some (NearCard, btn_control nearbyButton)).
    { unfold findViewPricesButtonForCard. rewrite Hnear, Htext.
      destruct (card_button card) as [button|]; [rewrite Hown|]; reflexivity. }
    rewrite Hfound. simpl. rewrite Hvisible, Henabled. simpl.
    unfold run_popup.
    destruct (popup_click (card_popup card));
      (destruct (popup_fare (card_popup card));
       [destruct (popup_close (card_popup card));
        [destruct (popup_still_visible (card_popup card));
         [destruct (popup_close_again (card_popup card))|]|]|]);
      simpl;
      try (destruct (control_visible (findViewFlightDetailsLinkForCard card));
           [destruct (run_details i _ (card_details card) _)|]);
      simpl; eexists; rewrite <- ?app_assoc; simpl; reflexivity.
  - intros Hnone. pose proof (process_card_step i card st) as H.
    rewrite Hnone in H. exact H.
  - intros f Hf Hseen. pose proof (process_card_step i card st) as H.
    rewrite Hf in H.
    destruct (decide (generateFlightKey f ∈ st_seen st)); [exact H|contradiction].
Qed.

Lemma card_without_trigger_witness :
  exists r ev,
    st_flights (process_card 0 hidden_trigger_card initial_state) = [] ++ [r]
    /\ st_trace (process_card 0 hidden_trigger_card initial_state) = [] ++ ev
    /\ forallb (fun e => negb (is_popup_event e)) ev = true
    /\ same_summary r (sample_record 0)
    /\ fare_options r = fare_options (sample_record 0)
    /\ (details_entered hidden_trigger_card = false -> r = sample_record 0).
Proof.
  apply (proj1 (card_without_trigger 0 hidden_trigger_card initial_state)
           (sample_record 0) eq_refl (not_elem_of_empty _));
    reflexivity.
Defined.

(** ** The events of the card loop *)

Lemma run_popup_events_card (i : nat) (place : Place) (p : PopupRun) (f : Flight) :
  Forall (fun e => event_iteration e = Some i) (snd (run_popup i place p f)).
Proof.
  unfold run_popup.
  repeat (case_match; simpl; try solve [repeat constructor]).
Qed.

Lemma run_details_events_card (i : nat) (place : Place) (d : DetailsRun)
    (f : Flight) :
  Forall (fun e => event_iteration e = Some i) (snd (run_details i place d f)).
Proof.
  unfold run_details, recover_details.
  repeat (case_match; simpl; try solve [repeat constructor]).
Qed.

Lemma process_card_trace (i : nat) (card : Card) (st : LoopState) :
  exists ev,
    st_trace (process_card i card st) = st_trace st ++ ev
    /\ Forall (fun e => event_iteration e = Some i) ev
    /\ (ev <> [] ->
        exists f, card_flight i card = Some f
                  /\ generateFlightKey f ∉ st_seen st).
Proof.
  unfold card_flight, process_card.
  destruct (extractFlightFromCard (card_summary card) i) as [flight|];
    [|exists []; rewrite app_nil_r; repeat split; [constructor|congruence]].
  simpl. destruct (isValidFlight (set_index i flight));
    [|exists []; rewrite app_nil_r; repeat split; [constructor|congruence]].
  simpl.
  destruct (decide (generateFlightKey (set_index i flight) ∈ st_seen st));
    [exists []; simpl; rewrite app_nil_r; repeat split; [constructor|congruence]|].
  assert (Hsrc : exists f, Some (set_index i flight) = Some f
                           /\ generateFlightKey f ∉ st_seen st) by eauto.
  set (button := findViewPricesButtonForCard card).
  set (link := findViewFlightDetailsLinkForCard card).
  pose proof (run_popup_events_card i (control_place button) (card_popup card)
                (set_index i flight)) as Hp.
  destruct (control_usable button).
  - destruct (run_popup i (control_place button) (card_popup card)
                (set_index i flight)) as [[r|] ev1]; simpl in Hp.
    + pose proof (run_details_events_card i (control_place link)
                    (card_details card) r) as Hd.
      destruct (control_visible link).
      * destruct (run_details i (control_place link) (card_details card) r)
          as [r' ev2]. simpl in *.
        exists (ev1 ++ ev2). repeat split; auto. apply Forall_app; auto.
      * simpl. exists (ev1 ++ []). repeat split; auto.
        rewrite app_nil_r. exact Hp.
    + simpl. exists ev1. auto.
  - pose proof (run_details_events_card i (control_place link) (card_details card)
                  (set_index i flight)) as Hd.
    destruct (control_visible link).
    + destruct (run_details i (control_place link) (card_details card)
                  (set_index i flight)) as [r' ev2].
      simpl in *. exists ev2. auto.
    + simpl. exists []. repeat split; [constructor|congruence].
Qed.

Lemma card_loop_trace (cards : list Card) :
  forall (n : nat) (st : LoopState),
  exists evs,
    st_trace (card_loop n cards st) = st_trace st ++ evs
    /\ forall e, e ∈ evs ->
         exists j card f,
           cards !! j = Some card /\ event_iteration e = Some (n + j)
           /\ card_flight (n + j) card = Some f
           /\ (generateFlightKey f ∉ st_seen st)
           /\ forall j' card' f',
                j' < j -> cards !! j' = Some card' ->
                card_flight (n + j') card' = Some f' ->
                generateFlightKey f' <> generateFlightKey f.
Proof.
  induction cards as [|c cs IH]; intros n st.
  - exists []. simpl. rewrite app_nil_r. split; [reflexivity|].
    intros e He. inversion He.
  - simpl card_loop. set (st1 := process_card n c st).
    destruct (IH (S n) st1) as (evs & Htr & Hevs).
    destruct (process_card_trace n c st) as (ev & Hev & Hcard & Hsrc).
    fold st1 in Hev.
    pose proof (process_card_seen_mono n c st) as Hmono. fold st1 in Hmono.
    exists (ev ++ evs). rewrite Htr, Hev, <- app_assoc. split; [reflexivity|].
    intros e He. apply elem_of_app in He as [He|He].
    + assert (Hne : ev <> []) by (intros ->; inversion He).
      destruct (Hsrc Hne) as (f & Hf & Hnew).
      exists 0, c, f. rewrite Nat.add_0_r.
      repeat split; try assumption.
      * rewrite Forall_forall in Hcard. apply Hcard. exact He.
      * intros j' ? ? Hlt. lia.
    + destruct (Hevs e He) as (j & card & f & Hj & Hi & Hf & Hnew & Hfirst).
      exists (S j), card, f. replace (n + S j) with (S n + j) by lia.
      repeat split; try assumption.
      * intros Hin. apply Hnew. apply Hmono. exact Hin.
      * intros [|j'] card' f' Hlt Hj' Hf'; simpl in Hj'.
        -- injection Hj' as <-. rewrite Nat.add_0_r in Hf'.
           intros Heq. apply Hnew. rewrite <- Heq.
           apply process_card_seen_flight. exact Hf'.
        -- apply (Hfirst j' card' f'); [lia|exact Hj'|].
           rewrite <- Hf'. f_equal. lia.
Qed.

Lemma prepare_listing_events (page : Page) :
  Forall (fun e => event_iteration e = None) (snd (prepare_listing page)).
Proof.
  unfold prepare_listing.
  repeat (case_match; simpl; try solve [repeat constructor]).
Qed.

(** ** The cap on the cards of a job *)

Example long_round_trip_page_3 :
  map generateFlightKey
    (flights (fst (extractFlightsSequentially None (long_round_trip_page 3))))
  = ["outbound_6E 0_00:00_"; "outbound_6E 1_00:01_"; "outbound_6E 2_00:02_"].
Proof. vm_compute. reflexivity. Qed.

(** A one-way listing of 201 cards yields 200 records. *)
Example long_listing_page_201 :
  length (flights (fst (extractFlightsSequentially None (long_listing_page 201))))
  = 200.
Proof. vm_compute. reflexivity. Qed.

(** A round-trip job is not capped: a pane of 201 flights yields 201
    records. *)
Lemma round_trip_cap_counterexample :
  ~ (forall (tripType : option string) (page : Page),
        length (flights (fst (extractFlightsSequentially tripType page)))
        <= maxFlights).
Proof.
  intros H. specialize (H None (long_round_trip_page 201)).
  vm_compute in H. lia.
Qed.

Lemma process_card_length (i : nat) (card : Card) (st : LoopState) :
  length (st_flights (process_card i card st)) <= S (length (st_flights st)).
Proof.
  destruct (process_card_added i card st) as [-> | (f & r & _ & _ & _ & -> & _)].
  - lia.
  - rewrite length_app. simpl. lia.
Qed.

Lemma card_loop_length (cards : list Card) :
  forall (n : nat) (st : LoopState),
    length (st_flights (card_loop n cards st))
    <= length (st_flights st) + length cards.
Proof.
  induction cards as [|c cs IH]; intros n st; simpl; [lia|].
  specialize (IH (S n) (process_card n c st)).
  pose proof (process_card_length n c st). lia.
Qed.

Lemma visibleCards_length (flightCards : list Card) :
  length (visibleCards flightCards) <= maxFlights.
Proof. unfold visibleCards. rewrite length_take. lia. Qed.

(** The records of the loop carry the positions of the cards walked. *)
Lemma card_loop_indices (cards : list Card) :
  Forall (fun r => index r < length cards)
    (st_flights (card_loop 0 cards initial_state)).
Proof.
  destruct (card_loop_spec cards 0 initial_state)
    as (_ & _ & added & Hfl & _ & Hadd & _).
  simpl in Hfl. rewrite Hfl. apply Forall_forall. intros r Hr.
  destruct (Hadd r Hr) as (_ & j & card & f & Hj & Hi & _).
  apply lookup_lt_Some in Hj. simpl in Hi. lia.
Qed.

(** C4 (amended): for a job that is not a round trip, the card loop is fed
    the first 200 visible cards with content at most: whatever the page
    holds, the result is empty or is the result of the loop over those
    cards, it holds at most 200 records, every record carries the position of
    one of those cards, and every event of the loop belongs to the iteration
    of one of them.  A round-trip job ignores the bound: its result does not
    depend on the bound it is given. *)
Theorem one_way_job_capped (tripType : option string) (page : Page) :
  (if negb (js_truthy tripType) then Some (detectTripTypeFromUI page)
   else tripType) <> Some "round_trip" ->
  let flightCards :=
    if (length (page_flight_cards page) =? 0)%nat
    then page_flight_cards_fallback page else page_flight_cards page in
  let fed := visibleCards flightCards in
  let result := fst (extractFlightsSequentially tripType page) in
  let trace := snd (extractFlightsSequentially tripType page) in
  length fed <= 200
  /\ (flights result = []
      \/ flights result = st_flights (card_loop 0 fed initial_state))
  /\ length (flights result) <= 200
  /\ Forall (fun r => index r < 200) (flights result)
  /\ (forall e i, e ∈ trace -> event_iteration e = Some i -> i < 200)
  /\ forall cap cap' : nat,
       extractRoundTripFlights page cap = extractRoundTripFlights page cap'.
Proof.
  intros Hkind flightCards fed result trace.
  pose proof (visibleCards_length flightCards) as Hcap. fold fed in Hcap.
  unfold maxFlights in Hcap.
  assert (Hcases :
            (flights result = []
             /\ Forall (fun e => event_iteration e = None) trace)
            \/ (flights result = st_flights (card_loop 0 fed initial_state)
                /\ exists prepared,
                     trace = prepared ++ st_trace (card_loop 0 fed initial_state)
                     /\ Forall (fun e => event_iteration e = None) prepared)).
  { subst result trace. unfold extractFlightsSequentially.
    set (tt := if negb (js_truthy tripType) then Some (detectTripTypeFromUI page)
               else tripType) in *.
    destruct (valid (validateDomesticTripStructure tt page)); simpl;
      [|left; split; [reflexivity|constructor]].
    rewrite bool_decide_eq_false_2 by exact Hkind.
    pose proof (prepare_listing_events page) as Hprep.
    destruct (prepare_listing page) as [[[]|] prepared]; simpl in Hprep;
      [|left; split; [reflexivity|exact Hprep]].
    fold flightCards.
    destruct (length flightCards =? 0)%nat; simpl;
      [left; split; [reflexivity|exact Hprep]|].
    right. fold fed. split; [reflexivity|]. exists prepared. auto. }
  split; [exact Hcap|]. split; [tauto|].
  split; [|split; [|split]].
  - destruct Hcases as [[-> _] | [-> _]]; [simpl; lia|].
    pose proof (card_loop_length fed 0 initial_state) as Hlen. simpl in Hlen. lia.
  - destruct Hcases as [[-> _] | [-> _]]; [constructor|].
    eapply Forall_impl; [apply card_loop_indices|]. simpl. intros r Hr. lia.
  - intros e i He Hi.
    destruct Hcases as [[_ Hnone] | [_ (prepared & Htrace & Hnone)]].
    + rewrite Forall_forall in Hnone. rewrite (Hnone e He) in Hi. discriminate.
    + rewrite Htrace in He. apply elem_of_app in He as [He|He].
      * rewrite Forall_forall in Hnone. rewrite (Hnone e He) in Hi. discriminate.
      * destruct (card_loop_trace fed 0 initial_state) as (evs & Htr & Hevs).
        rewrite Htr in He. simpl in He.
        destruct (Hevs e He) as (j & card & f & Hj & Hij & _).
        apply lookup_lt_Some in Hj. rewrite Hij in Hi. injection Hi as <-.
        simpl. lia.
  - intros cap cap'. reflexivity.
Qed.

Lemma one_way_job_capped_witness :
  length (visibleCards (page_flight_cards (long_listing_page 201))) <= 200
  /\ length (flights (fst (extractFlightsSequentially None (long_listing_page 201))))
     <= 200.
Proof.
  assert (Hkind : (if negb (js_truthy None)
                   then Some (detectTripTypeFromUI (long_listing_page 201))
                   else None) <> Some "round_trip") by discriminate.
  pose proof (one_way_job_capped None (long_listing_page 201) Hkind) as H.
  cbv zeta in H. destruct H as (Hfed & _ & Hlen & _).
  split; [exact Hfed | exact Hlen].
Defined.

(** ** Structure validation failures *)

Example empty_page_result :
  error (fst (extractFlightsSequentially None empty_page))
  = Some "Validation failed: No flight cards found. Required: div.listingCard elements. Please wait for page to load completely.".
Proof. reflexivity. Qed.

Example empty_page_batch_goes_on :
  performAutoExtraction sample_params empty_page sample_storage
  = ({| remainingRoutes :=
          Some {| routes := routes sample_batch;
                  dateOffsets := dateOffsets sample_batch;
                  currentRouteIndex := 0; currentDateIndex := 1 |};
        pendingExtraction :=
          Some {| sourceCode := "BLR"; destCode := "PAT";
                  daysOffset := Some 7%Z; dateStr := Some "2024-01-16" |} |},
     [Progress 1 4 "BLR-PAT" (Some 1%Z); Navigate "BLR" "PAT" 7]).
Proof. reflexivity. Qed.




(** After a job, the orchestrator moves to the next date of the route when
    there is one, *)
Lemma processNextRoute_to_next_date (page : Page) (routes : list Route)
    (dateOffsets : list Z) (r d : nat) (pe : option ExtractionParams)
    (route : Route) (o : Z) (iso : string) :
  routes !! r = Some route ->
  dateOffsets !! (d + 1) = Some o ->
  page_iso_date page o = Normal iso ->
  processNextRoute page
    {| remainingRoutes := Some (batch_at routes dateOffsets r d);
       pendingExtraction := pe |}
  = (job_storage routes dateOffsets r (d + 1) route o iso,
     [job_progress routes dateOffsets r d route;
      Navigate (source route) (dest route) o]).
Proof.
  intros Hroute Hdate Hiso. unfold processNextRoute. simpl. rewrite Hroute.
  apply lookup_lt_Some in Hdate as Hlt.
  destruct (Z.ltb_spec (Z.of_nat d) (Z.of_nat (length dateOffsets) - 1))
    as [_|Hge]; [|lia].
  rewrite Hdate, Hiso. reflexivity.
Qed.

(** and otherwise to the first date of the next route when there is one. *)
Lemma processNextRoute_to_next_route (page : Page) (routes : list Route)
    (dateOffsets : list Z) (r d : nat) (pe : option ExtractionParams)
    (route next : Route) (o : Z) (iso : string) :
  routes !! r = Some route ->
  length dateOffsets <= d + 1 ->
  routes !! (r + 1) = Some next ->
  dateOffsets !! 0 = Some o ->
  page_iso_date page o = Normal iso ->
  processNextRoute page
    {| remainingRoutes := Some (batch_at routes dateOffsets r d);
       pendingExtraction := pe |}
  = (job_storage routes dateOffsets (r + 1) 0 next o iso,
     [job_progress routes dateOffsets r d route;
      Navigate (source next) (dest next) o]).
Proof.
  intros Hroute Hlast Hnext Hdate Hiso. unfold processNextRoute. simpl.
  rewrite Hroute.
  destruct (Z.ltb_spec (Z.of_nat d) (Z.of_nat (length dateOffsets) - 1))
    as [Hlt|_]; [lia|].
  apply lookup_lt_Some in Hnext as Hlt.
  destruct (Z.ltb_spec (Z.of_nat r) (Z.of_nat (length routes) - 1))
    as [_|Hge]; [|lia].
  rewrite Hnext, Hdate, Hiso. reflexivity.
Qed.




(** ** The end of a batch *)

Example single_job_batch_ends :
  processNextRoute sample_page single_job_storage
  = ({| remainingRoutes := None; pendingExtraction := None |},
     [Progress 1 1 "BLR-PAT" (Some 1%Z); Progress 1 1 "All" None]).
Proof. reflexivity. Qed.

(** C8: when the stored indices are those of a job of the batch and the
    number of completed jobs they stand for equals the number of
    combinations, [processNextRoute] removes both items from the session
    storage and its last message is a progress update whose completed count
    and total are the number of combinations. *)
Theorem processNextRoute_terminal (page : Page) (storage : SessionStorage)
    (b : BatchState) :
  remainingRoutes storage = Some b ->
  currentRouteIndex b < length (routes b) ->
  currentDateIndex b < length (dateOffsets b) ->
  currentRouteIndex b * length (dateOffsets b) + currentDateIndex b + 1
  = length (routes b) * length (dateOffsets b) ->
  let total := length (routes b) * length (dateOffsets b) in
  fst (processNextRoute page storage)
  = {| remainingRoutes := None; pendingExtraction := None |}
  /\ last (snd (processNextRoute page storage))
     = Some (Progress total total "All" None).
Proof.
  intros Hb Hroute Hdate Hdone total. subst total.
  unfold processNextRoute. rewrite Hb.
  destruct (lookup_lt_is_Some_2 (routes b) (currentRouteIndex b) Hroute)
    as [route ->].
  assert (Hd : currentDateIndex b + 1 = length (dateOffsets b)) by nia.
  assert (Hr : currentRouteIndex b + 1 = length (routes b)) by nia.
  destruct (Z.ltb_spec (Z.of_nat (currentDateIndex b))
              (Z.of_nat (length (dateOffsets b)) - 1)) as [Hlt|_]; [lia|].
  destruct (Z.ltb_spec (Z.of_nat (currentRouteIndex b))
              (Z.of_nat (length (routes b)) - 1)) as [Hlt|_]; [lia|].
  simpl. split; reflexivity.
Qed.

Lemma processNextRoute_terminal_witness :
  fst (processNextRoute sample_page single_job_storage)
  = {| remainingRoutes := None; pendingExtraction := None |}
  /\ last (snd (processNextRoute sample_page single_job_storage))
     = Some (Progress 1 1 "All" None).
Proof.
  apply (processNextRoute_terminal sample_page single_job_storage
           {| routes := [ {| source := "BLR"; dest := "PAT" |} ];
              dateOffsets := [1%Z];
              currentRouteIndex := 0; currentDateIndex := 0 |});
    [reflexivity | simpl; lia | simpl; lia | reflexivity].
Defined.

(** ** The flight count of a payload *)

Lemma error_result_count (page : Page) (tripType : option string) (msg : string) :
  count_matches (error_result page tripType msg).
Proof. reflexivity. Qed.

Lemma final_result_count (page : Page) (tripType : string) (l : list Flight) :
  count_matches (final_result page tripType l).
Proof. reflexivity. Qed.

Lemma extractRoundTripFlights_count (page : Page) (cap : nat) :
  match extractRoundTripFlights page cap with
  | Normal result => count_matches result
  | Throw => True
  end.
Proof.
  unfold extractRoundTripFlights.
  destruct (valid _); simpl; [|apply error_result_count].
  destruct (length _ =? 0)%nat; [apply error_result_count|].
  destruct (rt_pane_loop _ _ _); [apply final_result_count|exact I].
Qed.

Lemma extractFlightsSequentially_count (tripType : option string) (page : Page) :
  count_matches (fst (extractFlightsSequentially tripType page)).
Proof.
  unfold extractFlightsSequentially.
  destruct (valid _); simpl; [|apply error_result_count].
  destruct (bool_decide _).
  - pose proof (extractRoundTripFlights_count page maxFlights) as H.
    destruct (extractRoundTripFlights page maxFlights); [exact H|].
    apply final_result_count.
  - destruct (prepare_listing page) as [[[]|] prepared];
      [|apply final_result_count].
    destruct (length _ =? 0)%nat; [apply error_result_count|].
    apply final_result_count.
Qed.

Lemma processNextRoute_saves_nothing (page : Page) (storage : SessionStorage) :
  Forall (fun e => match e with SaveJSON _ _ => False | _ => True end)
    (snd (processNextRoute page storage)).
Proof.
  unfold processNextRoute.
  repeat (case_match; simpl; try solve [repeat constructor]).
Qed.

(** C9: the payload of [extractFlightsSequentially], whichever return it
    comes from (validation failure, no cards, round trip, the end of the card
    loop, the handler of the function), the payload of
    [extractRoundTripFlights] when it returns one, the payload of
    [extractFlightData] and the payload [performAutoExtraction] sends to be
    saved all have a flight count equal to the length of their flights. *)
Theorem flights_count_is_length (tripType : option string) (page : Page)
    (params : ExtractionParams) (storage : SessionStorage) :
  count_matches (fst (extractFlightsSequentially tripType page))
  /\ match extractRoundTripFlights page maxFlights with
     | Normal result => count_matches result
     | Throw => True
     end
  /\ count_matches (extractFlightData page)
  /\ Forall (fun e => match e with
                      | SaveJSON _ data => count_matches data
                      | _ => True
                      end)
       (snd (performAutoExtraction params page storage)).
Proof.
  split; [apply extractFlightsSequentially_count|].
  split; [apply extractRoundTripFlights_count|].
  split; [reflexivity|].
  assert (Hnext : Forall (fun e => match e with
                                   | SaveJSON _ data => count_matches data
                                   | _ => True
                                   end) (snd (processNextRoute page storage))).
  { eapply Forall_impl; [apply processNextRoute_saves_nothing|].
    intros [] H; simpl in *; tauto. }
  unfold performAutoExtraction.
  destruct (bool_decide _); [exact Hnext|].
  destruct (_ && _); [exact Hnext|].
  pose proof (extractFlightsSequentially_count
                (Some (detectTripTypeFromUI page)) page) as Hcount.
  set (flightData := fst (extractFlightsSequentially _ page)) in *.
  destruct (processNextRoute page storage) as [storage' sent]. simpl in *.
  apply Forall_app. split; [|exact Hnext].
  destruct (0 <? length (flights flightData))%nat; [|constructor].
  constructor; [|constructor].
  unfold count_matches in *. simpl. rewrite Hcount.
  destruct (_ && _); [rewrite length_map|]; reflexivity.
Qed.

(** ** The second duplicate check of the round-trip driver *)

(** The key the first duplicate check inserted is found again by the check
    made before the record is appended: the record is not appended. *)
Example known_code_card_not_appended :
  allFlights
    (rt_process_card "outbound" 0 None None 0 known_code_card
       {| allFlights := []; rt_seen := ∅; processedCards := ∅ |}) = [].
Proof. vm_compute. reflexivity. Qed.

(** * Further properties *)

(** ** Order and validity of the one-way results *)

Lemma same_summary_valid (r f : Flight) :
  same_summary r f -> isValidFlight r = isValidFlight f.
Proof.
  unfold same_summary. destruct r, f. simpl. intros H.
  injection H as -> -> -> -> -> -> -> -> -> -> -> -> -> -> -> -> -> ->.
  reflexivity.
Qed.

Lemma card_flight_index_valid (i : nat) (card : Card) (f : Flight) :
  card_flight i card = Some f -> index f = i /\ isValidFlight f = true.
Proof.
  unfold card_flight.
  destruct (extractFlightFromCard (card_summary card) i) as [flight|];
    [|discriminate].
  simpl. destruct (isValidFlight (set_index i flight)) eqn:Hv; [|discriminate].
  intros H. injection H as <-. split; [reflexivity|exact Hv].
Qed.

Lemma card_loop_order (cards : list Card) :
  forall (n : nat) (st : LoopState),
  exists added,
    st_flights (card_loop n cards st) = st_flights st ++ added
    /\ StronglySorted lt (map index added)
    /\ Forall (fun r => n <= index r < n + length cards
                        /\ isValidFlight r = true) added.
Proof.
  induction cards as [|c cs IH]; intros n st.
  - exists []. simpl. rewrite app_nil_r. repeat split; constructor.
  - simpl card_loop. destruct (IH (S n) (process_card n c st))
      as (added & Hfl & Hsorted & Hall).
    assert (Hall' : Forall (fun r => n <= index r < n + length (c :: cs)
                                     /\ isValidFlight r = true) added).
    { eapply Forall_impl; [exact Hall|]. simpl. intros r [Hr Hv]. split; [lia|exact Hv]. }
    destruct (process_card_added n c st)
      as [Hsame | (f & r & Hf & _ & _ & Hpush & Hs & _)].
    + exists added. rewrite Hfl, Hsame. auto.
    + destruct (same_summary_key r f Hs) as [_ Hidx].
      destruct (card_flight_index_valid n c f Hf) as [Hi Hv].
      exists (r :: added). rewrite Hfl, Hpush, <- app_assoc.
      split; [reflexivity|]. split.
      * simpl. constructor; [exact Hsorted|].
        apply Forall_fmap. eapply Forall_impl; [exact Hall|].
        simpl. intros r' [Hr' _]. lia.
      * constructor; [|exact Hall'].
        rewrite (same_summary_valid r f Hs). simpl. split; [lia|exact Hv].
Qed.

(** X1: the records of the one-way loop come in card order: their indices
    increase strictly, each is the position of a card of the list, and every
    record passes [isValidFlight]. *)
Theorem card_loop_results_ordered (cards : list Card) :
  let result := st_flights (card_loop 0 cards initial_state) in
  StronglySorted lt (map index result)
  /\ Forall (fun r => index r < length cards /\ isValidFlight r = true) result.
Proof.
  intros result. subst result.
  destruct (card_loop_order cards 0 initial_state) as (added & -> & Hs & Hall).
  simpl. split; [exact Hs|].
  eapply Forall_impl; [exact Hall|]. simpl. intros r [Hr Hv]. split; [lia|exact Hv].
Qed.

(** ** Which iterations of the card loop touch the page *)

(** X2: every scroll and click of the card loop happens during the iteration
    of a card that yielded a valid record whose identity key no earlier card
    had yielded: the iterations of cards with an unreadable or invalid
    summary and of later duplicates do nothing to the page.  (The click of an
    iteration can land outside its card, on the control found under the
    parent of the card.) *)
Theorem card_loop_touches_first_seen_only (cards : list Card) (e : Event) :
  e ∈ st_trace (card_loop 0 cards initial_state) ->
  exists i card f,
    event_iteration e = Some i
    /\ cards !! i = Some card
    /\ card_flight i card = Some f
    /\ forall j' card' f',
         j' < i -> cards !! j' = Some card' ->
         card_flight j' card' = Some f' ->
         generateFlightKey f' <> generateFlightKey f.
Proof.
  intros He.
  destruct (card_loop_trace cards 0 initial_state) as (evs & Htr & Hevs).
  rewrite Htr in He. simpl in He.
  destruct (Hevs e He) as (j & card & f & Hj & Hi & Hf & _ & Hfirst).
  simpl in Hi, Hf. exists j, card, f. repeat split; assumption.
Qed.

Lemma card_loop_touches_first_seen_only_witness :
  exists i card f,
    event_iteration (EvClickViewPrices 0 NearCard) = Some i
    /\ [borrowing_card; failing_popup_card] !! i = Some card
    /\ card_flight i card = Some f
    /\ forall j' card' f',
         j' < i -> [borrowing_card; failing_popup_card] !! j' = Some card' ->
         card_flight j' card' = Some f' ->
         generateFlightKey f' <> generateFlightKey f.
Proof.
  apply (card_loop_touches_first_seen_only [borrowing_card; failing_popup_card]
           (EvClickViewPrices 0 NearCard)).
  replace (st_trace (card_loop 0 [borrowing_card; failing_popup_card] initial_state))
    with [EvScrollCard 0; EvClickViewPrices 0 NearCard; EvClosePopup 0]
    by reflexivity.
  apply elem_of_cons. right. apply elem_of_cons. left. reflexivity.
Defined.

(** ** Payloads with an error *)

Lemma validation_round_trip_panes (page : Page) :
  valid (validateDomesticTripStructure (Some "round_trip") page) = true ->
  exists panes,
    page_split_view page = Some panes /\ panes <> []
    /\ v_panes (validateDomesticTripStructure (Some "round_trip") page) = panes.
Proof.
  unfold validateDomesticTripStructure. simpl.
  destruct (page_split_view page) as [panes|]; [|discriminate].
  destruct panes as [|pane panes]; [discriminate|]. simpl.
  destruct (fold_left _ _ _ =? 0)%nat; [discriminate|]. simpl.
  intros _. exists (pane :: panes). repeat split. discriminate.
Qed.

(** A one-way listing whose cards are gone when the listing has been
    prepared: the error of the missing cards comes after the three helpers
    have been called. *)
Example vanished_cards_trace :
  error (fst (extractFlightsSequentially None vanished_cards_page)) <> None
  /\ snd (extractFlightsSequentially None vanished_cards_page)
     = [EvUncheckNonStopFilter; EvClickAllOptionsAvailableLinks;
        EvClickMoreFlightsLink].
Proof. split; [discriminate|reflexivity]. Qed.

(** X3: a payload of [extractFlightsSequentially] that carries an error text
    carries no flights and a flight count of 0, and no iteration of the card
    loop has run.  When the error is that of the structure validation,
    nothing has been done to the page; otherwise it is the error of the
    missing cards of a one-way listing, and the three helpers that prepare
    the listing have been called before. *)
Theorem error_payload_is_empty (tripType : option string) (page : Page) :
  let kind := if negb (js_truthy tripType) then Some (detectTripTypeFromUI page)
              else tripType in
  let result := fst (extractFlightsSequentially tripType page) in
  let trace := snd (extractFlightsSequentially tripType page) in
  error result <> None ->
  flights result = [] /\ flights_count (metadata result) = 0
  /\ Forall (fun e => event_iteration e = None) trace
  /\ (valid (validateDomesticTripStructure kind page) = false -> trace = [])
  /\ (valid (validateDomesticTripStructure kind page) = true ->
      kind <> Some "round_trip"
      /\ trace = [EvUncheckNonStopFilter; EvClickAllOptionsAvailableLinks;
                  EvClickMoreFlightsLink]).
Proof.
  intros kind. unfold extractFlightsSequentially. fold kind.
  destruct (valid (validateDomesticTripStructure kind page)) eqn:Hvalid; simpl;
    [|intros _; repeat split; try constructor; discriminate].
  destruct (bool_decide (kind = Some "round_trip")) eqn:Hround.
  - apply bool_decide_eq_true_1 in Hround.
    unfold extractRoundTripFlights. rewrite <- Hround, Hvalid. simpl.
    pose proof (validation_round_trip_panes page) as Hpanes.
    rewrite <- Hround, Hvalid in Hpanes.
    destruct (Hpanes eq_refl) as (panes & _ & Hne & ->).
    destruct panes as [|pane rest]; [contradiction|].
    simpl length. simpl Nat.eqb. cbv iota.
    destruct (rt_pane_loop 0 (pane :: rest) _); intros Herr;
      exfalso; apply Herr; reflexivity.
  - apply bool_decide_eq_false_1 in Hround.
    unfold prepare_listing.
    destruct (page_uncheck_non_stop page); simpl;
      [|intros Herr; contradiction].
    destruct (page_click_options page); simpl; [|intros Herr; contradiction].
    destruct (page_click_more page); simpl; [|intros Herr; contradiction].
    destruct (length _ =? 0)%nat; simpl; [|intros Herr; contradiction].
    intros _. repeat split; try (repeat constructor); try discriminate.
    exact Hround.
Qed.

Lemma error_payload_is_empty_witness :
  flights (fst (extractFlightsSequentially None vanished_cards_page)) = []
  /\ snd (extractFlightsSequentially None vanished_cards_page)
     = [EvUncheckNonStopFilter; EvClickAllOptionsAvailableLinks;
        EvClickMoreFlightsLink].
Proof.
  assert (Herr : error (fst (extractFlightsSequentially None vanished_cards_page))
                 <> None) by discriminate.
  pose proof (error_payload_is_empty None vanished_cards_page) as H.
  cbv zeta in H. destruct (H Herr) as (Hflights & _ & _ & _ & Htrace).
  split; [exact Hflights|]. exact (proj2 (Htrace eq_refl)).
Defined.

(** ** A pane that cannot be expanded *)

Lemma rt_pane_loop_throw (panes : list Pane) :
  Exists (fun pane => pane_expand pane = Throw) panes ->
  forall (n : nat) (st : RtState), rt_pane_loop n panes st = Throw.
Proof.
  induction 1 as [pane rest Hthrow | pane rest _ IH]; intros n st; simpl.
  - rewrite Hthrow. reflexivity.
  - destruct (pane_expand pane); [apply IH|reflexivity].
Qed.

(** X4: in a round-trip job, when the expansion of a pane raises, the records
    already collected from the earlier panes are lost: the exception leaves
    [extractRoundTripFlights], the handler of [extractFlightsSequentially]
    catches it, and the payload returned has no flights, no error text and the
    trip type one_way. *)
Theorem round_trip_pane_exception (tripType : option string) (page : Page)
    (panes : list Pane) :
  (if negb (js_truthy tripType) then Some (detectTripTypeFromUI page)
   else tripType) = Some "round_trip" ->
  valid (validateDomesticTripStructure (Some "round_trip") page) = true ->
  page_split_view page = Some panes ->
  Exists (fun pane => pane_expand pane = Throw) panes ->
  extractRoundTripFlights page maxFlights = Throw
  /\ extractFlightsSequentially tripType page
     = (final_result page "one_way" [], []).
Proof.
  intros Hkind Hvalid Hsplit Hthrow.
  assert (Hrt : extractRoundTripFlights page maxFlights = Throw).
  { unfold extractRoundTripFlights. rewrite Hvalid. simpl.
    destruct (validation_round_trip_panes page Hvalid) as (panes' & Hs & Hne & ->).
    rewrite Hsplit in Hs. injection Hs as <-.
    destruct panes as [|pane rest]; [contradiction|]. simpl length. simpl Nat.eqb.
    cbv iota. rewrite (rt_pane_loop_throw (pane :: rest) Hthrow). reflexivity. }
  split; [exact Hrt|].
  unfold extractFlightsSequentially. rewrite Hkind, Hvalid. simpl.
  rewrite Hrt. reflexivity.
Qed.

Lemma round_trip_pane_exception_witness :
  extractRoundTripFlights broken_pane_page maxFlights = Throw
  /\ extractFlightsSequentially None broken_pane_page
     = (final_result broken_pane_page "one_way" [], []).
Proof.
  apply (round_trip_pane_exception None broken_pane_page
           (match page_split_view broken_pane_page with
            | Some panes => panes | None => [] end));
    [reflexivity | reflexivity | reflexivity |].
  apply Exists_cons_tl, Exists_cons_hd. reflexivity.
Defined.

(** ** The summary-only extraction *)

Lemma fold_append_omap {A B : Type} (f : A -> option B) (l : list A) :
  forall acc : list B,
    fold_left (fun acc x => match f x with
                            | Some y => acc ++ [y]
                            | None => acc
                            end) l acc
    = acc ++ omap f l.
Proof.
  induction l as [|x l IH]; intros acc; simpl.
  - rewrite app_nil_r. reflexivity.
  - rewrite IH. destruct (f x); [rewrite <- app_assoc|]; reflexivity.
Qed.

Lemma fold_left_pointwise {A B : Type} (f g : A -> B -> A) (l : list B) :
  (forall a b, f a b = g a b) ->
  forall a, fold_left f l a = fold_left g l a.
Proof.
  intros Hfg. induction l as [|b l IH]; intros a; simpl; [reflexivity|].
  rewrite Hfg. apply IH.
Qed.

Lemma length_omap_le {A B : Type} (f : A -> option B) (l : list A) :
  length (omap f l) <= length l.
Proof.
  induction l as [|x l IH]; [reflexivity|].
  change (x :: l) with ([x] ++ l). rewrite omap_app, length_app.
  simpl. destruct (f x); simpl; lia.
Qed.

(** X5: [extractFlightData] returns, in card order, the valid summary
    records of the first 200 visible cards found by [findFlightCards] (by the
    fallback when it finds none), each with its position among those cards as
    index; cards whose extraction raises are skipped, nothing is deduplicated,
    and the result holds at most 200 records. *)
Theorem extractFlightData_records (page : Page) :
  let flightCards :=
    if (length (page_flight_cards page) =? 0)%nat
    then page_flight_cards_fallback page else page_flight_cards page in
  let cards := take maxFlights (List.filter card_visible flightCards) in
  flights (extractFlightData page)
  = omap (fun '(i, card) => summary_flight i card)
      (zip (seq 0 (length cards)) cards)
  /\ length (flights (extractFlightData page)) <= 200
  /\ error (extractFlightData page) = None.
Proof.
  intros flightCards cards.
  assert (Heq : flights (extractFlightData page)
                = omap (fun '(i, card) => summary_flight i card)
                    (zip (seq 0 (length cards)) cards)).
  { unfold extractFlightData. simpl. fold flightCards. fold cards.
    rewrite <- (app_nil_l (omap _ _)).
    rewrite <- fold_append_omap. apply fold_left_pointwise.
    intros acc [i card]. unfold summary_flight.
    destruct (extractFlightFromCard (card_summary card) i); [|reflexivity].
    destruct (isValidFlight a); reflexivity. }
  split; [exact Heq|]. split; [|reflexivity].
  rewrite Heq. etransitivity; [apply length_omap_le|].
  rewrite length_zip, length_seq. subst cards. rewrite length_take.
  unfold maxFlights. lia.
Qed.

(** ** When the structure validation succeeds *)

Lemma fold_card_count_zero (panes : list Pane) :
  forall acc : nat,
    fold_left (fun n pane => n + pane_card_count pane) panes acc = 0
    <-> acc = 0 /\ Forall (fun pane => pane_card_count pane = 0) panes.
Proof.
  induction panes as [|pane panes IH]; intros acc; simpl.
  - split; [intros ->; split; [reflexivity|constructor]|intros [-> _]; reflexivity].
  - rewrite IH. split.
    + intros [Hsum Hall]. split; [lia|]. constructor; [lia|exact Hall].
    + intros [-> Hall]. inversion Hall as [|? ? H0 Hrest]; subst.
      split; [lia|exact Hrest].
Qed.

(** X6: the validation succeeds exactly when the structure of the trip type
    is on the page: for a round trip, a split view with a pane that holds a
    card; otherwise, a URL that is not marked international and a listing
    card.  A successful validation has no error text. *)
Theorem validation_characterised (tripType : option string) (page : Page) :
  (valid (validateDomesticTripStructure tripType page) = true <->
   if bool_decide (tripType = Some "round_trip")
   then exists panes, page_split_view page = Some panes
                      /\ Exists (fun pane => 0 < pane_card_count pane) panes
   else page_intl page <> Some "true" /\ 0 < page_listing_cards page)
  /\ (valid (validateDomesticTripStructure tripType page) = true ->
      v_error (validateDomesticTripStructure tripType page) = None).
Proof.
  unfold validateDomesticTripStructure. split.
  - destruct (bool_decide (tripType = Some "round_trip")).
    + destruct (page_split_view page) as [panes|]; simpl.
      2:{ split; [discriminate|]. intros (? & ? & _). discriminate. }
      destruct (Nat.eqb_spec (length panes) 0) as [Hlen|Hlen]; simpl.
      { apply length_zero_iff_nil in Hlen. subst panes.
        split; [discriminate|]. intros (? & H & Hex). injection H as <-.
        inversion Hex. }
      destruct (Nat.eqb_spec
                  (fold_left (fun n pane => n + pane_card_count pane) panes 0) 0)
        as [Hsum|Hsum]; simpl.
      * apply fold_card_count_zero in Hsum as [_ Hall].
        split; [discriminate|]. intros (? & H & Hex). injection H as <-.
        exfalso. apply Exists_exists in Hex as (pane & Hin & Hpos).
        rewrite Forall_forall in Hall. specialize (Hall pane Hin). lia.
      * split; [|reflexivity]. intros _. exists panes. split; [reflexivity|].
        destruct (decide (Exists (fun pane => 0 < pane_card_count pane) panes))
          as [Hex|Hnex]; [exact Hex|].
        exfalso. apply Hsum, fold_card_count_zero. split; [reflexivity|].
        apply Forall_forall. intros pane Hin.
        destruct (Nat.eq_dec (pane_card_count pane) 0) as [Hz|Hne]; [exact Hz|].
        exfalso. apply Hnex. apply Exists_exists. exists pane.
        split; [exact Hin|lia].
    + destruct (bool_decide_reflect (page_intl page = Some "true")) as [Hintl|Hintl];
        simpl.
      { split; [discriminate|]. intros [H _]. contradiction. }
      destruct (Nat.eqb_spec (page_listing_cards page) 0) as [Hc|Hc]; simpl.
      * split; [discriminate|]. intros [_ H]. lia.
      * split; [intros _; split; [exact Hintl|lia]|reflexivity].
  - repeat (case_match; simpl; try discriminate; try reflexivity).
Qed.

(** ** The job done on a loaded page *)

Lemma performAutoExtraction_saved (params : ExtractionParams) (page : Page)
    (storage : SessionStorage) :
  fst (performAutoExtraction params page storage)
  = fst (processNextRoute page storage)
  /\ exists saved,
       snd (performAutoExtraction params page storage)
       = saved ++ snd (processNextRoute page storage)
       /\ navigations saved = [].
Proof.
  unfold performAutoExtraction.
  destruct (bool_decide _); [split; [reflexivity|exists []; auto]|].
  destruct (_ && _); [split; [reflexivity|exists []; auto]|].
  destruct (processNextRoute page storage) as [storage' sent]. simpl.
  split; [reflexivity|].
  destruct (_ <? _)%nat; [|exists []; auto].
  eexists. split; reflexivity.
Qed.

(** X7: whatever the page holds, [performAutoExtraction] ends with the
    orchestrator step: the storage it leaves and the messages it sends last
    are those of [processNextRoute].  Before them it sends at most one
    saveJSON message, only when the extraction returned flights; the file is
    named after the route and the date, the saved payload has as many flights
    as the extraction returned, and every saved flight carries the route of
    the job when both codes are given. *)
Theorem performAutoExtraction_advances (params : ExtractionParams) (page : Page)
    (storage : SessionStorage) :
  fst (performAutoExtraction params page storage)
  = fst (processNextRoute page storage)
  /\ exists saved,
       snd (performAutoExtraction params page storage)
       = saved ++ snd (processNextRoute page storage)
       /\ match saved with
          | [] => True
          | [SaveJSON filename data] =>
              let flightData :=
                fst (extractFlightsSequentially
                       (Some (detectTripTypeFromUI page)) page) in
              flights flightData <> []
              /\ length (flights data) = length (flights flightData)
              /\ metadata data = metadata flightData
              /\ filename
                 = "flight-" +:+ sourceCode params +:+ "-" +:+ destCode params
                   +:+ "-"
                   +:+ (if js_truthy (dateStr params)
                        then or_empty (dateStr params)
                        else nth 0 (split "T" (page_now page)) "")
                   +:+ ".json"
              /\ (sourceCode params <> "" -> destCode params <> "" ->
                  Forall (fun r =>
                            route_info r
                            = Some {| route_source := sourceCode params;
                                      route_destination := destCode params;
                                      departure_date_formatted :=
                                        if js_truthy (dateStr params)
                                        then dateStr params else None |})
                    (flights data))
          | _ => False
          end.
Proof.
  unfold performAutoExtraction.
  destruct (bool_decide _); [split; [reflexivity|exists []; auto]|].
  destruct (_ && _); [split; [reflexivity|exists []; auto]|].
  set (flightData := fst (extractFlightsSequentially _ page)).
  destruct (processNextRoute page storage) as [storage' sent]. simpl.
  split; [reflexivity|].
  destruct (Nat.ltb_spec 0 (length (flights flightData))) as [Hpos|Hzero].
  - eexists. split; [reflexivity|]. simpl. split.
    + intros Hnil. rewrite Hnil in Hpos. simpl in Hpos. lia.
    + split; [destruct (_ && _); [apply length_map|reflexivity]|].
      split; [reflexivity|]. split; [reflexivity|].
      intros Hs Hd.
      destruct (String.eqb_spec (sourceCode params) ""); [contradiction|].
      destruct (String.eqb_spec (destCode params) ""); [contradiction|].
      simpl. apply Forall_fmap. apply Forall_true. intros r. reflexivity.
  - exists []. auto.
Qed.

(** ** Invariants of the round-trip driver *)

Lemma merge_details_fields (info : DetailedInfo) (f : Flight) :
  index (merge_details info f) = index f
  /\ direction (merge_details info f) = direction f
  /\ pane_index (merge_details info f) = pane_index f
  /\ is_return_flight (merge_details info f) = is_return_flight f
  /\ isValidFlight (merge_details info f) = isValidFlight f
  /\ (js_truthy (flight_code f) = true ->
      generateFlightKey (merge_details info f) = generateFlightKey f).
Proof.
  unfold merge_details.
  destruct (detailed_flights info) as [|firstFlight ?];
    [repeat split; reflexivity|].
  destruct (segments firstFlight) as [|firstSegment ?];
    [repeat split; reflexivity|].
  repeat split; try (repeat case_match; reflexivity).
  intros Hcode. simpl.
  destruct (negb (js_truthy (airline f)) && js_truthy (airline_name firstSegment));
    simpl; rewrite Hcode; simpl;
    unfold generateFlightKey; repeat case_match; simpl in *; congruence.
Qed.

Lemma rt_run_details_fields (d : RtDetailsRun) (f : Flight) :
  index (rt_run_details d f) = index f
  /\ direction (rt_run_details d f) = direction f
  /\ pane_index (rt_run_details d f) = pane_index f
  /\ is_return_flight (rt_run_details d f) = is_return_flight f
  /\ isValidFlight (rt_run_details d f) = isValidFlight f
  /\ (js_truthy (flight_code f) = true ->
      generateFlightKey (rt_run_details d f) = generateFlightKey f).
Proof.
  unfold rt_run_details.
  destruct (rt_select_raises d); [repeat split; reflexivity|].
  destruct (rt_details_link d); [|repeat split; reflexivity].
  destruct (rt_link_click_raises d); [repeat split; reflexivity|].
  destruct (rt_details_info d) as [info|]; [|repeat split; reflexivity].
  apply merge_details_fields.
Qed.

Lemma extractFlightFromCard_fields (card : Completion Summary) (i : nat) (f : Flight) :
  extractFlightFromCard card i = Normal f ->
  index f = i
  /\ exists s, card = Normal s /\ flight_code f = sm_flight_code s.
Proof.
  destruct card as [s|]; simpl; [|discriminate].
  intros H. injection H as <-. split; [reflexivity|]. exists s. split; reflexivity.
Qed.

Lemma rt_process_card_step (dir : string) (p : nat) (routeText dateText : option string)
    (cardIndex : nat) (card : RtCard) (st : RtState) :
  rt_step dir p st
    (rt_process_card dir p routeText dateText cardIndex card st).
Proof.
  unfold rt_step, rt_process_card.
  destruct (decide (card_id cardIndex card ∈ processedCards st));
    [split; [reflexivity|left; reflexivity]|].
  destruct (extractFlightFromCard (rc_summary card) (length (allFlights st)))
    as [flight|] eqn:Hx; [|split; [reflexivity|left; reflexivity]].
  apply extractFlightFromCard_fields in Hx as [Hidx _].
  set (f1 := set_pane_info dir p routeText dateText flight).
  destruct (isValidFlight f1); simpl; [|split; [reflexivity|left; reflexivity]].
  destruct (decide (generateFlightKey f1 ∈ rt_seen st));
    [split; [reflexivity|left; reflexivity]|].
  destruct (rt_run_details_fields (rc_details card) f1)
    as (Hi & Hd & Hp & Hr & Hv & _).
  set (f2 := rt_run_details (rc_details card) f1) in *.
  destruct (isValidFlight f2) eqn:Hvalid; simpl;
    [|split; [rewrite set_add_union; set_solver|left; reflexivity]].
  destruct (decide (generateFlightKey f2 ∈ set_add (generateFlightKey f1) (rt_seen st)))
    as [Hin|Hnew]; simpl;
    [split; [rewrite set_add_union; set_solver|left; reflexivity]|].
  destruct (alreadyAdded (allFlights st) f2); simpl;
    [split; [rewrite !set_add_union; set_solver|left; reflexivity]|].
  split; [rewrite !set_add_union; set_solver|].
  right. exists f2. rewrite !set_add_union in *.
  repeat split; try assumption; try reflexivity.
  - rewrite Hi. exact Hidx.
  - set_solver.
  - set_solver.
Qed.

Lemma rt_process_missed_step (dir : string) (p : nat) (routeText dateText : option string)
    (card : RtCard) (st : RtState) :
  rt_step dir p st (rt_process_missed dir p routeText dateText card st)
  /\ processedCards (rt_process_missed dir p routeText dateText card st)
     = processedCards st.
Proof.
  unfold rt_step, rt_process_missed.
  destruct (extractFlightFromCard (rc_summary card) (length (allFlights st)))
    as [flight|] eqn:Hx; [|repeat split; [reflexivity|left; reflexivity]].
  apply extractFlightFromCard_fields in Hx as [Hidx _].
  set (f1 := set_pane_info dir p routeText dateText flight).
  destruct (isValidFlight f1) eqn:Hvalid; simpl;
    [|repeat split; [reflexivity|left; reflexivity]].
  destruct (decide (generateFlightKey f1 ∈ rt_seen st)); simpl;
    [repeat split; [reflexivity|left; reflexivity]|].
  split; [|reflexivity]. rewrite set_add_union.
  split; [set_solver|]. right. exists f1.
  repeat split; try assumption; try reflexivity. set_solver.
Qed.

Lemma rt_step_inv (p : nat) (st st' : RtState) :
  rt_inv st ->
  rt_step (if (p =? 0)%nat then "outbound" else "return") p st st' ->
  rt_inv st'.
Proof.
  intros [Hpos Hnd] [Hmono Hstep]. split.
  - destruct Hstep as [Heq | (r & Heq & Hi & Hnew & Hin & Hd & Hp & Hr & Hv)];
      rewrite Heq.
    + intros k r Hk. destruct (Hpos k r Hk) as (? & ? & ? & ?).
      repeat split; try assumption. set_solver.
    + intros k r' Hk. apply lookup_app_Some in Hk as [Hk | [Hlen Hk]].
      * destruct (Hpos k r' Hk) as (? & ? & ? & ?).
        repeat split; try assumption. set_solver.
      * destruct (k - length (allFlights st)) as [|m] eqn:Hm; simpl in Hk;
          [|discriminate].
        injection Hk as <-. repeat split; try assumption; [lia|].
        exists p. repeat split; [exact Hp|exact Hd|].
        rewrite Hr. destruct (p =? 0)%nat; reflexivity.
  - destruct Hstep as [Heq | (r & Heq & Hi & Hnew & Hin & _)]; rewrite Heq;
      [exact Hnd|].
    rewrite map_app. simpl. apply NoDup_app. split; [exact Hnd|].
    split; [|apply NoDup_singleton].
    intros k Hk Hk'. apply list_elem_of_singleton in Hk'. subst k.
    apply list_elem_of_fmap in Hk as (r' & Heq' & Hr').
    apply list_elem_of_lookup in Hr' as [j Hj].
    destruct (Hpos j r' Hj) as (_ & Hseen & _). apply Hnew. congruence.
Qed.

Lemma rt_card_loop_inv (p : nat) (routeText dateText : option string)
    (cards : list RtCard) :
  forall (cardIndex : nat) (st : RtState),
    rt_inv st ->
    rt_inv (rt_card_loop (if (p =? 0)%nat then "outbound" else "return") p
              routeText dateText cardIndex cards st).
Proof.
  induction cards as [|card rest IH]; intros cardIndex st Hinv; simpl;
    [exact Hinv|].
  apply IH. eapply rt_step_inv; [exact Hinv|apply rt_process_card_step].
Qed.

Lemma rt_missed_inv (p : nat) (routeText dateText : option string)
    (missed : list RtCard) :
  forall st : RtState,
    rt_inv st ->
    rt_inv (fold_left
              (fun st card =>
                 rt_process_missed (if (p =? 0)%nat then "outbound" else "return")
                   p routeText dateText card st) missed st).
Proof.
  induction missed as [|card rest IH]; intros st Hinv; simpl; [exact Hinv|].
  apply IH. eapply rt_step_inv; [exact Hinv|apply rt_process_missed_step].
Qed.

Lemma rt_process_pane_inv (p : nat) (pane : Pane) (st : RtState) :
  rt_inv st -> rt_inv (rt_process_pane p pane st).
Proof.
  intros Hinv. unfold rt_process_pane.
  assert (Hloop : rt_inv
            (rt_card_loop (if (p =? 0)%nat then "outbound" else "return") p
               (pane_route_text pane) (pane_date_text pane) 0
               (visiblePaneCards pane)
               {| allFlights := allFlights st; rt_seen := rt_seen st;
                  processedCards := ∅ |}))
    by (apply rt_card_loop_inv; exact Hinv).
  cbv zeta.
  match goal with
  | |- rt_inv (if (size ?a =? ?b)%nat then _ else _) =>
      destruct (size a =? b)%nat; [exact Hloop|];
      destruct (size a <? b)%nat; [|exact Hloop]
  end.
  apply rt_missed_inv. exact Hloop.
Qed.

Lemma rt_pane_loop_inv (panes : list Pane) :
  forall (p : nat) (st st' : RtState),
    rt_inv st -> rt_pane_loop p panes st = Normal st' -> rt_inv st'.
Proof.
  induction panes as [|pane rest IH]; intros p st st' Hinv Hloop; simpl in Hloop.
  - injection Hloop as <-. exact Hinv.
  - destruct (pane_expand pane); [|discriminate].
    apply (IH (S p) (rt_process_pane p pane st) st');
      [apply rt_process_pane_inv; exact Hinv|exact Hloop].
Qed.

Lemma extractRoundTripFlights_inv (page : Page) (cap : nat) (result : Payload) :
  extractRoundTripFlights page cap = Normal result ->
  exists st, rt_inv st /\ flights result = allFlights st.
Proof.
  assert (Hempty : rt_inv {| allFlights := []; rt_seen := ∅; processedCards := ∅ |}).
  { split; [intros k r Hk; inversion Hk|constructor]. }
  unfold extractRoundTripFlights.
  destruct (valid _); simpl.
  - destruct (length _ =? 0)%nat.
    + intros H. injection H as <-. eexists. split; [exact Hempty|reflexivity].
    + destruct (rt_pane_loop _ _ _) as [st|] eqn:Hloop; [|discriminate].
      intros H. injection H as <-. exists st. split; [|reflexivity].
      eapply rt_pane_loop_inv; [exact Hempty|exact Hloop].
  - intros H. injection H as <-. eexists. split; [exact Hempty|reflexivity].
Qed.

(** X8: in the payload of a round-trip job the record at position [k] has
    index [k], passes [isValidFlight], and carries the labels of its pane:
    direction outbound and no return flag for pane 0, direction return and
    the return flag for any later pane. *)
Theorem round_trip_records_labelled (page : Page) (cap : nat) (result : Payload)
    (k : nat) (r : Flight) :
  extractRoundTripFlights page cap = Normal result ->
  flights result !! k = Some r ->
  index r = k /\ pane_labelled r /\ isValidFlight r = true.
Proof.
  intros Hx Hk. destruct (extractRoundTripFlights_inv page cap result Hx)
    as (st & [Hpos _] & Heq).
  rewrite Heq in Hk. destruct (Hpos k r Hk) as (? & _ & ? & ?). auto.
Qed.

(** X9: the payload of a round-trip job never holds two records with the
    same identity key. *)
Theorem round_trip_keys_distinct (page : Page) (cap : nat) (result : Payload) :
  extractRoundTripFlights page cap = Normal result ->
  NoDup (map generateFlightKey (flights result)).
Proof.
  intros Hx. destruct (extractRoundTripFlights_inv page cap result Hx)
    as (st & [_ Hnd] & ->). exact Hnd.
Qed.

Lemma round_trip_keys_distinct_witness :
  NoDup (map generateFlightKey
           (flights (round_trip_result (long_round_trip_page 3)))).
Proof.
  apply (round_trip_keys_distinct (long_round_trip_page 3) maxFlights).
  vm_compute. reflexivity.
Defined.

Lemma round_trip_records_labelled_witness :
  match flights (round_trip_result (long_round_trip_page 3)) !! 1 with
  | Some r => index r = 1 /\ pane_labelled r /\ isValidFlight r = true
  | None => False
  end.
Proof.
  destruct (flights (round_trip_result (long_round_trip_page 3)) !! 1)
    as [r|] eqn:Hr.
  - apply (round_trip_records_labelled (long_round_trip_page 3) maxFlights
             (round_trip_result (long_round_trip_page 3)) 1 r);
      [vm_compute; reflexivity | exact Hr].
  - vm_compute in Hr. discriminate Hr.
Defined.

(** ** Pane cards whose flight code is on the card *)

Lemma rt_process_card_code (dir : string) (p : nat) (routeText dateText : option string)
    (cardIndex : nat) (card : RtCard) (st : RtState) :
  code_on_card card ->
  allFlights (rt_process_card dir p routeText dateText cardIndex card st)
  = allFlights st.
Proof.
  unfold code_on_card, rt_process_card. intros Hcode.
  destruct (decide (card_id cardIndex card ∈ processedCards st)); [reflexivity|].
  destruct (rc_summary card) as [s|]; simpl; [|reflexivity].
  match goal with
  | |- context [set_pane_info dir p routeText dateText ?f] =>
      set (f1 := set_pane_info dir p routeText dateText f)
  end.
  assert (Hf1 : js_truthy (flight_code f1) = true) by exact Hcode.
  destruct (isValidFlight f1); simpl; [|reflexivity].
  destruct (decide (generateFlightKey f1 ∈ rt_seen st)); [reflexivity|].
  destruct (rt_run_details_fields (rc_details card) f1) as (_ & _ & _ & _ & _ & Hkey).
  rewrite (Hkey Hf1).
  destruct (isValidFlight (rt_run_details (rc_details card) f1)); [|reflexivity].
  simpl.
  destruct (decide (generateFlightKey f1 ∈ set_add (generateFlightKey f1) (rt_seen st)))
    as [_|Hnot]; [reflexivity|].
  exfalso. apply Hnot. rewrite set_add_union. set_solver.
Qed.

Lemma rt_process_card_processed (dir : string) (p : nat)
    (routeText dateText : option string) (cardIndex : nat) (card : RtCard)
    (st : RtState) :
  processedCards (rt_process_card dir p routeText dateText cardIndex card st)
  = {[ card_id cardIndex card ]} ∪ processedCards st.
Proof.
  unfold rt_process_card.
  destruct (decide (card_id cardIndex card ∈ processedCards st));
    [apply leibniz_equiv; set_solver|].
  rewrite <- set_add_union.
  repeat (case_match; simpl; try reflexivity).
Qed.

Lemma rt_card_loop_code (dir : string) (p : nat) (routeText dateText : option string)
    (cards : list RtCard) :
  Forall code_on_card cards ->
  forall (cardIndex : nat) (st : RtState),
    allFlights (rt_card_loop dir p routeText dateText cardIndex cards st)
    = allFlights st
    /\ processedCards (rt_card_loop dir p routeText dateText cardIndex cards st)
       = processedCards st ∪ list_to_set (card_ids cardIndex cards).
Proof.
  induction 1 as [|card rest Hcard _ IH]; intros cardIndex st; simpl.
  - split; [reflexivity|]. apply leibniz_equiv. set_solver.
  - destruct (IH (S cardIndex)
                (rt_process_card dir p routeText dateText cardIndex card st))
      as [-> ->].
    rewrite rt_process_card_code by exact Hcard.
    rewrite rt_process_card_processed.
    split; [reflexivity|]. apply leibniz_equiv. set_solver.
Qed.

Lemma card_ids_length (cards : list RtCard) :
  forall i, length (card_ids i cards) = length cards.
Proof. induction cards as [|c cs IH]; intros i; simpl; [|rewrite IH]; reflexivity. Qed.

Lemma rt_process_pane_code (p : nat) (pane : Pane) (st : RtState) :
  Forall code_on_card (visiblePaneCards pane) ->
  NoDup (card_ids 0 (visiblePaneCards pane)) ->
  allFlights (rt_process_pane p pane st) = allFlights st.
Proof.
  intros Hcode Hids. unfold rt_process_pane. cbv zeta.
  match goal with
  | |- context [rt_card_loop ?d p ?rt ?dt 0 ?cs ?s0] =>
      destruct (rt_card_loop_code d p rt dt cs Hcode 0 s0) as [Hfl Hproc];
      set (st1 := rt_card_loop d p rt dt 0 cs s0) in *
  end.
  simpl in Hfl, Hproc.
  assert (Hsize : size (processedCards st1) = length (visiblePaneCards pane)).
  { rewrite Hproc, (left_id_L ∅ (∪)), size_list_to_set by exact Hids.
    apply card_ids_length. }
  rewrite Hsize, Nat.eqb_refl. exact Hfl.
Qed.

Lemma rt_pane_loop_code (panes : list Pane) :
  Forall (fun pane => Forall code_on_card (visiblePaneCards pane)
                      /\ NoDup (card_ids 0 (visiblePaneCards pane))) panes ->
  forall (p : nat) (st st' : RtState),
    rt_pane_loop p panes st = Normal st' -> allFlights st' = allFlights st.
Proof.
  induction 1 as [|pane rest [Hcode Hids] _ IH]; intros p st st' Hloop;
    simpl in Hloop.
  - injection Hloop as <-. reflexivity.
  - destruct (pane_expand pane); [|discriminate].
    rewrite (IH (S p) (rt_process_pane p pane st) st' Hloop).
    apply rt_process_pane_code; assumption.
Qed.

(** X10: a round-trip job returns no flights when the flight code of every
    visible pane card is already on the card and the card identifiers of
    each pane are pairwise distinct: the duplicate check made before a record
    is appended finds the key that the first check inserted for the same
    record, and with distinct identifiers the pass over missed cards is not
    run. *)
Theorem round_trip_known_codes_dropped (page : Page) (cap : nat)
    (panes : list Pane) (result : Payload) :
  page_split_view page = Some panes ->
  Forall (fun pane => Forall code_on_card (visiblePaneCards pane)
                      /\ NoDup (card_ids 0 (visiblePaneCards pane))) panes ->
  extractRoundTripFlights page cap = Normal result ->
  flights result = [].
Proof.
  intros Hsplit Hpanes. unfold extractRoundTripFlights.
  destruct (valid (validateDomesticTripStructure (Some "round_trip") page))
    eqn:Hvalid; simpl.
  - destruct (validation_round_trip_panes page Hvalid) as (panes' & Hs & _ & ->).
    rewrite Hsplit in Hs. injection Hs as <-.
    destruct (length panes =? 0)%nat; [intros H; injection H as <-; reflexivity|].
    destruct (rt_pane_loop 0 panes _) as [st|] eqn:Hloop; [|discriminate].
    intros H. injection H as <-. simpl.
    apply (rt_pane_loop_code panes Hpanes 0 _ st Hloop).
  - intros H. injection H as <-. reflexivity.
Qed.

Lemma round_trip_known_codes_dropped_witness :
  flights (round_trip_result known_code_page) = [].
Proof.
  apply (round_trip_known_codes_dropped known_code_page maxFlights
           (match page_split_view known_code_page with
            | Some panes => panes | None => [] end)
           (round_trip_result known_code_page)).
  - reflexivity.
  - constructor; [|constructor]. split.
    + repeat constructor.
    + vm_compute. repeat constructor; vm_compute; intros H; inversion H;
        subst; match goal with H' : _ ∈ [] |- _ => inversion H' end.
  - vm_compute. reflexivity.
Defined.

(** ** A whole batch *)

Lemma processNextRoute_at_end (page : Page) (routes : list Route)
    (dateOffsets : list Z) (r d : nat) (pe : option ExtractionParams)
    (route : Route) :
  routes !! r = Some route ->
  length dateOffsets <= d + 1 ->
  length routes <= r + 1 ->
  fst (processNextRoute page
         {| remainingRoutes := Some (batch_at routes dateOffsets r d);
            pendingExtraction := pe |})
  = {| remainingRoutes := None; pendingExtraction := None |}
  /\ navigations
       (snd (processNextRoute page
               {| remainingRoutes := Some (batch_at routes dateOffsets r d);
                  pendingExtraction := pe |})) = [].
Proof.
  intros Hroute Hd Hr. unfold processNextRoute. simpl. rewrite Hroute.
  destruct (Z.ltb_spec (Z.of_nat d) (Z.of_nat (length dateOffsets) - 1))
    as [Hlt|_]; [lia|].
  destruct (Z.ltb_spec (Z.of_nat r) (Z.of_nat (length routes) - 1))
    as [Hlt|_]; [lia|].
  split; reflexivity.
Qed.

Lemma navigations_app (a b : list BatchEvent) :
  navigations (a ++ b) = navigations a ++ navigations b.
Proof. apply omap_app. Qed.

Lemma on_page_load_pending (page : Page) (itinerary : option string)
    (b : option BatchState) (params : ExtractionParams) :
  result_page page ->
  on_page_load page itinerary
    {| remainingRoutes := b; pendingExtraction := Some params |}
  = performAutoExtraction params page
      {| remainingRoutes := b; pendingExtraction := None |}.
Proof.
  intros [Hurl Hintl]. unfold on_page_load, checkAndAutoExtract.
  rewrite Hurl. rewrite bool_decide_eq_false_2 by exact Hintl. reflexivity.
Qed.

Lemma on_page_load_step (page : Page) (itinerary : option string)
    (b : option BatchState) (params : ExtractionParams) :
  result_page page ->
  let next := processNextRoute page
                {| remainingRoutes := b; pendingExtraction := None |} in
  fst (on_page_load page itinerary
         {| remainingRoutes := b; pendingExtraction := Some params |})
  = fst next
  /\ navigations
       (snd (on_page_load page itinerary
               {| remainingRoutes := b; pendingExtraction := Some params |}))
     = navigations (snd next).
Proof.
  intros Hpage next. rewrite (on_page_load_pending page itinerary b params Hpage).
  destruct (performAutoExtraction_saved params page
              {| remainingRoutes := b; pendingExtraction := None |})
    as (Hfst & saved & Hsnd & Hsaved).
  split; [exact Hfst|]. rewrite Hsnd, navigations_app, Hsaved. reflexivity.
Qed.

Lemma jobs_after_next_date (routes : list Route) (dateOffsets : list Z)
    (r d : nat) (route : Route) (o : Z) :
  routes !! r = Some route -> dateOffsets !! (d + 1) = Some o ->
  jobs_after routes dateOffsets r d
  = (source route, dest route, o) :: jobs_after routes dateOffsets r (d + 1).
Proof.
  intros Hroute Hdate. unfold jobs_after. rewrite Hroute.
  replace (S d) with (d + 1) by lia.
  rewrite (drop_S dateOffsets o (d + 1) Hdate). reflexivity.
Qed.

Lemma jobs_after_next_route (routes : list Route) (dateOffsets : list Z)
    (r d : nat) (route next : Route) (o : Z) :
  routes !! r = Some route -> length dateOffsets <= d + 1 ->
  routes !! (r + 1) = Some next -> dateOffsets !! 0 = Some o ->
  jobs_after routes dateOffsets r d
  = (source next, dest next, o) :: jobs_after routes dateOffsets (r + 1) 0.
Proof.
  intros Hroute Hlast Hnext Hdate. unfold jobs_after. rewrite Hroute, Hnext.
  rewrite (drop_ge dateOffsets (S d)) by lia. simpl app.
  replace (S r) with (r + 1) by lia.
  rewrite (drop_S routes next (r + 1) Hnext). simpl flat_map.
  destruct dateOffsets as [|o' rest]; [discriminate|].
  simpl in Hdate. injection Hdate as ->. reflexivity.
Qed.

Lemma jobs_after_end (routes : list Route) (dateOffsets : list Z) (r d : nat) :
  length dateOffsets <= d + 1 -> length routes <= r + 1 ->
  jobs_after routes dateOffsets r d = [].
Proof.
  intros Hd Hr. unfold jobs_after.
  rewrite (drop_ge dateOffsets (S d)) by lia.
  rewrite (drop_ge routes (S r)) by lia.
  destruct (routes !! r); reflexivity.
Qed.

Lemma dates_in_range_lookup (page : Page) (dateOffsets : list Z) (k : nat) (o : Z) :
  dates_in_range page dateOffsets -> dateOffsets !! k = Some o ->
  exists iso, page_iso_date page o = Normal iso.
Proof.
  intros Hrange Hk. unfold dates_in_range in Hrange.
  rewrite Forall_lookup in Hrange. exact (Hrange k o Hk).
Qed.

Lemma run_batch_from (routes : list Route) (dateOffsets : list Z)
    (loads : list (Page * option string)) :
  Forall (fun load => result_page (fst load)
                      /\ dates_in_range (fst load) dateOffsets) loads ->
  forall (r d : nat) (params : ExtractionParams),
    r < length routes -> d < length dateOffsets ->
    length loads = S (length (jobs_after routes dateOffsets r d)) ->
    let storage :=
      {| remainingRoutes := Some (batch_at routes dateOffsets r d);
         pendingExtraction := Some params |} in
    fst (run_batch loads storage)
    = {| remainingRoutes := None; pendingExtraction := None |}
    /\ navigations (snd (run_batch loads storage))
       = jobs_after routes dateOffsets r d.
Proof.
  induction 1 as [|[page itinerary] rest [Hpage Hrange] _ IH];
    intros r d params Hr Hd Hlen storage; [discriminate|].
  subst storage. simpl in Hpage, Hrange. simpl run_batch.
  destruct (on_page_load_step page itinerary
              (Some (batch_at routes dateOffsets r d)) params Hpage)
    as [Hfst Hnav].
  destruct (on_page_load page itinerary _) as [storage1 sent]. simpl in Hfst, Hnav.
  destruct (lookup_lt_is_Some_2 routes r Hr) as [route Hroute].
  destruct (le_lt_dec (length dateOffsets) (d + 1)) as [Hlast|Hmore].
  - destruct (le_lt_dec (length routes) (r + 1)) as [Hend|Hroutes].
    + destruct (processNextRoute_at_end page routes dateOffsets r d None route
                  Hroute Hlast Hend) as [Hst Hno].
      rewrite (jobs_after_end routes dateOffsets r d Hlast Hend) in *.
      destruct rest; [|discriminate]. simpl.
      rewrite app_nil_r, Hnav, Hfst. auto.
    + destruct (lookup_lt_is_Some_2 routes (r + 1) Hroutes) as [next Hnext].
      destruct (lookup_lt_is_Some_2 dateOffsets 0 ltac:(lia)) as [o Hdate].
      destruct (dates_in_range_lookup page dateOffsets 0 o Hrange Hdate)
        as [iso Hiso].
      rewrite (processNextRoute_to_next_route page routes dateOffsets r d None
                 route next o iso Hroute Hlast Hnext Hdate Hiso) in Hfst, Hnav.
      simpl in Hfst. subst storage1.
      rewrite (jobs_after_next_route routes dateOffsets r d route next o
                 Hroute Hlast Hnext Hdate) in *.
      simpl in Hlen. injection Hlen as Hlen.
      destruct (IH (r + 1) 0
                  {| sourceCode := source next; destCode := dest next;
                     daysOffset := Some o; dateStr := Some iso |}
                  Hroutes ltac:(lia) Hlen) as [Hst Hjobs].
      unfold job_storage.
      destruct (run_batch rest _) as [storage2 later].
      cbn [fst snd] in *.
      split; [exact Hst|]. rewrite navigations_app, Hnav, Hjobs. reflexivity.
  - destruct (lookup_lt_is_Some_2 dateOffsets (d + 1) Hmore) as [o Hdate].
    destruct (dates_in_range_lookup page dateOffsets (d + 1) o Hrange Hdate)
      as [iso Hiso].
    rewrite (processNextRoute_to_next_date page routes dateOffsets r d None
               route o iso Hroute Hdate Hiso) in Hfst, Hnav.
    simpl in Hfst. subst storage1.
    rewrite (jobs_after_next_date routes dateOffsets r d route o Hroute Hdate) in *.
    simpl in Hlen. injection Hlen as Hlen.
    destruct (IH r (d + 1)
                {| sourceCode := source route; destCode := dest route;
                   daysOffset := Some o; dateStr := Some iso |}
                Hr Hmore Hlen) as [Hst Hjobs].
    unfold job_storage.
    destruct (run_batch rest _) as [storage2 later].
    cbn [fst snd] in *.
    split; [exact Hst|]. rewrite navigations_app, Hnav, Hjobs. reflexivity.
Qed.

Lemma all_jobs_length (routes : list Route) (dateOffsets : list Z) :
  length (all_jobs routes dateOffsets) = length routes * length dateOffsets.
Proof.
  unfold all_jobs. induction routes as [|route rest IH]; simpl; [reflexivity|].
  rewrite length_app, length_map, IH. reflexivity.
Qed.

(** X11: a batch started by [processMultipleRoutesAndDates] on a non-empty
    list of routes and a non-empty list of date offsets, all of them offsets
    whose date [toISOString()] can render, navigates to every combination of a
    route and a date exactly once, route by route and date by date, whatever
    the result pages hold (flights, no flights, a missing structure), and
    after as many page loads as there are combinations both items have been
    removed from the session storage. *)
Theorem batch_visits_every_combination (routes : list Route) (dateOffsets : list Z)
    (page0 : Page) (storage0 : SessionStorage)
    (loads : list (Page * option string)) :
  Forall (fun route => source route <> "" /\ dest route <> "") routes ->
  routes <> [] -> dateOffsets <> [] ->
  dates_in_range page0 dateOffsets ->
  Forall (fun load => result_page (fst load)
                      /\ dates_in_range (fst load) dateOffsets) loads ->
  length loads = length routes * length dateOffsets ->
  exists storage1 first,
    processMultipleRoutesAndDates routes dateOffsets true page0 storage0
    = Normal (storage1, first)
    /\ navigations (first ++ snd (run_batch loads storage1))
       = all_jobs routes dateOffsets
    /\ fst (run_batch loads storage1)
       = {| remainingRoutes := None; pendingExtraction := None |}.
Proof.
  intros Hnames Hroutes Hdates Hrange0 Hloads Hlen.
  destruct routes as [|route rest]; [contradiction|].
  destruct dateOffsets as [|o offsets]; [contradiction|].
  inversion Hnames as [|? ? [Hs Hd] _]; subst.
  destruct (dates_in_range_lookup page0 (o :: offsets) 0 o Hrange0 eq_refl)
    as [iso Hiso].
  set (params := {| sourceCode := source route; destCode := dest route;
                    daysOffset := Some o; dateStr := Some iso |}).
  exists {| remainingRoutes := Some (batch_at (route :: rest) (o :: offsets) 0 0);
            pendingExtraction := Some params |},
         [Navigate (source route) (dest route) o].
  split.
  { unfold processMultipleRoutesAndDates. simpl.
    destruct (String.eqb_spec (source route) ""); [contradiction|].
    destruct (String.eqb_spec (dest route) ""); [contradiction|].
    rewrite Hiso. reflexivity. }
  assert (Hjobs : all_jobs (route :: rest) (o :: offsets)
                  = (source route, dest route, o)
                    :: jobs_after (route :: rest) (o :: offsets) 0 0)
    by reflexivity.
  assert (Hcount : length loads
                   = S (length (jobs_after (route :: rest) (o :: offsets) 0 0))).
  { pose proof (all_jobs_length (route :: rest) (o :: offsets)) as Hall.
    rewrite Hjobs in Hall. simpl in Hall. simpl in Hlen. lia. }
  destruct (run_batch_from (route :: rest) (o :: offsets) loads Hloads 0 0 params
              ltac:(simpl; lia) ltac:(simpl; lia) Hcount) as [Hst Hnav].
  split; [|exact Hst].
  rewrite Hjobs, navigations_app, Hnav. reflexivity.
Qed.

Lemma batch_visits_every_combination_witness :
  exists storage1 first,
    processMultipleRoutesAndDates (routes sample_batch) (dateOffsets sample_batch)
      true sample_page sample_storage
    = Normal (storage1, first)
    /\ navigations (first ++ snd (run_batch sample_loads storage1))
       = all_jobs (routes sample_batch) (dateOffsets sample_batch)
    /\ fst (run_batch sample_loads storage1)
       = {| remainingRoutes := None; pendingExtraction := None |}.
Proof.
  assert (Hrange : forall page,
            page_iso_date page = sample_iso_date "2024-01-16" ->
            dates_in_range page (dateOffsets sample_batch)).
  { intros page Hclock. unfold dates_in_range. rewrite Hclock.
    repeat (constructor; [eexists; reflexivity|]). constructor. }
  apply (batch_visits_every_combination (routes sample_batch)
           (dateOffsets sample_batch) sample_page sample_storage sample_loads).
  - repeat constructor; discriminate.
  - discriminate.
  - discriminate.
  - apply Hrange. reflexivity.
  - repeat (constructor;
            [split; [split; [reflexivity|discriminate]|apply Hrange; reflexivity]|]).
    constructor.
  - reflexivity.
Defined.

(** ** A date that cannot be rendered *)

(** X19: when the date of the job to come is outside the range of [Date],
    [toISOString()] raises after the batch state has been written: the
    orchestrator has advanced the stored indices to that job, but it writes no
    extraction parameters and does not navigate, so no page load follows and
    the batch stops there.  [processMultipleRoutesAndDates] stops in the same
    way on the first job. *)
Theorem date_out_of_range_stops_batch (page : Page) (routes : list Route)
    (dateOffsets : list Z) (r d : nat) (pe : option ExtractionParams)
    (route : Route) :
  routes !! r = Some route ->
  let storage := {| remainingRoutes := Some (batch_at routes dateOffsets r d);
                    pendingExtraction := pe |} in
  (forall o,
     dateOffsets !! (d + 1) = Some o ->
     page_iso_date page o = Throw ->
     processNextRoute page storage
     = ({| remainingRoutes := Some (batch_at routes dateOffsets r (d + 1));
           pendingExtraction := pe |},
        [job_progress routes dateOffsets r d route]))
  /\ (forall next o,
        length dateOffsets <= d + 1 ->
        routes !! (r + 1) = Some next ->
        dateOffsets !! 0 = Some o ->
        page_iso_date page o = Throw ->
        processNextRoute page storage
        = ({| remainingRoutes := Some (batch_at routes dateOffsets (r + 1) 0);
              pendingExtraction := pe |},
           [job_progress routes dateOffsets r d route]))
  /\ (forall o,
        r = 0 -> source route <> "" -> dest route <> "" ->
        dateOffsets !! 0 = Some o ->
        page_iso_date page o = Throw ->
        processMultipleRoutesAndDates routes dateOffsets true page storage
        = Normal ({| remainingRoutes := Some (batch_at routes dateOffsets 0 0);
                     pendingExtraction := pe |}, [])).
Proof.
  intros Hroute storage. subst storage. split; [|split].
  - intros o Hdate Hiso. unfold processNextRoute. simpl. rewrite Hroute.
    apply lookup_lt_Some in Hdate as Hlt.
    destruct (Z.ltb_spec (Z.of_nat d) (Z.of_nat (length dateOffsets) - 1))
      as [_|Hge]; [|lia].
    rewrite Hdate, Hiso. reflexivity.
  - intros next o Hlast Hnext Hdate Hiso. unfold processNextRoute. simpl.
    rewrite Hroute.
    destruct (Z.ltb_spec (Z.of_nat d) (Z.of_nat (length dateOffsets) - 1))
      as [Hlt|_]; [lia|].
    apply lookup_lt_Some in Hnext as Hlt.
    destruct (Z.ltb_spec (Z.of_nat r) (Z.of_nat (length routes) - 1))
      as [_|Hge]; [|lia].
    rewrite Hnext, Hdate, Hiso. reflexivity.
  - intros o -> Hs Hd Hdate Hiso. unfold processMultipleRoutesAndDates.
    rewrite Hroute.
    destruct (String.eqb_spec (source route) ""); [contradiction|].
    destruct (String.eqb_spec (dest route) ""); [contradiction|].
    rewrite Hdate, Hiso. reflexivity.
Qed.

Lemma date_out_of_range_stops_batch_witness :
  processNextRoute sample_page far_date_storage
  = ({| remainingRoutes :=
          Some (batch_at (routes sample_batch) [1%Z; 1000000000%Z] 0 (0 + 1));
        pendingExtraction := None |},
     [job_progress (routes sample_batch) [1%Z; 1000000000%Z] 0 0
        {| source := "BLR"; dest := "PAT" |}]).
Proof.
  apply (proj1 (date_out_of_range_stops_batch sample_page (routes sample_batch)
                  [1%Z; 1000000000%Z] 0 0 None
                  {| source := "BLR"; dest := "PAT" |} eq_refl)
           1000000000%Z); reflexivity.
Defined.

(** ** An empty list of date offsets *)

(** X12: with an empty list of date offsets the orchestrator never navigates.
    [processNextRoute] only sends progress updates; when a later route is
    left it still writes the index of that route into the storage, so the
    state stays behind with no page load to resume it. *)
Theorem processNextRoute_without_dates (page : Page) (storage : SessionStorage)
    (b : BatchState) :
  remainingRoutes storage = Some b ->
  dateOffsets b = [] ->
  navigations (snd (processNextRoute page storage)) = []
  /\ (currentRouteIndex b + 1 < length (routes b) ->
      fst (processNextRoute page storage)
      = {| remainingRoutes :=
             Some (batch_at (routes b) [] (currentRouteIndex b + 1) 0);
           pendingExtraction := pendingExtraction storage |}).
Proof.
  intros Hb Hdates. unfold processNextRoute. rewrite Hb.
  destruct (routes b !! currentRouteIndex b) as [route|] eqn:Hroute.
  - destruct (Z.ltb_spec (Z.of_nat (currentDateIndex b))
                (Z.of_nat (length (dateOffsets b)) - 1)) as [Hlt|_];
      [rewrite Hdates in Hlt; simpl in Hlt; lia|].
    destruct (Z.ltb_spec (Z.of_nat (currentRouteIndex b))
                (Z.of_nat (length (routes b)) - 1)) as [Hlt|Hge].
    + destruct (lookup_lt_is_Some_2 (routes b) (currentRouteIndex b + 1)
                  ltac:(lia)) as [next ->].
      rewrite Hdates. simpl. split; [reflexivity|]. intros _. reflexivity.
    + simpl. split; [reflexivity|]. intros Hmore. lia.
  - split; [reflexivity|]. intros Hmore.
    apply lookup_ge_None in Hroute. lia.
Qed.

Lemma processNextRoute_without_dates_witness :
  navigations (snd (processNextRoute sample_page dateless_storage)) = []
  /\ (0 + 1 < length (routes sample_batch) ->
      fst (processNextRoute sample_page dateless_storage)
      = {| remainingRoutes := Some (batch_at (routes sample_batch) [] (0 + 1) 0);
           pendingExtraction := None |}).
Proof.
  apply (processNextRoute_without_dates sample_page dateless_storage
           (batch_at (routes sample_batch) [] 0 0)); reflexivity.
Defined.

(** ** Reading the stored parameters after a navigation *)



(** ** The itinerary of the search URL *)

Example search_date_sample : search_date sample_date = "05/01/2024".
Proof. reflexivity. Qed.

Example split_sample : split "-" "BLR-PAT-05/01/2024" = ["BLR"; "PAT"; "05/01/2024"].
Proof. reflexivity. Qed.

Example split_empty_parts : split "-" "a--b-" = ["a"; ""; "b"; ""].
Proof. reflexivity. Qed.

Lemma split_not_nil (sep : ascii) (s : string) : split sep s <> [].
Proof.
  destruct s as [|c rest]; simpl; [discriminate|].
  destruct (Ascii.eqb c sep); [discriminate|].
  destruct (split sep rest); discriminate.
Qed.

Lemma join_split (s : string) : join "-" (split "-" s) = s.
Proof.
  unfold join. induction s as [|c rest IH]; [reflexivity|]. simpl split.
  pose proof (split_not_nil "-" rest) as Hne.
  destruct (Ascii.eqb_spec c "-") as [->|Hc].
  - destruct (split "-" rest) as [|part parts]; [contradiction|].
    simpl in *. rewrite IH. reflexivity.
  - destruct (split "-" rest) as [|part parts]; [contradiction|].
    destruct parts as [|part' parts]; simpl in *; rewrite <- IH; reflexivity.
Qed.

Lemma includes_dash_cons (c : ascii) (s : string) :
  includes (String c s) "-" = false ->
  Ascii.eqb c "-" = false /\ includes s "-" = false.
Proof.
  cbn [includes String.prefix].
  destruct (Ascii.ascii_dec "-" c) as [Heq|Hc]; intros H;
    [destruct s; discriminate H|].
  split; [|exact H].
  apply Ascii.eqb_neq. congruence.
Qed.

Lemma split_before_dash (s rest : string) :
  includes s "-" = false ->
  split "-" (s +:+ "-" +:+ rest) = s :: split "-" rest.
Proof.
  induction s as [|c s IH]; intros Hs; [reflexivity|].
  apply includes_dash_cons in Hs as [Hc Hs].
  change (split "-" (String c (s +:+ "-" +:+ rest))
          = String c s :: split "-" rest).
  cbn [split]. rewrite Hc, (IH Hs). reflexivity.
Qed.

Lemma upper_char_dash (c : ascii) :
  Ascii.eqb c "-" = false -> Ascii.eqb (upper_char c) "-" = false.
Proof.
  destruct c as [[] [] [] [] [] [] [] []]; vm_compute; congruence.
Qed.

Lemma toUpperCase_no_dash (s : string) :
  includes s "-" = false -> includes (toUpperCase s) "-" = false.
Proof.
  induction s as [|c s IH]; intros Hs; [reflexivity|].
  apply includes_dash_cons in Hs as [Hc Hs].
  cbn [toUpperCase includes String.prefix].
  pose proof (upper_char_dash c Hc) as Hu.
  destruct (Ascii.ascii_dec "-" (upper_char c)) as [Heq|_].
  - rewrite <- Heq in Hu. discriminate.
  - apply IH. exact Hs.
Qed.

(** X14: the itinerary that [constructFlightSearchUrl] puts into the search
    parameters is read back by [checkAndAutoExtract]: on a result page with
    no stored parameters, the extraction is scheduled for the upper-cased
    source and destination codes and the DD/MM/YYYY date, provided neither
    code contains a hyphen. *)
Theorem itinerary_round_trip (page : Page) (storage : SessionStorage)
    (sourceCode destCode : string) (departureDate : JsDate) (tripType : string)
    (isInternational : bool) (adults children infants : nat)
    (cabinClass : string) :
  result_page page ->
  pendingExtraction storage = None ->
  is_ascii_string sourceCode = true -> is_ascii_string destCode = true ->
  includes sourceCode "-" = false -> includes destCode "-" = false ->
  checkAndAutoExtract page
    (params_get "itinerary"
       (flightSearchParams sourceCode destCode departureDate tripType
          isInternational adults children infants cabinClass))
    false storage
  = (true, storage,
     Some {| sourceCode := toUpperCase sourceCode;
             destCode := toUpperCase destCode;
             daysOffset := None;
             dateStr := Some (search_date departureDate) |}).
Proof.
  intros [Hurl Hintl] Hpending _ _ Hsource Hdest.
  unfold checkAndAutoExtract. rewrite Hurl, Hpending.
  rewrite bool_decide_eq_false_2 by exact Hintl.
  cbn [flightSearchParams params_get String.eqb Ascii.eqb Bool.eqb].
  set (date := search_date departureDate).
  assert (Htruthy : js_truthy
            (Some (toUpperCase sourceCode +:+ "-" +:+ toUpperCase destCode
                   +:+ "-" +:+ date)) = true).
  { simpl. destruct (toUpperCase sourceCode); reflexivity. }
  rewrite Htruthy. cbn [or_empty].
  rewrite (split_before_dash (toUpperCase sourceCode)
             (toUpperCase destCode +:+ "-" +:+ date)
             (toUpperCase_no_dash sourceCode Hsource)).
  rewrite (split_before_dash (toUpperCase destCode) date
             (toUpperCase_no_dash destCode Hdest)).
  pose proof (split_not_nil "-" date) as Hne.
  destruct (split "-" date) as [|part parts] eqn:Hsplit; [contradiction|].
  cbn [length Nat.leb nth drop]. rewrite <- Hsplit, join_split. reflexivity.
Qed.

Lemma itinerary_round_trip_witness :
  checkAndAutoExtract sample_page
    (params_get "itinerary"
       (flightSearchParams "blr" "pat" sample_date "O" false 1 0 0 "E"))
    false fresh_storage
  = (true, fresh_storage,
     Some {| sourceCode := toUpperCase "blr"; destCode := toUpperCase "pat";
             daysOffset := None; dateStr := Some (search_date sample_date) |}).
Proof.
  apply (itinerary_round_trip sample_page fresh_storage "blr" "pat" sample_date
           "O" false 1 0 0 "E");
    [split; [reflexivity|discriminate] | reflexivity | reflexivity
    | reflexivity | reflexivity | reflexivity].
Defined.

(** ** What the popup shows during a batch *)

Lemma updateProgress_shown (completed total : nat) (details : string)
    (st : PopupState) :
  completedCombinations (updateProgress completed total details st) = completed
  /\ totalCombinations (updateProgress completed total details st) = total
  /\ (progressText (updateProgress completed total details st) = "Completed!"
      <-> total <= completed /\ 0 < total).
Proof.
  unfold updateProgress.
  destruct (Nat.leb_spec total completed) as [Hle|Hlt];
    destruct (Nat.ltb_spec 0 total) as [Hpos|Hzero]; simpl;
    (split; [reflexivity|]); (split; [reflexivity|]);
    (split; [try discriminate; auto | intros [? ?]; try reflexivity; lia]).
Qed.

(** X15: after the messages of one orchestrator step the popup shows the
    number of the job just finished out of the number of combinations; that
    number never exceeds the total, and the popup reads Completed! exactly
    when the job was the last one of the batch. *)
Theorem popup_completed_at_last_job (page : Page) (storage : SessionStorage)
    (b : BatchState) (st0 : PopupState) :
  remainingRoutes storage = Some b ->
  currentRouteIndex b < length (routes b) ->
  currentDateIndex b < length (dateOffsets b) ->
  let shown := fold_left popup_onMessage (snd (processNextRoute page storage)) st0 in
  let done := currentRouteIndex b * length (dateOffsets b)
              + currentDateIndex b + 1 in
  let total := length (routes b) * length (dateOffsets b) in
  completedCombinations shown = done
  /\ totalCombinations shown = total
  /\ done <= total
  /\ (progressText shown = "Completed!" <-> done = total).
Proof.
  intros Hb Hr Hd shown done total. subst shown.
  assert (Hle : done <= total) by (subst done total; nia).
  unfold processNextRoute. rewrite Hb.
  destruct (lookup_lt_is_Some_2 (routes b) (currentRouteIndex b) Hr) as [route ->].
  fold done. fold total.
  destruct (Z.ltb_spec (Z.of_nat (currentDateIndex b))
              (Z.of_nat (length (dateOffsets b)) - 1)) as [Hdate|Hdate].
  - destruct (lookup_lt_is_Some_2 (dateOffsets b) (currentDateIndex b + 1)
                ltac:(lia)) as [o ->].
    destruct (page_iso_date page o);
      cbn [snd fst app fold_left popup_onMessage];
      match goal with
      | |- context [updateProgress done total ?details st0] =>
          destruct (updateProgress_shown done total details st0)
            as (-> & -> & Htext)
      end;
      (repeat split; try assumption;
       [intros H; apply Htext in H; subst done total; nia
       |intros H; apply Htext; subst done total; nia]).
  - destruct (Z.ltb_spec (Z.of_nat (currentRouteIndex b))
                (Z.of_nat (length (routes b)) - 1)) as [Hroute|Hroute].
    + destruct (lookup_lt_is_Some_2 (routes b) (currentRouteIndex b + 1)
                  ltac:(lia)) as [next ->].
      destruct (lookup_lt_is_Some_2 (dateOffsets b) 0 ltac:(lia)) as [o ->].
      destruct (page_iso_date page o);
        cbn [snd fst app fold_left popup_onMessage];
        match goal with
        | |- context [updateProgress done total ?details st0] =>
            destruct (updateProgress_shown done total details st0)
              as (-> & -> & Htext)
        end;
        (repeat split; try assumption;
         [intros H; apply Htext in H; subst done total; nia
         |intros H; apply Htext; subst done total; nia]).
    + assert (Hlast : done = total) by (subst done total; nia).
      cbn [snd fst app fold_left popup_onMessage].
      match goal with
      | |- context [updateProgress total total ?details (updateProgress ?c ?t ?d ?s)] =>
          destruct (updateProgress_shown total total details
                      (updateProgress c t d s)) as (-> & -> & Htext)
      end.
      assert (Hpos : 0 < total) by (rewrite <- Hlast; unfold done; lia).
      split; [symmetry; exact Hlast|]. split; [reflexivity|].
      split; [exact Hle|].
      split; [intros _; exact Hlast|].
      intros _. apply Htext. split; [lia|exact Hpos].
Qed.

Lemma popup_completed_at_last_job_witness :
  progressText
    (fold_left popup_onMessage
       (snd (processNextRoute sample_page single_job_storage)) blank_popup)
  = "Completed!" <-> 0 * 1 + 0 + 1 = 1 * 1.
Proof.
  apply (popup_completed_at_last_job sample_page single_job_storage
           (batch_at [ {| source := "BLR"; dest := "PAT" |} ] [1%Z] 0 0)
           blank_popup); [reflexivity | simpl; lia | simpl; lia].
Defined.

(** ** The log buffer *)

(** X16: [Logger.log] keeps a buffer of at most 10000 entries bounded: the
    new entry is always the last one; below the bound nothing is dropped; at
    the bound the oldest entry is dropped, the length stays 10000, and since
    10000 is a multiple of 10 the call saves the logs to storage, as does
    every later call. *)
Theorem Logger_log_bounded (timestamp url level message : string)
    (data : option string) (logs : list LogEntry) :
  length logs <= maxLogs ->
  let entry := {| log_timestamp := timestamp; log_level := level;
                  log_message := message; log_data := data; log_url := url |} in
  let result := Logger_log timestamp url level message data logs in
  length (fst result) <= maxLogs
  /\ last (fst result) = Some entry
  /\ (length logs < maxLogs ->
      fst result = logs ++ [entry]
      /\ snd result = (S (length logs) mod 10 =? 0)%nat)
  /\ (length logs = maxLogs ->
      fst result = drop 1 logs ++ [entry]
      /\ length (fst result) = maxLogs
      /\ snd result = true).
Proof.
  intros Hbound entry result. subst result. unfold Logger_log. fold entry.
  rewrite length_app. cbn [length].
  assert (Hpos : 0 < maxLogs) by (unfold maxLogs; lia).
  destruct (Nat.ltb_spec maxLogs (length logs + 1)) as [Hfull|Hroom];
    cbn [fst snd].
  - assert (Hlen : length logs = maxLogs) by lia.
    assert (Hdrop : drop 1 (logs ++ [entry]) = drop 1 logs ++ [entry]).
    { destruct logs; [simpl in Hlen; lia|reflexivity]. }
    rewrite Hdrop, length_app, length_drop. cbn [length].
    split; [lia|]. split; [apply last_snoc|]. split; [lia|].
    intros _. split; [reflexivity|]. split; [lia|].
    replace (length logs - 1 + 1) with maxLogs by lia.
    vm_compute. reflexivity.
  - rewrite length_app. cbn [length].
    split; [lia|]. split; [apply last_snoc|]. split.
    + intros _. split; [reflexivity|]. f_equal. f_equal. lia.
    + intros Hlen. lia.
Qed.

Lemma Logger_log_bounded_witness :
  length (fst (Logger_log "t" "u" "info" "m" None [])) <= maxLogs
  /\ last (fst (Logger_log "t" "u" "info" "m" None []))
     = Some {| log_timestamp := "t"; log_level := "info"; log_message := "m";
               log_data := None; log_url := "u" |}
  /\ (length ([] : list LogEntry) < maxLogs ->
      fst (Logger_log "t" "u" "info" "m" None [])
      = [] ++ [ {| log_timestamp := "t"; log_level := "info"; log_message := "m";
                   log_data := None; log_url := "u" |} ]
      /\ snd (Logger_log "t" "u" "info" "m" None [])
         = (S (length ([] : list LogEntry)) mod 10 =? 0)%nat)
  /\ (length ([] : list LogEntry) = maxLogs ->
      fst (Logger_log "t" "u" "info" "m" None [])
      = drop 1 [] ++ [ {| log_timestamp := "t"; log_level := "info";
                          log_message := "m"; log_data := None;
                          log_url := "u" |} ]
      /\ length (fst (Logger_log "t" "u" "info" "m" None [])) = maxLogs
      /\ snd (Logger_log "t" "u" "info" "m" None []) = true).
Proof.
  apply (Logger_log_bounded "t" "u" "info" "m" None []).
  apply Nat.le_0_l.
Defined.

(** ** Waiting for the listing *)

Lemma poll_from_spec (polls : nat -> ReadyPoll) (remaining : nat) :
  forall attempts : nat,
    let result := poll_from polls attempts remaining in
    (forall j, attempts <= j < snd result - (if fst result then 1 else 0) ->
               totalCards (polls j) = 0)
    /\ (if fst result
        then attempts < snd result <= attempts + remaining
             /\ 0 < totalCards (polls (snd result - 1))
        else snd result = attempts + remaining).
Proof.
  induction remaining as [|remaining IH]; intros attempts; simpl.
  - split; [intros j Hj; lia|lia].
  - destruct (Nat.ltb_spec 0 (totalCards (polls attempts))) as [Hpos|Hzero];
      simpl.
    + split; [intros j Hj; lia|]. split; [lia|].
      replace (attempts - 0) with attempts by lia. exact Hpos.
    + destruct (IH (S attempts)) as [Hnone Hres].
      destruct (poll_from polls (S attempts) remaining) as [[] polled];
        simpl in *.
      * split; [|split; [lia|apply Hres]].
        intros j Hj. destruct (Nat.eq_dec j attempts) as [->|Hne]; [lia|].
        apply Hnone. lia.
      * split; [|lia].
        intros j Hj. destruct (Nat.eq_dec j attempts) as [->|Hne]; [lia|].
        apply Hnone. lia.
Qed.

(** X17: [waitForPageReady] polls at most 40 times.  It answers true exactly
    when one of the first 40 polls sees an element of the listing, and then
    it has stopped at the first such poll; it answers false after 40 polls
    that saw nothing. *)
Theorem waitForPageReady_first_sighting (polls : nat -> ReadyPoll) :
  let ready := fst (waitForPageReady polls) in
  let polled := snd (waitForPageReady polls) in
  (ready = true <-> exists k, k < 40 /\ 0 < totalCards (polls k))
  /\ polled <= 40
  /\ (ready = true ->
      0 < totalCards (polls (polled - 1))
      /\ forall j, j < polled - 1 -> totalCards (polls j) = 0)
  /\ (ready = false -> polled = 40).
Proof.
  intros ready polled. subst ready polled. unfold waitForPageReady.
  destruct (poll_from_spec polls 40 0) as [Hnone Hres].
  destruct (poll_from polls 0 40) as [[] polled]; simpl in *.
  - destruct Hres as [Hrange Hpos]. split.
    + split; [|reflexivity]. intros _. exists (polled - 1). split; [lia|exact Hpos].
    + split; [lia|]. split; [|discriminate].
      intros _. split; [exact Hpos|]. intros j Hj. apply Hnone. lia.
  - subst polled. split.
    + split; [discriminate|]. intros (k & Hk & Hpos).
      rewrite (Hnone k) in Hpos by lia. lia.
    + split; [lia|]. split; [discriminate|reflexivity].
Qed.

Example waitForPageReady_slow_listing :
  waitForPageReady slow_listing = (true, 3).
Proof. reflexivity. Qed.

(** ** Keys that coincide *)

Lemma js_truthy_append (a b : string) :
  a <> "" -> js_truthy (Some (a +:+ b)) = true.
Proof. destruct a; [congruence|reflexivity]. Qed.

(** X18: the identity key does not tell where the flight code ends and the
    departure time begins: a record with flight code [code_x] and departure
    time [dep] and a record with flight code [code] and departure time
    [x_dep], equal otherwise, receive the same key, so the second of them is
    dropped as a duplicate of the first. *)
Theorem generateFlightKey_separator_collision (f : Flight) (code x dep : string)
    (seen : gset string) :
  code <> "" ->
  let f1 := set_departure_time (Some dep)
              (set_flight_code (Some (code +:+ "_" +:+ x)) f) in
  let f2 := set_departure_time (Some (x +:+ "_" +:+ dep))
              (set_flight_code (Some code) f) in
  generateFlightKey f1 = generateFlightKey f2
  /\ fst (isDuplicateFlight (Some f2) (snd (isDuplicateFlight (Some f1) seen)))
     = true.
Proof.
  intros Hcode f1 f2.
  assert (Hkey : generateFlightKey f1 = generateFlightKey f2).
  { unfold generateFlightKey. subst f1 f2. cbn [flight_code set_departure_time
      set_flight_code direction departure_time arrival_time].
    rewrite (js_truthy_append code ("_" +:+ x) Hcode).
    assert (Hc : js_truthy (Some code) = true)
      by (destruct code; [congruence|reflexivity]).
    rewrite Hc. cbn [or_empty].
    rewrite !append_assoc_string. reflexivity. }
  split; [exact Hkey|].
  rewrite isDuplicateFlight_snd. unfold isDuplicateFlight. rewrite <- Hkey.
  destruct (decide (generateFlightKey f1 ∈ {[generateFlightKey f1]} ∪ seen))
    as [_|Hnot]; [reflexivity|].
  exfalso. apply Hnot. set_solver.
Qed.

Lemma generateFlightKey_separator_collision_witness :
  generateFlightKey
    (set_departure_time (Some "08:30") (set_flight_code (Some ("6E" +:+ "_" +:+ "21")) sample_flight))
  = generateFlightKey
      (set_departure_time (Some ("21" +:+ "_" +:+ "08:30"))
         (set_flight_code (Some "6E") sample_flight))
  /\ fst (isDuplicateFlight
            (Some (set_departure_time (Some ("21" +:+ "_" +:+ "08:30"))
                     (set_flight_code (Some "6E") sample_flight)))
            (snd (isDuplicateFlight
                    (Some (set_departure_time (Some "08:30")
                             (set_flight_code (Some ("6E" +:+ "_" +:+ "21"))
                                sample_flight))) ∅)))
     = true.
Proof.
  apply (generateFlightKey_separator_collision sample_flight "6E" "21" "08:30" ∅).
  discriminate.
Defined.
